(** * AIYODHA financial firewall: policy engine and client guard

    A shallow embedding of [src/policy_engine/server.py] (the fallback store
    [MockRedis], [DistributedLock], the [heartbeat], [kill_switch],
    [get_status] and statistics endpoints) and of
    [src/aiyodha_sdk/wrapper.py] ([AiyodhaClient]), followed by the
    properties established about them.

    Conventions of the embedding.
    - A Python [float] is a binary64 number: the kernel's primitive [float],
      with its correctly rounded operations.
    - A Python [str] held by the store is a [text]: a literal, or the [str()]
      of a float or of an int.  [float(str(x))] is [x] again for every
      float, so the rendered digits are never needed.
    - Coroutines are functions on an explicit [World]: the store, the wall
      clock read by [time.time()], and the record of the commands issued.
    - A raised exception is the [Raise] outcome of a computation.
    - Concurrent requests are coroutines cut at their [await]s: a [pool] of
      program points over one store, resumed one at a time in any order. *)

From Stdlib Require Import ZArith List Floats QArith Lia Sorted.
From stdpp Require Import base gmap strings list.

(* Decimal literals such as 0.05 denote the nearest binary64 number, as in Python. *)
Set Warnings "-inexact-float".
Local Open Scope Z_scope.
Local Open Scope string_scope.

(** ** Binary64 helpers *)

Module F.
(** [float(n)] for a Python int: the binary64 number nearest to [n]. *)
Definition of_int (n : Z) : float :=
  SF2Prim (binary_normalize prec emax n 0 false).

(** The rational number a finite float stands for. *)
Definition to_Q (x : float) : option Q :=
  match Prim2SF x with
  | S754_zero _ => Some 0%Q
  | S754_finite s m e =>
      let mag := (match e with
                  | Z0 => inject_Z (Zpos m)
                  | Zpos p => inject_Z (Zpos m * 2 ^ Zpos p)
                  | Zneg p => Qmake (Zpos m) (2 ^ p)
                  end)%Z in
      Some (if s then Qopp mag else mag)
  | S754_infinity _ | S754_nan => None
  end.
End F.

(** ** Python values *)

(** A [str] as the store holds it. *)
Inductive text :=
| Lit (s : string)   (* a literal that is not a numeral: "true", "locked", ... *)
| Repr (f : float)   (* str(f) of a float f *)
| Dec (n : Z).       (* str(n) of an int n *)

Inductive pyval :=
| PyNone
| PyBool (b : bool)
| PyInt (n : Z)
| PyFloat (f : float)
| PyStr (t : text).

Inductive exn :=
| HTTPException (status_code : Z) (detail : string)
| AttributeError (attr : string)
| ValueError
| TypeError
| ResponseError (msg : string)                       (* an error reply of the store *)
| BudgetExceededError (msg : string)                 (* aiyodha_sdk/exceptions.py *)
| CircuitBreakerTrippedError (until remaining : float).

Inductive outcome (A : Type) :=
| Ret (a : A)
| Raise (e : exn)
| Spinning.          (* the busy-wait had not finished when the fuel ran out *)
Arguments Ret {A} a.
Arguments Raise {A} e.
Arguments Spinning {A}.

Definition str (v : pyval) : text :=
  match v with
  | PyNone => Lit "None"
  | PyBool true => Lit "True"
  | PyBool false => Lit "False"
  | PyInt n => Dec n
  | PyFloat f => Repr f
  | PyStr t => t
  end.

(** [float(v)] *)
Definition py_float (v : pyval) : outcome float :=
  match v with
  | PyNone => Raise TypeError
  | PyBool b => Ret (if b then 1%float else 0%float)
  | PyInt n => Ret (F.of_int n)
  | PyFloat f => Ret f
  | PyStr (Repr f) => Ret f
  | PyStr (Dec n) => Ret (F.of_int n)
  | PyStr (Lit _) => Raise ValueError
  end.

(** Truth value of [v] in [if v] and [not v]. *)
Definition truthy (v : pyval) : bool :=
  match v with
  | PyNone => false
  | PyBool b => b
  | PyInt n => negb (Z.eqb n 0)
  | PyFloat f => negb (PrimFloat.eqb f 0%float)
  | PyStr (Lit s) => negb (String.eqb s "")
  | PyStr _ => true
  end.

(** [v == "true"] *)
Definition is_true_text (v : pyval) : bool :=
  match v with
  | PyStr (Lit s) => String.eqb s "true"
  | _ => false
  end.

(** ** The store interface

    [redis_client] is duck-typed: the engine awaits methods on whatever
    object was chosen at startup.  A [command] is one such method call. *)

Inductive command :=
| GET (key : string)
| SET (key : string) (value : pyval)
| SETNX (key : string) (value : pyval)
| DELETE (key : string)
| DECRBY (key : string) (amount : float)
| INCRBYFLOAT (key : string) (amount : float)
| EXPIRE (key : string) (time : Z)
| INCR (key : string).

Class RedisClient (St : Type) :=
  call : command -> St -> outcome pyval * St.

(** ** MockRedis (server.py, lines 48-92) *)

Module MockRedis.
(** [self.data] *)
Abbreviation data := (gmap string text).

Definition get (key : string) (d : data) : outcome pyval * data :=
  (Ret (match d !! key with Some t => PyStr t | None => PyNone end), d).

Definition set (key : string) (value : pyval) (d : data) : outcome pyval * data :=
  (Ret (PyBool true), <[key := str value]> d).

Definition setnx (key : string) (value : pyval) (d : data) : outcome pyval * data :=
  match d !! key with
  | Some _ => (Ret (PyBool false), d)
  | None => (Ret (PyBool true), <[key := str value]> d)
  end.

Definition delete (key : string) (d : data) : outcome pyval * data :=
  match d !! key with
  | Some _ => (Ret (PyInt 1), base.delete key d)
  | None => (Ret (PyInt 0), d)
  end.

(** [float(self.data.get(key, 0))] *)
Definition current (key : string) (d : data) : outcome float :=
  py_float (match d !! key with Some t => PyStr t | None => PyInt 0 end).

Definition decrby (key : string) (amount : float) (d : data) : outcome pyval * data :=
  match current key d with
  | Ret val =>
      let val := PrimFloat.sub val amount in
      (Ret (PyFloat val), <[key := str (PyFloat val)]> d)
  | Raise e => (Raise e, d)
  | Spinning => (Spinning, d)
  end.

Definition incrbyfloat (key : string) (amount : float) (d : data) : outcome pyval * data :=
  match current key d with
  | Ret val =>
      let val := PrimFloat.add val amount in
      (Ret (PyFloat val), <[key := str (PyFloat val)]> d)
  | Raise e => (Raise e, d)
  | Spinning => (Spinning, d)
  end.

Definition expire (key : string) (time : Z) (d : data) : outcome pyval * data :=
  (Ret (PyBool true), d).

(** Attribute lookup on a [MockRedis] object: the class defines no [incr]. *)
Definition getattr (c : command) (d : data) : outcome pyval * data :=
  match c with
  | GET key => get key d
  | SET key value => set key value d
  | SETNX key value => setnx key value d
  | DELETE key => delete key d
  | DECRBY key amount => decrby key amount d
  | INCRBYFLOAT key amount => incrbyfloat key amount d
  | EXPIRE key time => expire key time d
  | INCR _ => (Raise (AttributeError "incr"), d)
  end.
End MockRedis.

Definition MockRedis_client : RedisClient (gmap string text) :=
  MockRedis.getattr.

(** ** The Ledger Store the specification describes

    The store of the design (section 4.5): get, set, conditional
    set-if-absent, delete, increment and decrement by a floating amount,
    expiry, and the integer increment behind the global counters
    (section 3).  It is written from the specification's words, to be
    compared with [MockRedis].  A key's time to live is not represented:
    nothing below depends on a key expiring. *)

Module LedgerStore.
Definition number (key : string) (d : gmap string text) : outcome float :=
  match d !! key with
  | None => Ret 0%float
  | Some (Repr f) => Ret f
  | Some (Dec n) => Ret (F.of_int n)
  | Some (Lit _) => Raise ValueError
  end.

Definition exec (c : command) (d : gmap string text) : outcome pyval * gmap string text :=
  match c with
  | GET key => (Ret (from_option PyStr PyNone (d !! key)), d)
  | SET key value => (Ret (PyBool true), <[key := str value]> d)
  | SETNX key value =>
      if decide (is_Some (d !! key)) then (Ret (PyBool false), d)
      else (Ret (PyBool true), <[key := str value]> d)
  | DELETE key =>
      (Ret (PyInt (if decide (is_Some (d !! key)) then 1 else 0)), base.delete key d)
  | INCRBYFLOAT key amount =>
      match number key d with
      | Ret f => (Ret (PyFloat (PrimFloat.add f amount)),
                  <[key := Repr (PrimFloat.add f amount)]> d)
      | Raise e => (Raise e, d)
      | Spinning => (Spinning, d)
      end
  | DECRBY key amount =>
      match number key d with
      | Ret f => (Ret (PyFloat (PrimFloat.sub f amount)),
                  <[key := Repr (PrimFloat.sub f amount)]> d)
      | Raise e => (Raise e, d)
      | Spinning => (Spinning, d)
      end
  | EXPIRE key time => (Ret (PyBool true), d)
  | INCR key =>
      match d !! key with
      | None => (Ret (PyInt 1), <[key := Dec 1]> d)
      | Some (Dec n) => (Ret (PyInt (n + 1)), <[key := Dec (n + 1)]> d)
      | Some _ => (Raise (ResponseError "value is not an integer"), d)
      end
  end.
End LedgerStore.

Definition LedgerStore_client : RedisClient (gmap string text) :=
  LedgerStore.exec.

(** ** The world a coroutine runs in *)

Inductive event :=
| Cmd (c : command)     (* a method awaited on [redis_client] *)
| Sleep (d : float).    (* [await asyncio.sleep(d)] *)

Record World (St : Type) := mkWorld {
  redis : St;           (* the state behind [redis_client] *)
  now : float;          (* what [time.time()] returns *)
  trace : list event;   (* newest first *)
}.
Arguments mkWorld {St} _ _ _.
Arguments redis {St} _.
Arguments now {St} _.
Arguments trace {St} _.

(** What the event loop and the other tasks do to the store and the clock
    while a coroutine is suspended in [asyncio.sleep]. *)
Class EventLoop (St : Type) :=
  suspended : float -> St * float -> St * float.

Definition IO (St A : Type) := World St -> outcome A * World St.

#[export] Instance IO_ret {St} : MRet (IO St) :=
  fun A a w => (Ret a, w).
#[export] Instance IO_bind {St} : MBind (IO St) :=
  fun A B k m w =>
    match m w with
    | (Ret a, w') => k a w'
    | (Raise e, w') => (Raise e, w')
    | (Spinning, w') => (Spinning, w')
    end.

Definition raise {St A} (e : exn) : IO St A := fun w => (Raise e, w).
Definition lift {St A} (r : outcome A) : IO St A := fun w => (r, w).

Section Engine.
Context {St : Type} {RC : RedisClient St} {EL : EventLoop St}.

(** [await redis_client.<c>] *)
Definition await (c : command) : IO St pyval :=
  fun w =>
    let (r, s) := call c (redis w) in
    (r, mkWorld s (now w) (Cmd c :: trace w)).

Definition time_time : IO St float := fun w => (Ret (now w), w).

Definition asyncio_sleep (d : float) : IO St unit :=
  fun w =>
    let (s, t) := suspended d (redis w, now w) in
    (Ret tt, mkWorld s t (Sleep d :: trace w)).

(** *** DistributedLock (server.py, lines 94-118) *)

Record DistributedLock := mkLock {
  resource : string;
  timeout : Z;
  is_locked : bool;
}.

(** [DistributedLock(redis_client, resource)], with [lock_timeout = 5]. *)
Definition DistributedLock_init (res : string) : DistributedLock :=
  {| resource := "lock:" +:+ res; timeout := 5; is_locked := false |}.

(** The [while True] loop of [__aenter__]; one unit of fuel per attempt. *)
Fixpoint aenter_loop (fuel : nat) (self : DistributedLock) (start_time : float)
  : IO St DistributedLock :=
  match fuel with
  | O => lift Spinning
  | S fuel' =>
      got ← await (SETNX (resource self) (PyStr (Lit "locked")));
      if truthy got then
        _ ← await (EXPIRE (resource self) (timeout self));
        mret {| resource := resource self; timeout := timeout self; is_locked := true |}
      else
        t ← time_time;
        if PrimFloat.ltb (F.of_int (timeout self)) (PrimFloat.sub t start_time) then
          raise (HTTPException 503 "Service Busy: Could not acquire lock")
        else
          _ ← asyncio_sleep 0.01%float;
          aenter_loop fuel' self start_time
  end.

Definition aenter (fuel : nat) (self : DistributedLock) : IO St DistributedLock :=
  start_time ← time_time;
  aenter_loop fuel self start_time.

Definition aexit (self : DistributedLock) : IO St DistributedLock :=
  if is_locked self then
    _ ← await (DELETE (resource self));
    mret {| resource := resource self; timeout := timeout self; is_locked := false |}
  else mret self.

(** [async with lock: body].  [__aexit__] runs when the body returns and
    when it raises; it does not run when [__aenter__] itself raised. *)
Definition async_with {A} (fuel : nat) (lock : DistributedLock) (body : IO St A)
  : IO St A :=
  fun w =>
    match aenter fuel lock w with
    | (Ret held, w1) =>
        let (r, w2) := body w1 in
        match aexit held w2 with
        | (Ret _, w3) => (r, w3)
        | (Raise e, w3) => (Raise e, w3)
        | (Spinning, w3) => (Spinning, w3)
        end
    | (Raise e, w1) => (Raise e, w1)
    | (Spinning, w1) => (Spinning, w1)
    end.

(** *** Endpoints (server.py, lines 152-231) *)

Record HeartbeatRequest := mkRequest {
  agent_id : string;
  cost : float;
  is_zombie : bool;
}.

Record HeartbeatResponse := mkResponse {
  status : string;
  remaining_balance : float;
}.

Definition key_balance (id : string) : string := "agent:" +:+ id +:+ ":balance".
Definition key_spent (id : string) : string := "agent:" +:+ id +:+ ":spent".
Definition key_killed (id : string) : string := "agent:" +:+ id +:+ ":killed".

(** The body of [heartbeat] under the lock (lines 164-199). *)
Definition heartbeat_body (request : HeartbeatRequest) : IO St HeartbeatResponse :=
  (* 1. Agent Check *)
  balance ← await (GET (key_balance (agent_id request)));
  match balance with
  | PyNone => raise (HTTPException 404 "Agent not found")
  | _ =>
    balance ← lift (py_float balance);
    (* 2. Kill Switch Check *)
    killed ← await (GET (key_killed (agent_id request)));
    if is_true_text killed then
      _ ← await (INCR "stats:breaches");
      raise (HTTPException 402 "Payment Required: Agent Killed")
    (* 3. Zombie Check *)
    else if is_zombie request then
      _ ← await (INCR "stats:zombies");
      _ ← await (SET (key_killed (agent_id request)) (PyStr (Lit "true")));
      raise (HTTPException 402 "Payment Required: Zombie Agent Detected")
    (* 4. Budget Enforcement *)
    else if PrimFloat.ltb balance (cost request) then
      _ ← await (INCR "stats:breaches");
      raise (HTTPException 402 "Payment Required: Insufficient Budget")
    else
      (* 5. Deduct Cost *)
      new_balance ← await (INCRBYFLOAT (key_balance (agent_id request))
                                       (PrimFloat.opp (cost request)));
      _ ← await (INCRBYFLOAT (key_spent (agent_id request)) (cost request));
      remaining ← lift (py_float new_balance);
      mret {| status := "ok"; remaining_balance := remaining |}
  end.

Definition heartbeat (fuel : nat) (request : HeartbeatRequest)
  : IO St HeartbeatResponse :=
  async_with fuel (DistributedLock_init (agent_id request)) (heartbeat_body request).

(** [kill_switch] (lines 201-211); the reply is [{status: killed, agent_id}]. *)
Definition kill_switch (fuel : nat) (id : string) : IO St (string * string) :=
  async_with fuel (DistributedLock_init id)
    (balance ← await (GET (key_balance id));
     if negb (truthy balance) then raise (HTTPException 404 "Agent not found")
     else
       _ ← await (SET (key_killed id) (PyStr (Lit "true")));
       mret ("killed", id)).

(** [startup_event], seeding part (lines 136-145). *)
Definition seed (id : string) : IO St unit :=
  balance ← await (GET (key_balance id));
  if negb (truthy balance) then
    _ ← await (SET (key_balance id) (PyFloat 100%float));
    _ ← await (SET (key_spent id) (PyFloat 0%float));
    _ ← await (SET (key_killed id) (PyStr (Lit "false")));
    mret tt
  else mret tt.

Definition startup_event : IO St unit := seed "Agent_007".

(** [get_status] (lines 213-231); [None] is the empty reply. *)
Record StatusReport := mkReport {
  report_agent_id : string;
  budget : float;
  remaining : float;
  spent : float;
  killed : bool;
}.

Definition get_status (id : string) : IO St (option StatusReport) :=
  balance ← await (GET (key_balance id));
  match balance with
  | PyNone => mret None
  | _ =>
    spent ← await (GET (key_spent id));
    killed ← await (GET (key_killed id));
    b ← lift (py_float balance);
    s ← lift (py_float spent);
    mret (Some {| report_agent_id := id;
                  budget := PrimFloat.add b s;
                  remaining := b;
                  spent := s;
                  killed := is_true_text killed |})
  end.
End Engine.

Arguments DistributedLock : clear implicits.
Arguments HeartbeatRequest : clear implicits.
Arguments HeartbeatResponse : clear implicits.

(** The store [startup_event] settles on (lines 126-134): the networked one,
    taken here as the store of the specification, when Redis answers the
    ping, and [MockRedis] when it does not. *)
Definition backend (reachable : bool) : RedisClient (gmap string text) :=
  if reachable then LedgerStore_client else MockRedis_client.

(** An event loop with no other task: a sleep of [d] seconds only moves the
    clock. *)
Definition quiet {St} : EventLoop St :=
  fun d '(s, t) => (s, PrimFloat.add t d).

(** The status line a caller of the HTTP endpoint sees: FastAPI turns an
    [HTTPException] into its status code and any other exception into 500. *)
Definition http_status {A} (r : outcome A) : option Z :=
  match r with
  | Ret _ => Some 200
  | Raise (HTTPException code _) => Some code
  | Raise _ => Some 500
  | Spinning => None
  end.

(** ** AiyodhaClient (aiyodha_sdk/wrapper.py) *)

Module Sdk.
Record AiyodhaClient := mkClient {
  agent_id : string;
  local_kill_switch : bool;
  request_timestamps : list float;    (* the deque, oldest first *)
  consecutive_failures : Z;
  circuit_tripped_until : float;
  response_history : list Z;
}.

Definition MAX_LOCAL_RPS : Z := 5.
Definition FAILURE_THRESHOLD : Z := 3.
Definition COOLDOWN_SECONDS : Z := 60.

(** [__init__] *)
Definition init (agent_id : string) : AiyodhaClient :=
  {| agent_id := agent_id;
     local_kill_switch := false;
     request_timestamps := [];
     consecutive_failures := 0;
     circuit_tripped_until := 0%float;
     response_history := [] |}.

(** How [await self.client.post(...)] ended. *)
Inductive post_result :=
| Response (status_code : Z)
| RequestError        (* httpx.RequestError or httpx.HTTPError *)
| OtherException.     (* any other Exception *)

(** [_send_heartbeat] (lines 41-77), given how the post ended and what
    [time.time()] returns in the failure path.  It returns normally in all
    three cases. *)
Definition _send_heartbeat (r : post_result) (t : float) (self : AiyodhaClient)
  : AiyodhaClient :=
  match r with
  | Response status_code =>
      let failures :=
        if bool_decide (status_code = 200 \/ status_code = 402) then 0
        else consecutive_failures self in
      {| agent_id := agent_id self;
         local_kill_switch :=
           if bool_decide (status_code = 402) then true else local_kill_switch self;
         request_timestamps := request_timestamps self;
         consecutive_failures := failures;
         circuit_tripped_until := circuit_tripped_until self;
         response_history := response_history self |}
  | RequestError =>
      let failures := consecutive_failures self + 1 in
      {| agent_id := agent_id self;
         local_kill_switch := local_kill_switch self;
         request_timestamps := request_timestamps self;
         consecutive_failures := failures;
         circuit_tripped_until :=
           if bool_decide (FAILURE_THRESHOLD <= failures)
           then PrimFloat.add t (F.of_int COOLDOWN_SECONDS)
           else circuit_tripped_until self;
         response_history := response_history self |}
  | OtherException => self
  end.

(** The [while] loop of the rate limiter (lines 99-100). *)
Fixpoint evict (threshold : float) (timestamps : list float) : list float :=
  match timestamps with
  | [] => []
  | t :: rest =>
      if PrimFloat.ltb t threshold then evict threshold rest else timestamps
  end.

(** The admission checks of [create] (lines 86-105).  [t0] is the
    [time.time()] of the circuit check, [t1] the next reading of the clock:
    [now] on the normal path, the time of the message when the circuit is
    open. *)
Definition admission (t0 t1 : float) (self : AiyodhaClient)
  : outcome unit * AiyodhaClient :=
  if PrimFloat.ltb t0 (circuit_tripped_until self) then
    (Raise (CircuitBreakerTrippedError (circuit_tripped_until self)
              (PrimFloat.sub (circuit_tripped_until self) t1)), self)
  else if local_kill_switch self then
    (Raise (BudgetExceededError "Agent is killed (Local Cache)"), self)
  else
    let now := t1 in
    let window := evict (PrimFloat.sub now 1%float) (request_timestamps self) in
    if bool_decide (MAX_LOCAL_RPS <= Z.of_nat (length window)) then
      (Raise (BudgetExceededError "Local Rate Limit Exceeded (5 RPS)"),
       {| agent_id := agent_id self;
          local_kill_switch := local_kill_switch self;
          request_timestamps := window;
          consecutive_failures := consecutive_failures self;
          circuit_tripped_until := circuit_tripped_until self;
          response_history := response_history self |})
    else
      (Ret tt,
       {| agent_id := agent_id self;
          local_kill_switch := local_kill_switch self;
          request_timestamps := (window ++ [now])%list;
          consecutive_failures := consecutive_failures self;
          circuit_tripped_until := circuit_tripped_until self;
          response_history := response_history self |}).

(** [sum(xs)] of ints. *)
Definition sum_int (xs : list Z) : Z := fold_left Z.add xs 0.

(** [sum(...)] of floats: left to right from the int 0.  (From Python 3.12
    on [sum] carries a compensation term for the rounding errors; the two
    agree whenever no addition rounds, as when every term is 0.0.) *)
Definition sum_float (xs : list float) : float :=
  fold_left PrimFloat.add xs 0%float.

(** The three statistics of [_check_zombie_status] (lines 141-143).  The
    operands of [/] are ints below 2^53 for every history of lengths, so
    the quotient of ints is the binary64 quotient of their conversions;
    [** 2] and [** 0.5] are the correctly rounded square and square
    root. *)
Definition mean (history : list Z) : float :=
  PrimFloat.div (F.of_int (sum_int history)) (F.of_int (Z.of_nat (length history))).

Definition variance (history : list Z) : float :=
  PrimFloat.div
    (sum_float (map (fun x => let d := PrimFloat.sub (F.of_int x) (mean history) in
                              PrimFloat.mul d d) history))
    (F.of_int (Z.of_nat (length history))).

Definition std_dev (history : list Z) : float :=
  PrimFloat.sqrt (variance history).

Definition _check_zombie_status (self : AiyodhaClient) : bool :=
  if bool_decide (5 <= Z.of_nat (length (response_history self))) then
    if PrimFloat.ltb (std_dev (response_history self)) 5%float then true
    else false
  else false.

(** [self.response_history.pop(0)] *)
Definition pop0 (xs : list Z) : list Z := tail xs.

Definition _update_zombie_history (response_text : string) (self : AiyodhaClient)
  : AiyodhaClient :=
  let response_length := Z.of_nat (String.length response_text) in
  let history := (response_history self ++ [response_length])%list in
  {| agent_id := agent_id self;
     local_kill_switch := local_kill_switch self;
     request_timestamps := request_timestamps self;
     consecutive_failures := consecutive_failures self;
     circuit_tripped_until := circuit_tripped_until self;
     response_history :=
       if bool_decide (10 < Z.of_nat (length history)) then pop0 history else history |}.

Definition _mock_llm_call (prompt : string) : string := "Processed: " +:+ prompt.

(** [create] (lines 79-132).  The heartbeat task it starts is returned as
    the request that task will post; the task itself ends later, through
    [_send_heartbeat]. *)
Definition create (t0 t1 : float) (prompt : string) (self : AiyodhaClient)
  : outcome (string * HeartbeatRequest) * AiyodhaClient :=
  match admission t0 t1 self with
  | (Ret _, self1) =>
      let is_zombie := _check_zombie_status self1 in
      let task := mkRequest (agent_id self1) 0.05%float is_zombie in
      let response_text := _mock_llm_call prompt in
      (Ret (response_text, task), _update_zombie_history response_text self1)
  | (Raise e, self1) => (Raise e, self1)
  | (Spinning, self1) => (Spinning, self1)
  end.
End Sdk.

(** ** Scenarios *)

(** The balance, the spend and the kill flag a store holds for an agent. *)
Definition balance_of (d : gmap string text) (id : string) : option text :=
  d !! key_balance id.
Definition spent_of (d : gmap string text) (id : string) : option text :=
  d !! key_spent id.
Definition killed_of (d : gmap string text) (id : string) : bool :=
  is_true_text (from_option PyStr PyNone (d !! key_killed id)).

(** The world once [__aenter__] has taken a free lock on [res], and once
    [__aexit__] has given it back. *)
Definition acquired {St} (res : string) (s : St) (w : World St) : World St :=
  mkWorld s (now w)
    (Cmd (EXPIRE ("lock:" +:+ res) 5)
       :: Cmd (SETNX ("lock:" +:+ res) (PyStr (Lit "locked"))) :: trace w).
Definition released {St} (res : string) (s : St) (w : World St) : World St :=
  mkWorld s (now w) (Cmd (DELETE ("lock:" +:+ res)) :: trace w).

(** The commands on record once steps 1 and 2 of [heartbeat] have read the
    balance and the kill flag. *)
Definition after_reads {St} (request : HeartbeatRequest) (w : World St) : list event :=
  Cmd (GET (key_killed (agent_id request)))
    :: Cmd (GET (key_balance (agent_id request))) :: trace w.

(** Steps 2 and 4 of [heartbeat] end alike: one [incr] of the breach counter,
    then 402 with the step's detail. *)
Definition breach {St} {RC : RedisClient St} (detail : string) (request : HeartbeatRequest)
  (w : World St) : outcome HeartbeatResponse * World St :=
  let (r, d) := call (INCR "stats:breaches") (redis w) in
  (match r with
   | Ret _ => Raise (HTTPException 402 detail)
   | Raise e => Raise e
   | Spinning => Spinning
   end,
   mkWorld d (now w) (Cmd (INCR "stats:breaches") :: after_reads request w)).

(** The world a [heartbeat] leaves when it found the lock free: the store [s],
    and on record the lock taken, the two reads, the [steps] of the exit
    taken (newest first), and the lock given back. *)
Definition served {St} (request : HeartbeatRequest) (s : St) (steps : list event)
  (w : World St) : World St :=
  released (agent_id request) s
    (mkWorld s (now w)
       (steps ++ after_reads request (acquired (agent_id request) s w))%list).

(** The number [balance + spent] stands for, with no rounding of the sum. *)
Definition ledger_total (balance spent : float) : option Q :=
  match F.to_Q balance, F.to_Q spent with
  | Some b, Some s => Some (b + s)%Q
  | _, _ => None
  end.

(** [x - y] and [x + y] are computed without rounding. *)
Definition exact_sub (x y : float) : bool :=
  match F.to_Q x, F.to_Q y, F.to_Q (PrimFloat.sub x y) with
  | Some a, Some b, Some r => Qeq_bool r (a - b)
  | _, _, _ => false
  end.
Definition exact_add (x y : float) : bool :=
  match F.to_Q x, F.to_Q y, F.to_Q (PrimFloat.add x y) with
  | Some a, Some b, Some r => Qeq_bool r (a + b)
  | _, _, _ => false
  end.

(** The float [x] stands for the rational [q]. *)
Definition stands_for (x : float) (q : Q) : bool :=
  match F.to_Q x with Some r => Qeq_bool r q | None => false end.

(** A global counter: absent, or the text of an int. *)
Definition counter_value (d : gmap string text) (key : string) : Z :=
  match d !! key with Some (Dec n) => n | _ => 0 end.
Definition is_counter (d : gmap string text) (key : string) : bool :=
  match d !! key with None | Some (Dec _) => true | Some _ => false end.

(** The store once [incr key] has run on the chosen backend, and what a
    heartbeat rejected with [detail] raises there: on the fallback the
    [incr] itself fails. *)
Definition counted (reachable : bool) (key : string) (d : gmap string text)
  : gmap string text :=
  if reachable then <[key := Dec (counter_value d key + 1)]> d else d.
Definition rejected {A} (reachable : bool) (detail : string) : outcome A :=
  if reachable then Raise (HTTPException 402 detail)
  else Raise (AttributeError "incr").

(** A series of heartbeats, one after the other; the replies in order. *)
Fixpoint serve {St} {RC : RedisClient St} {EL : EventLoop St}
  (requests : list HeartbeatRequest) (w : World St)
  : list (outcome HeartbeatResponse) * World St :=
  match requests with
  | [] => ([], w)
  | request :: rest =>
      let (r, w') := heartbeat 1 request w in
      let (rs, w'') := serve rest w' in
      (r :: rs, w'')
  end.

(** A series of admission attempts, each with its two readings of the clock;
    the outcomes in order. *)
Fixpoint attempts (clock : list (float * float)) (self : Sdk.AiyodhaClient)
  : list (outcome unit) * Sdk.AiyodhaClient :=
  match clock with
  | [] => ([], self)
  | (t0, t1) :: rest =>
      let (r, self') := Sdk.admission t0 t1 self in
      let (rs, self'') := attempts rest self' in
      (r :: rs, self'')
  end.

(** The timestamps of a window came off a clock that never ran backwards. *)
Definition ascending (window : list float) : Prop :=
  StronglySorted (fun a b => PrimFloat.leb a b = true) window.

(** At [now], the timestamp [t] is older than one second. *)
Definition older (now t : float) : bool :=
  PrimFloat.ltb t (PrimFloat.sub now 1%float).

(** Each timestamp is, at every later one, not older than one second. *)
Definition same_second (times : list float) : Prop :=
  ForallOrdPairs (fun earlier later => older later earlier = false) times.

(** The client with its window replaced. *)
Definition with_window (window : list float) (self : Sdk.AiyodhaClient)
  : Sdk.AiyodhaClient :=
  {| Sdk.agent_id := Sdk.agent_id self;
     Sdk.local_kill_switch := Sdk.local_kill_switch self;
     Sdk.request_timestamps := window;
     Sdk.consecutive_failures := Sdk.consecutive_failures self;
     Sdk.circuit_tripped_until := Sdk.circuit_tripped_until self;
     Sdk.response_history := Sdk.response_history self |}.

(** The last [n] entries of a list. *)
Definition last_n {A} (n : nat) (l : list A) : list A :=
  skipn (length l - n) l.

(** Histories of [n] responses of the same length [x], for every [x] up to
    [bound] and every [n] from 5 to 10: whether all have deviation 0 and are
    flagged. *)
Definition uniform_flagged (bound : nat) : bool :=
  forallb (fun x =>
    forallb (fun n =>
      let history := repeat (Z.of_nat x) n in
      PrimFloat.eqb (Sdk.std_dev history) 0%float
      && Sdk._check_zombie_status (Sdk.mkClient "Agent_007" false [] 0 0%float history))
      (seq 5 6))
    (seq 0 (S bound)).

(** [balance + spent == initial_budget], as Python evaluates it on the
    floats the store holds for the agent. *)
Definition budget_holds (d : gmap string text) (id : string) (initial_budget : float)
  : bool :=
  match d !! key_balance id, d !! key_spent id with
  | Some (Repr b), Some (Repr s) => PrimFloat.eqb (PrimFloat.add b s) initial_budget
  | _, _ => false
  end.

(** How many times a record of commands gives the lock on [res] back. *)
Definition is_release (res : string) (e : event) : bool :=
  match e with
  | Cmd (DELETE key) => String.eqb key ("lock:" +:+ res)
  | _ => false
  end.
Definition releases (res : string) (record : list event) : nat :=
  length (List.filter (is_release res) record).

(** The world after one failed attempt on the lock and the sleep that
    follows it. *)
Definition slept {St} {EL : EventLoop St} (res : string) (w : World St) : World St :=
  let (s, t) := suspended 0.01%float (redis w, now w) in
  mkWorld s t
    (Sleep 0.01%float
       :: Cmd (SETNX ("lock:" +:+ res) (PyStr (Lit "locked"))) :: trace w).

(** The engine just after its first startup without a reachable Redis: the
    fallback store, seeded. *)
Definition fresh : World (gmap string text) := mkWorld ∅ 0%float [].
Definition seeded : World (gmap string text) :=
  snd (startup_event (RC := MockRedis_client) fresh).

(** The seeded engine while another request holds the lock of the agent. *)
Definition contended : World (gmap string text) :=
  mkWorld (<["lock:Agent_007" := Lit "locked"]> (redis seeded)) 0%float [].

(** [n] heartbeats in a row; the number of those that succeeded, and the
    world they leave. *)
Fixpoint heartbeats {St} {RC : RedisClient St} {EL : EventLoop St} (n : nat)
  (request : HeartbeatRequest) (w : World St) : nat * World St :=
  match n with
  | O => (O, w)
  | S n' =>
      let (r, w') := heartbeat 1 request w in
      let (ok, w'') := heartbeats n' request w' in
      ((match r with Ret _ => S ok | _ => ok end), w'')
  end.

(** ** Heartbeats sharing the event loop

    Several [heartbeat] coroutines run on one event loop, which switches
    between them where a coroutine awaits.  A coroutine is then at one of the
    points below, with the locals it needs there; [resume] runs it from its
    point to the next, on the store as it is at that moment.  A sleeping
    coroutine may be resumed at any later time, and so may one waiting for
    the store: the clock reading is an input of each step. *)

Inductive point :=
| Start                                     (* line 103, [start_time = time.time()] *)
| TrySetnx (start_time : float)             (* line 105, [await self.redis.setnx] *)
| Sleep10 (start_time : float)              (* line 113, [await asyncio.sleep(0.01)] *)
| Expire                                    (* line 106, [await self.redis.expire] *)
| GetBalance                                (* line 170 *)
| GetKilled (balance : float)               (* line 176 *)
| IncrBreaches (detail : string)            (* lines 178 and 190 *)
| IncrZombies                               (* line 183 *)
| SetKilled                                 (* line 184 *)
| Deduct                                    (* line 196 *)
| Credit (new_balance : pyval)              (* line 197 *)
| Release (r : outcome HeartbeatResponse)   (* line 117, [__aexit__] *)
| Finished (r : outcome HeartbeatResponse).

(** What an awaited call that raised is turned into: inside the critical
    section the exception leaves through [__aexit__]; in [__aenter__] it
    leaves at once. *)
Definition inside {St} (r : outcome pyval * St) (k : pyval -> point) : point * St :=
  match r with
  | (Ret v, s) => (k v, s)
  | (Raise e, s) => (Release (Raise e), s)
  | (Spinning, s) => (Release Spinning, s)
  end.
Definition entering {St} (r : outcome pyval * St) (k : pyval -> point) : point * St :=
  match r with
  | (Ret v, s) => (k v, s)
  | (Raise e, s) => (Finished (Raise e), s)
  | (Spinning, s) => (Finished Spinning, s)
  end.

Definition resume {St} {RC : RedisClient St} (request : HeartbeatRequest)
  (t : float) (p : point) (s : St) : point * St :=
  let lock := "lock:" +:+ agent_id request in
  match p with
  | Start => (TrySetnx t, s)
  | TrySetnx start_time =>
      entering (call (SETNX lock (PyStr (Lit "locked"))) s) (fun got =>
        if truthy got then Expire
        else if PrimFloat.ltb (F.of_int 5) (PrimFloat.sub t start_time) then
          Finished (Raise (HTTPException 503 "Service Busy: Could not acquire lock"))
        else Sleep10 start_time)
  | Sleep10 start_time => (TrySetnx start_time, s)
  | Expire => entering (call (EXPIRE lock 5) s) (fun _ => GetBalance)
  | GetBalance =>
      inside (call (GET (key_balance (agent_id request))) s) (fun balance =>
        match balance with
        | PyNone => Release (Raise (HTTPException 404 "Agent not found"))
        | _ =>
            match py_float balance with
            | Ret b => GetKilled b
            | Raise e => Release (Raise e)
            | Spinning => Release Spinning
            end
        end)
  | GetKilled balance =>
      inside (call (GET (key_killed (agent_id request))) s) (fun killed =>
        if is_true_text killed then IncrBreaches "Payment Required: Agent Killed"
        else if is_zombie request then IncrZombies
        else if PrimFloat.ltb balance (cost request) then
          IncrBreaches "Payment Required: Insufficient Budget"
        else Deduct)
  | IncrBreaches detail =>
      inside (call (INCR "stats:breaches") s) (fun _ =>
        Release (Raise (HTTPException 402 detail)))
  | IncrZombies => inside (call (INCR "stats:zombies") s) (fun _ => SetKilled)
  | SetKilled =>
      inside (call (SET (key_killed (agent_id request)) (PyStr (Lit "true"))) s) (fun _ =>
        Release (Raise (HTTPException 402 "Payment Required: Zombie Agent Detected")))
  | Deduct =>
      inside (call (INCRBYFLOAT (key_balance (agent_id request))
                      (PrimFloat.opp (cost request))) s) Credit
  | Credit new_balance =>
      inside (call (INCRBYFLOAT (key_spent (agent_id request)) (cost request)) s) (fun _ =>
        match py_float new_balance with
        | Ret remaining => Release (Ret {| status := "ok"; remaining_balance := remaining |})
        | Raise e => Release (Raise e)
        | Spinning => Release Spinning
        end)
  | Release r =>
      entering (call (DELETE lock) s) (fun _ => Finished r)
  | Finished r => (Finished r, s)
  end.

(** One coroutine alone on the loop, for [n] resumptions: the clock is read
    where the coroutine reads it and moves only while it sleeps. *)
Fixpoint alone {St} {RC : RedisClient St} {EL : EventLoop St}
  (request : HeartbeatRequest) (n : nat) (p : point) (s : St) (t : float)
  : point * (St * float) :=
  match n with
  | O => (p, (s, t))
  | S n' =>
      match p with
      | Finished _ => (p, (s, t))
      | Sleep10 start_time =>
          let (s', t') := suspended 0.01%float (s, t) in
          alone request n' (TrySetnx start_time) s' t'
      | _ =>
          let (p', s') := resume request t p s in
          alone request n' p' s' t
      end
  end.

(** The coroutines of a pool and the store they share. *)
Record pool := mkPool {
  store : gmap string text;
  tasks : list point;
}.

Definition is_finished (p : point) : bool :=
  match p with Finished _ => true | _ => false end.

(** The loop resumes coroutine [i], which had not finished, at time [t]. *)
Definition resume_in (reachable : bool) (request : HeartbeatRequest)
  (i : nat) (t : float) (P : pool) : pool :=
  match tasks P !! i with
  | Some p =>
      let (p', s') := resume (RC := backend reachable) request t p (store P) in
      mkPool s' (<[i := p']> (tasks P))
  | None => P
  end.

Inductive schedules (reachable : bool) (request : HeartbeatRequest) : pool -> pool -> Prop :=
| schedules_refl P : schedules reachable request P P
| schedules_step P Q i t p :
    schedules reachable request P Q ->
    tasks Q !! i = Some p -> is_finished p = false ->
    schedules reachable request P (resume_in reachable request i t Q).

(** A schedule given in full: which coroutine is resumed, and when. *)
Fixpoint follow (reachable : bool) (request : HeartbeatRequest)
  (schedule : list (nat * float)) (P : pool) : pool :=
  match schedule with
  | [] => P
  | (i, t) :: rest => follow reachable request rest (resume_in reachable request i t P)
  end.

(** The coroutine is between taking the lock and giving it back. *)
Definition holding (p : point) : nat :=
  match p with
  | Expire | GetBalance | GetKilled _ | IncrBreaches _ | IncrZombies | SetKilled
  | Deduct | Credit _ | Release _ => 1
  | Start | TrySetnx _ | Sleep10 _ | Finished _ => 0
  end.

(** The coroutine has taken its cost off the balance; has added it to spent;
    has answered ok. *)
Definition deducted (p : point) : nat :=
  match p with
  | Credit _ | Release (Ret _) | Finished (Ret _) => 1
  | _ => 0
  end.
Definition credited (p : point) : nat :=
  match p with
  | Release (Ret _) | Finished (Ret _) => 1
  | _ => 0
  end.
Definition answered_ok (p : point) : nat :=
  match p with Finished (Ret _) => 1 | _ => 0 end.

Definition total (f : point -> nat) (ps : list point) : nat :=
  list_sum (map f ps).

(** [n] times [cost] taken off [balance], and added to [spent]. *)
Definition deduct_n (n : nat) (cost balance : float) : float :=
  Nat.iter n (fun b => PrimFloat.sub b cost) balance.
Definition credit_n (n : nat) (cost spent : float) : float :=
  Nat.iter n (fun s => PrimFloat.add s cost) spent.

(** A heartbeat that gave up waiting for the lock. *)
Definition timed_out (p : point) : nat :=
  match p with
  | Finished (Raise (HTTPException 503 _)) => 1
  | _ => 0
  end.

(** The balance covers [n] deductions of [cost]: the check [balance < cost]
    of line 188 fails on each of the [n] successive balances, as Python
    evaluates it. *)
Fixpoint covers (n : nat) (cost balance : float) : bool :=
  match n with
  | O => true
  | S n' => negb (PrimFloat.ltb balance cost) && covers n' cost (PrimFloat.sub balance cost)
  end.

(** A point the heartbeats of the scenario can be at while the store holds
    [balance]: the balance read under the lock is the one in the store; no
    rejecting exit is among them; the balance carried to [Credit] is the
    float the store returned; what leaves the critical section is a reply, and
    what a heartbeat ends with is a reply or the 503 of the lock. *)
Definition expected (balance : float) (p : point) : Prop :=
  match p with
  | GetKilled b => b = balance
  | Credit new_balance => exists f, new_balance = PyFloat f
  | IncrBreaches _ | IncrZombies | SetKilled => False
  | Release r =>
      exists remaining, r = Ret {| status := "ok"; remaining_balance := remaining |}
  | Finished r =>
      (exists remaining, r = Ret {| status := "ok"; remaining_balance := remaining |})
      \/ r = Raise (HTTPException 503 "Service Busy: Could not acquire lock")
  | _ => True
  end.

(** A heartbeat times out only on a lock that was taken: once one has, some
    heartbeat holds the lock or has made its deduction. *)
Definition lock_was_taken (ps : list point) : Prop :=
  (0 < total timed_out ps)%nat -> (0 < total holding ps + total deducted ps)%nat.

(** What holds of the pool of [N] heartbeats whenever the loop switches
    coroutines: at most one coroutine holds the lock, and the key is there
    exactly then; the ledger reflects the deductions made so far; the agent
    is not killed; every coroutine is at an expected point. *)
Definition ledger_invariant (id : string) (c B S0 : float) (N : nat) (P : pool) : Prop :=
  (total holding (tasks P) <= 1)%nat
  /\ store P !! ("lock:" +:+ id)
     = (if Nat.eqb (total holding (tasks P)) 0 then None else Some (Lit "locked"))
  /\ store P !! key_balance id = Some (Repr (deduct_n (total deducted (tasks P)) c B))
  /\ store P !! key_spent id = Some (Repr (credit_n (total credited (tasks P)) c S0))
  /\ killed_of (store P) id = false
  /\ length (tasks P) = N
  /\ Forall (expected (deduct_n (total deducted (tasks P)) c B)) (tasks P)
  /\ lock_was_taken (tasks P).

(** Every resumption of a schedule picks a coroutine that has not finished. *)
Fixpoint well_scheduled (reachable : bool) (request : HeartbeatRequest)
  (schedule : list (nat * float)) (P : pool) : bool :=
  match schedule with
  | [] => true
  | (i, t) :: rest =>
      match tasks P !! i with
      | Some p => negb (is_finished p)
                  && well_scheduled reachable request rest (resume_in reachable request i t P)
      | None => false
      end
  end.

(** A schedule with the resumptions of finished coroutines left out. *)
Fixpoint pruned (reachable : bool) (request : HeartbeatRequest)
  (schedule : list (nat * float)) (P : pool) : list (nat * float) :=
  match schedule with
  | [] => []
  | (i, t) :: rest =>
      match tasks P !! i with
      | Some p =>
          if is_finished p then pruned reachable request rest P
          else (i, t) :: pruned reachable request rest (resume_in reachable request i t P)
      | None => pruned reachable request rest P
      end
  end.

(** Three coroutines resumed turn and turn about, [rounds] times, the clock
    advancing by [dt] each round. *)
Fixpoint turn_about (rounds : nat) (t dt : float) : list (nat * float) :=
  match rounds with
  | O => []
  | S rounds' => (0, t) :: (1, t) :: (2, t) :: turn_about rounds' (PrimFloat.add t dt) dt
  end%nat.

(** The three heartbeats of 0.05 on the seeded agent, and the schedule that
    resumes them turn and turn about every 5 ms. *)
Definition three_heartbeats : pool := mkPool (redis seeded) (repeat Start 3).
Definition three_at_once : list (nat * float) :=
  pruned false (mkRequest "Agent_007" 0.05%float false)
    (turn_about 40 0%float 0.005%float) three_heartbeats.

(** What [async with] does with the outcome of its body: [__aexit__], then
    the outcome is passed on. *)
Definition leaving {St} {RC : RedisClient St} {EL : EventLoop St} {A}
  (held : DistributedLock) (rw : outcome A * World St) : outcome A * World St :=
  let (r, w2) := rw in
  match aexit held w2 with
  | (Ret _, w3) => (r, w3)
  | (Raise e, w3) => (Raise e, w3)
  | (Spinning, w3) => (Spinning, w3)
  end.

(** The rest of the body of [heartbeat] from a point inside the critical
    section, as the sequential coroutine runs it. *)
Definition rest_of {St} {RC : RedisClient St} {EL : EventLoop St}
  (request : HeartbeatRequest) (p : point) : IO St HeartbeatResponse :=
  match p with
  | GetKilled balance =>
      killed ← await (GET (key_killed (agent_id request)));
      if is_true_text killed then
        _ ← await (INCR "stats:breaches");
        raise (HTTPException 402 "Payment Required: Agent Killed")
      else if is_zombie request then
        _ ← await (INCR "stats:zombies");
        _ ← await (SET (key_killed (agent_id request)) (PyStr (Lit "true")));
        raise (HTTPException 402 "Payment Required: Zombie Agent Detected")
      else if PrimFloat.ltb balance (cost request) then
        _ ← await (INCR "stats:breaches");
        raise (HTTPException 402 "Payment Required: Insufficient Budget")
      else
        new_balance ← await (INCRBYFLOAT (key_balance (agent_id request))
                                         (PrimFloat.opp (cost request)));
        _ ← await (INCRBYFLOAT (key_spent (agent_id request)) (cost request));
        remaining ← lift (py_float new_balance);
        mret {| status := "ok"; remaining_balance := remaining |}
  | IncrBreaches detail =>
      _ ← await (INCR "stats:breaches");
      raise (HTTPException 402 detail)
  | IncrZombies =>
      _ ← await (INCR "stats:zombies");
      _ ← await (SET (key_killed (agent_id request)) (PyStr (Lit "true")));
      raise (HTTPException 402 "Payment Required: Zombie Agent Detected")
  | SetKilled =>
      _ ← await (SET (key_killed (agent_id request)) (PyStr (Lit "true")));
      raise (HTTPException 402 "Payment Required: Zombie Agent Detected")
  | Deduct =>
      new_balance ← await (INCRBYFLOAT (key_balance (agent_id request))
                                       (PrimFloat.opp (cost request)));
      _ ← await (INCRBYFLOAT (key_spent (agent_id request)) (cost request));
      remaining ← lift (py_float new_balance);
      mret {| status := "ok"; remaining_balance := remaining |}
  | Credit new_balance =>
      _ ← await (INCRBYFLOAT (key_spent (agent_id request)) (cost request));
      remaining ← lift (py_float new_balance);
      mret {| status := "ok"; remaining_balance := remaining |}
  | Release r => lift r
  | _ => heartbeat_body request
  end.

(** The point a coroutine has reached, with the store and the clock, as the
    outcome and the world of the sequential run. *)
Definition returned {St} (rw : outcome HeartbeatResponse * World St)
  : point * (St * float) :=
  (Finished (fst rw), (redis (snd rw), now (snd rw))).

(** ** Calls of [create] that overlap

    [create] awaits [_mock_llm_call] (line 127) between the zombie check
    (line 118) and the history update (line 130).  While a call is suspended
    there, the event loop may start further calls of [create] on the same
    client and may let calls started earlier run to their end. *)

(** [create] up to its await (lines 84-127): the local checks, and the
    heartbeat task that is started. *)
Definition create_until_await (t0 t1 : float) (self : Sdk.AiyodhaClient)
  : outcome HeartbeatRequest * Sdk.AiyodhaClient :=
  match Sdk.admission t0 t1 self with
  | (Ret _, self1) =>
      let is_zombie := Sdk._check_zombie_status self1 in
      (Ret (mkRequest (Sdk.agent_id self1) 0.05%float is_zombie), self1)
  | (Raise e, self1) => (Raise e, self1)
  | (Spinning, self1) => (Spinning, self1)
  end.

(** [create] from its await on (lines 127-132). *)
Definition create_after_await (prompt : string) (self : Sdk.AiyodhaClient)
  : string * Sdk.AiyodhaClient :=
  let response_text := Sdk._mock_llm_call prompt in
  (response_text, Sdk._update_zombie_history response_text self).

(** A client with the calls of [create] that are suspended at line 127,
    each with its prompt. *)
Record in_flight := mkFlight {
  client : Sdk.AiyodhaClient;
  waiting : list string;
}.

Inductive loop_step :=
| Call (t0 t1 : float) (prompt : string)  (* a new call runs up to line 127 *)
| Wake (i : nat)                          (* the i-th suspended call runs to its return *)
| Heard (r : Sdk.post_result) (t : float).    (* a heartbeat task runs to its end *)

(** What a step shows to the callers of [create]: how the new call fared at
    the local checks, with the heartbeat it started; the response a resumed
    call returned; nothing, when no such call was suspended or a heartbeat
    task ended. *)
Inductive observed :=
| Began (r : outcome HeartbeatRequest)
| Ended (response_text : string)
| Skipped.

Definition loop_step_run (s : loop_step) (L : in_flight) : observed * in_flight :=
  match s with
  | Call t0 t1 prompt =>
      match create_until_await t0 t1 (client L) with
      | (Ret task, self) => (Began (Ret task), mkFlight self (waiting L ++ [prompt]))
      | (r, self) => (Began r, mkFlight self (waiting L))
      end
  | Wake i =>
      match waiting L !! i with
      | Some prompt =>
          let (response_text, self) := create_after_await prompt (client L) in
          (Ended response_text, mkFlight self (base.delete i (waiting L)))
      | None => (Skipped, L)
      end
  | Heard r t => (Skipped, mkFlight (Sdk._send_heartbeat r t (client L)) (waiting L))
  end.

Fixpoint run_loop (steps : list loop_step) (L : in_flight) : list observed * in_flight :=
  match steps with
  | [] => ([], L)
  | s :: rest =>
      let (o, L') := loop_step_run s L in
      let (os, L'') := run_loop rest L' in
      (o :: os, L'')
  end.

(** The calls that have returned, and the zombie flags of the heartbeats
    started, among what was observed. *)
Definition ended (os : list observed) : nat :=
  length (List.filter (fun o => match o with Ended _ => true | _ => false end) os).
Definition began_flags (os : list observed) : list bool :=
  omap (fun o => match o with Began (Ret task) => Some (is_zombie task) | _ => None end) os.

(** Calls made one after the other: each runs to its return before the next
    is made. *)
Definition in_turn (calls : list (float * float * string)) : list loop_step :=
  flat_map (fun '(t0, t1, prompt) => [Call t0 t1 prompt; Wake 0]) calls.

(** Two batches of three calls each, the second made once the first has
    returned. *)
Definition two_batches : list loop_step :=
  [Call 0 0 "Request 0-0"; Call 0 0 "Request 0-1"; Call 0 0 "Request 0-2";
   Wake 0; Wake 0; Wake 0;
   Call 1.5 1.5 "Request 1-0"; Call 1.5 1.5 "Request 1-1"; Call 1.5 1.5 "Request 1-2"]%float.

(** ** Startup in full *)

(** [startup_event] with the rebinding of [redis_client] (lines 123-145).
    [remote] is what the networked store holds when it answers the ping, and
    [None] when the ping raises; [w] is the world of the process before the
    event.  Whatever [redis_client] was bound to is dropped: on the fallback
    the seeding runs on a [MockRedis()] that was just created. *)
Definition startup (remote : option (gmap string text)) (w : World (gmap string text))
  : bool * World (gmap string text) :=
  match remote with
  | Some d =>
      (true, snd (startup_event (RC := backend true) (mkWorld d (now w) (trace w))))
  | None =>
      (false, snd (startup_event (RC := backend false) (mkWorld ∅ (now w) (trace w))))
  end.

(** ** Keys

    The last character of a key, by which the keys of an agent are told
    apart. *)
Fixpoint last_ascii (s : string) : option Ascii.ascii :=
  match s with
  | EmptyString => None
  | String a EmptyString => Some a
  | String _ rest => last_ascii rest
  end.

(** ** The statistics endpoints (server.py, lines 233-270) *)

(** [int(x)] of a float: the integer part; [None] where [int] raises (an
    infinity, a NaN). *)
Definition truncate (x : float) : option Z :=
  match Prim2SF x with
  | S754_zero _ => Some 0
  | S754_finite s m e =>
      let magnitude :=
        match e with
        | Z0 => Zpos m
        | Zpos p => Zpos m * 2 ^ Zpos p
        | Zneg p => Zpos m / 2 ^ Zpos p
        end in
      Some (if s then - magnitude else magnitude)
  | S754_infinity _ | S754_nan => None
  end.

(** [int(v)]; [None] where it raises. *)
Definition py_int (v : pyval) : option Z :=
  match v with
  | PyNone => None
  | PyBool b => Some (if b then 1 else 0)
  | PyInt n => Some n
  | PyFloat f => truncate f
  | PyStr (Dec n) => Some n
  | PyStr (Repr _) => None      (* the str of a float is no int literal *)
  | PyStr (Lit _) => None
  end.

(** [v or 0] *)
Definition or_zero (v : pyval) : pyval :=
  if truthy v then v else PyInt 0.

Record ResilienceStats := mkResilience {
  zombie_agents : Z;
  total_breaches : Z;
  circuit_breaker_trips : Z;
}.

(** [try: body except Exception: handler] *)
Definition try_except {St A} (body handler : IO St A) : IO St A :=
  fun w =>
    match body w with
    | (Raise _, w') => handler w'
    | rw => rw
    end.

(** [get_resilience_stats] (lines 256-270). *)
Definition get_resilience_stats {St} {RC : RedisClient St} : IO St ResilienceStats :=
  try_except
    (breaches ← await (GET "stats:breaches");
     let breaches := or_zero breaches in
     zombies ← await (GET "stats:zombies");
     let zombies := or_zero zombies in
     match py_int zombies, py_int breaches with
     | Some zombies, Some breaches =>
         mret {| zombie_agents := zombies;
                 total_breaches := breaches;
                 circuit_breaker_trips := 0 |}
     | _, _ => raise ValueError
     end)
    (mret {| zombie_agents := 0; total_breaches := 0; circuit_breaker_trips := 0 |}).

Module Latency.
(** A line of latency.log as line 241 reads it: [line.strip()] is empty, or
    [float(line.strip())] returns a number, or it raises ValueError. *)
Inductive line :=
| Blank
| Numeral (x : float)
| Malformed.

(** [[float(line.strip()) for line in lines if line.strip()]]; [None] when
    a [float] raises. *)
Fixpoint parse (lines : list line) : option (list float) :=
  match lines with
  | [] => Some []
  | Blank :: rest => parse rest
  | Numeral x :: rest =>
      match parse rest with
      | Some data => Some (x :: data)
      | None => None
      end
  | Malformed :: rest => None
  end.

(** The builtins [max] and [min] on a non-empty list: the first item, then
    each later item that compares greater (less) than the one kept. *)
Definition py_max (first : float) (rest : list float) : float :=
  fold_left (fun kept item => if PrimFloat.ltb kept item then item else kept) rest first.
Definition py_min (first : float) (rest : list float) : float :=
  fold_left (fun kept item => if PrimFloat.ltb item kept then item else kept) rest first.

Record LatencyStats := mkLatency {
  history : list float;
  avg : pyval;
  max : pyval;
  min : pyval;
  count : Z;
}.

(** The reply of line 254. *)
Definition no_data : LatencyStats :=
  {| history := []; avg := PyInt 0; max := PyInt 0; min := PyInt 0; count := 0 |}.

(** [get_latency_stats] (lines 233-254), given the lines of latency.log;
    [None] when the file does not exist or cannot be read. *)
Definition get_latency_stats (log : option (list line)) : LatencyStats :=
  match log with
  | None => no_data
  | Some lines =>
      match parse lines with
      | None => no_data
      | Some numbers =>
          let data := last_n 50 numbers in
          match data with
          | [] => no_data
          | first :: rest =>
              {| history := data;
                 avg := PyFloat (PrimFloat.div (Sdk.sum_float data)
                                   (F.of_int (Z.of_nat (length data))));
                 max := PyFloat (py_max first rest);
                 min := PyFloat (py_min first rest);
                 count := Z.of_nat (length data) |}
          end
      end
  end.
End Latency.

(** ** Requests in sequence *)

(** A request to the engine. *)
Inductive api :=
| Heartbeat (request : HeartbeatRequest)    (* POST /heartbeat *)
| KillSwitch (agent_id : string)            (* POST /admin/kill_switch *)
| Status (agent_id : string)                (* GET /status/{agent_id} *)
| Resilience.                               (* GET /stats/resilience *)

(** The world the engine is left in by one request, and by a series of
    requests handled one after the other. *)
Definition handle {St} {RC : RedisClient St} {EL : EventLoop St}
  (fuel : nat) (a : api) (w : World St) : World St :=
  match a with
  | Heartbeat request => snd (heartbeat fuel request w)
  | KillSwitch id => snd (kill_switch fuel id w)
  | Status id => snd (get_status id w)
  | Resilience => snd (get_resilience_stats w)
  end.

Definition handle_all {St} {RC : RedisClient St} {EL : EventLoop St}
  (fuel : nat) (requests : list api) (w : World St) : World St :=
  fold_left (fun w a => handle fuel a w) requests w.

(** The keys a request for agent [id] works on. *)
Definition agent_keys (id : string) : list string :=
  ["lock:" +:+ id; key_balance id; key_spent id; key_killed id].

(** A store command that is not a [delete] of [key]. *)
Definition spares (key : string) (c : command) : bool :=
  match c with
  | DELETE k => negb (String.eqb k key)
  | _ => true
  end.

(** Commands run one after the other on the fallback store. *)
Definition run_commands (cs : list command) (d : gmap string text) : gmap string text :=
  fold_left (fun d c => snd (MockRedis.getattr c d)) cs d.

(** ** The client and the engine together *)

(** One heartbeat task from end to end: [_send_heartbeat] posts the agent's
    id, the cost and the zombie flag (wrapper.py, lines 48-56), the engine
    handles the post in [heartbeat], and the status line of the answer comes
    back to lines 58-62.  A post that is still waiting for the lock has
    changed nothing in the client. *)
Definition report (reachable : bool) (fuel : nat) (cost : float) (is_zombie : bool)
  (t : float) (self : Sdk.AiyodhaClient) (w : World (gmap string text))
  : Sdk.AiyodhaClient * World (gmap string text) :=
  let request := mkRequest (Sdk.agent_id self) cost is_zombie in
  let (r, w') := heartbeat (RC := backend reachable) (EL := quiet) fuel request w in
  (match http_status r with
   | Some status_code => Sdk._send_heartbeat (Sdk.Response status_code) t self
   | None => self
   end, w').

(** What happens to a client: a call of [create], or the end of one of its
    heartbeat tasks. *)
Inductive client_event :=
| Create (t0 t1 : float) (prompt : string)
| Posted (r : Sdk.post_result) (t : float).

Definition after_event (e : client_event) (self : Sdk.AiyodhaClient) : Sdk.AiyodhaClient :=
  match e with
  | Create t0 t1 prompt => snd (Sdk.create t0 t1 prompt self)
  | Posted r t => Sdk._send_heartbeat r t self
  end.

Definition after_events (es : list client_event) (self : Sdk.AiyodhaClient)
  : Sdk.AiyodhaClient :=
  fold_left (fun self e => after_event e self) es self.

(** Calls of [create] one after the other; what each returned or raised. *)
Fixpoint creates (calls : list (float * float * string)) (self : Sdk.AiyodhaClient)
  : list (outcome (string * HeartbeatRequest)) * Sdk.AiyodhaClient :=
  match calls with
  | [] => ([], self)
  | (t0, t1, prompt) :: rest =>
      let (r, self') := Sdk.create t0 t1 prompt self in
      let (rs, self'') := creates rest self' in
      (r :: rs, self'')
  end.

(** The responses returned, and the zombie flags of the heartbeats
    dispatched, by the calls that were admitted. *)
Definition returned_texts (rs : list (outcome (string * HeartbeatRequest))) : list string :=
  omap (fun r => match r with Ret (text, _) => Some text | _ => None end) rs.
Definition zombie_flags (rs : list (outcome (string * HeartbeatRequest))) : list bool :=
  omap (fun r => match r with Ret (_, task) => Some (is_zombie task) | _ => None end) rs.

(** The heartbeat results that reset the failure count. *)
Definition resets (e : client_event) : bool :=
  match e with
  | Posted (Sdk.Response status_code) _ =>
      bool_decide (status_code = 200 \/ status_code = 402)
  | _ => false
  end.
Definition is_transport_error (e : client_event) : bool :=
  match e with
  | Posted Sdk.RequestError _ => true
  | _ => false
  end.

(* ===================================================================== *)
(** * Properties *)
(* ===================================================================== *)

(** ** Order of binary64 numbers *)

Module FloatOrder.
Ltac cases :=
  repeat match goal with
    | b : bool |- _ => destruct b
    | |- context [Z.compare ?a ?b] => destruct (Z.compare_spec a b)
    | |- context [Pos.compare_cont Eq ?a ?b] =>
        change (Pos.compare_cont Eq a b) with (Pos.compare a b)
    | |- context [Pos.compare ?a ?b] => destruct (Pos.compare_spec a b)
    | H : context [Z.compare ?a ?b] |- _ => destruct (Z.compare_spec a b)
    | H : context [Pos.compare_cont Eq ?a ?b] |- _ =>
        change (Pos.compare_cont Eq a b) with (Pos.compare a b) in H
    | H : context [Pos.compare ?a ?b] |- _ => destruct (Pos.compare_spec a b)
    end.

Lemma SFcompare_antisym x y c :
  SFcompare x y = Some c -> SFcompare y x = Some (CompOpp c).
Proof.
  destruct x as [sx|sx| |sx mx ex], y as [sy|sy| |sy my ey]; simpl; intros H;
    try discriminate; cases; simpl in *; inversion H; subst; simpl;
    try reflexivity; try lia; try congruence.
Qed.

Lemma SFcompare_trans_Lt x y z :
  SFcompare x y = Some Lt -> SFcompare y z = Some Lt -> SFcompare x z = Some Lt.
Proof.
  destruct x as [sx|sx| |sx mx ex], y as [sy|sy| |sy my ey], z as [sz|sz| |sz mz ez];
    simpl; intros H1 H2; try discriminate; cases; simpl in *;
    try discriminate; try reflexivity; try lia; try congruence.
Qed.

Lemma SFcompare_Eq_l x y z c :
  SFcompare x y = Some Eq -> SFcompare y z = Some c -> SFcompare x z = Some c.
Proof.
  destruct x as [sx|sx| |sx mx ex], y as [sy|sy| |sy my ey], z as [sz|sz| |sz mz ez];
    simpl; intros H1 H2; try discriminate; cases; simpl in *;
    try discriminate; try assumption; try reflexivity; try lia; try congruence.
Qed.

Lemma ltb_Lt x y :
  PrimFloat.ltb x y = true <-> SFcompare (Prim2SF x) (Prim2SF y) = Some Lt.
Proof.
  rewrite ltb_spec. unfold SFltb.
  destruct (SFcompare _ _) as [[]|]; split; congruence.
Qed.

Lemma leb_Le x y :
  PrimFloat.leb x y = true <->
  SFcompare (Prim2SF x) (Prim2SF y) = Some Lt \/ SFcompare (Prim2SF x) (Prim2SF y) = Some Eq.
Proof.
  rewrite leb_spec. unfold SFleb.
  destruct (SFcompare _ _) as [[]|]; split; intros; try tauto; try congruence;
    destruct H; congruence.
Qed.

(** [x <= y] and [y < z] give [x < z]. *)
Lemma leb_ltb_trans x y z :
  PrimFloat.leb x y = true -> PrimFloat.ltb y z = true -> PrimFloat.ltb x z = true.
Proof.
  rewrite leb_Le, !ltb_Lt. intros [H|H] Hyz.
  - eapply SFcompare_trans_Lt; eauto.
  - eapply SFcompare_Eq_l; eauto.
Qed.

(** [x < y] and [y <= z] give [x < z]. *)
Lemma ltb_leb_trans x y z :
  PrimFloat.ltb x y = true -> PrimFloat.leb y z = true -> PrimFloat.ltb x z = true.
Proof.
  rewrite leb_Le, !ltb_Lt. intros Hxy [H|H].
  - eapply SFcompare_trans_Lt; eauto.
  - apply SFcompare_antisym in H. simpl in H.
    apply SFcompare_antisym in Hxy. simpl in Hxy.
    pose proof (SFcompare_Eq_l _ _ _ _ H Hxy) as Hzx.
    apply SFcompare_antisym in Hzx. exact Hzx.
Qed.

Lemma ltb_irrefl x : PrimFloat.ltb x x = false.
Proof.
  destruct (PrimFloat.ltb x x) eqn:E; [|reflexivity].
  apply ltb_Lt in E. pose proof (SFcompare_antisym _ _ _ E) as E'.
  simpl in E'. congruence.
Qed.

Lemma leb_trans x y z :
  PrimFloat.leb x y = true -> PrimFloat.leb y z = true -> PrimFloat.leb x z = true.
Proof.
  intros Hxy Hyz. pose proof Hxy as Hxy'. pose proof Hyz as Hyz'.
  rewrite leb_Le in Hxy', Hyz'. apply leb_Le.
  destruct Hyz' as [H|H].
  - left. apply ltb_Lt. eapply leb_ltb_trans; [exact Hxy|]. by apply ltb_Lt.
  - destruct Hxy' as [H'|H'].
    + left. apply ltb_Lt. eapply ltb_leb_trans; [by apply ltb_Lt|exact Hyz].
    + right. eapply SFcompare_Eq_l; eauto.
Qed.

(** [y <= x] excludes [x < y]: a balance that is at least the cost passes
    the budget check. *)
Lemma leb_not_ltb x y : PrimFloat.leb y x = true -> PrimFloat.ltb x y = false.
Proof.
  intros H. destruct (PrimFloat.ltb x y) eqn:E; [|reflexivity].
  pose proof (leb_ltb_trans _ _ _ H E) as C. rewrite ltb_irrefl in C. discriminate.
Qed.

(** An entry that is not older than the threshold shields the later ones. *)
Lemma not_ltb_leb x y thr :
  PrimFloat.ltb x thr = false -> PrimFloat.leb x y = true -> PrimFloat.ltb y thr = false.
Proof.
  intros H Hxy. destruct (PrimFloat.ltb y thr) eqn:E; [|reflexivity].
  rewrite (leb_ltb_trans _ _ _ Hxy E) in H. discriminate.
Qed.

(** [x + (-y)] is [x - y]. *)
Lemma add_opp x y : PrimFloat.add x (PrimFloat.opp y) = PrimFloat.sub x y.
Proof.
  apply Prim2SF_inj. rewrite add_spec, sub_spec, opp_spec.
  unfold SF64add, SF64sub.
  destruct (Prim2SF x) as [sx|sx| |sx mx ex], (Prim2SF y) as [sy|sy| |sy my ey];
    simpl; try reflexivity;
    repeat match goal with b : bool |- _ => destruct b end; simpl; try reflexivity.
Qed.

(** The negation of a negative number is its absolute value. *)
Lemma opp_abs x : PrimFloat.ltb x 0%float = true -> PrimFloat.opp x = PrimFloat.abs x.
Proof.
  intros H. apply ltb_Lt in H. apply Prim2SF_inj. rewrite opp_spec, abs_spec.
  change (Prim2SF 0%float) with (S754_zero false) in H.
  destruct (Prim2SF x) as [sx|sx| |sx mx ex]; simpl in *; try discriminate;
    destruct sx; simpl in *; try discriminate; reflexivity.
Qed.

Lemma opp_involutive x : PrimFloat.opp (PrimFloat.opp x) = x.
Proof.
  apply Prim2SF_inj. rewrite !opp_spec.
  destruct (Prim2SF x) as [sx|sx| |sx mx ex]; simpl; try reflexivity;
    by destruct sx.
Qed.

(** Adding a negative number is subtracting its absolute value. *)
Lemma add_negative x y :
  PrimFloat.ltb y 0%float = true ->
  PrimFloat.add x y = PrimFloat.sub x (PrimFloat.abs y).
Proof.
  intros H. rewrite <- (opp_abs y H), <- add_opp. by rewrite opp_involutive.
Qed.

(** Subtracting a negative number is adding its absolute value. *)
Lemma sub_negative x y :
  PrimFloat.ltb y 0%float = true ->
  PrimFloat.sub x y = PrimFloat.add x (PrimFloat.abs y).
Proof. intros H. by rewrite <- (opp_abs y H), add_opp. Qed.

(** A negative cost is below every balance that is not negative. *)
Lemma negative_below x y :
  PrimFloat.ltb y 0%float = true -> PrimFloat.leb 0%float x = true ->
  PrimFloat.ltb x y = false.
Proof.
  intros Hy Hx. destruct (PrimFloat.ltb x y) eqn:E; [|reflexivity].
  pose proof (ltb_leb_trans _ _ _ Hy Hx) as H.
  pose proof (leb_ltb_trans x x y) as H'.
  assert (PrimFloat.ltb x x = true) as C.
  { apply ltb_Lt. apply ltb_Lt in E, H.
    eapply SFcompare_trans_Lt; eauto. }
  rewrite ltb_irrefl in C. discriminate.
Qed.
End FloatOrder.

(** ** Keys *)

Module Keys.
Lemma app_nonempty (s t : string) : t ≠ "" -> s +:+ t ≠ "".
Proof. destruct s; [exact id|discriminate]. Qed.

Lemma last_ascii_app (s t : string) :
  t ≠ "" -> last_ascii (s +:+ t) = last_ascii t.
Proof.
  intros Ht. induction s as [|a s IH]; [reflexivity|].
  change (String a s +:+ t) with (String a (s +:+ t)).
  cbn [last_ascii]. rewrite IH.
  destruct (s +:+ t) eqn:E; [|reflexivity].
  by destruct (app_nonempty s t Ht).
Qed.

Lemma suffix_differs (p p' s s' t t' : string) :
  t ≠ "" -> t' ≠ "" -> last_ascii t ≠ last_ascii t' ->
  p +:+ s +:+ t ≠ p' +:+ s' +:+ t'.
Proof.
  intros Ht Ht' Hne E. apply Hne.
  rewrite <- (last_ascii_app s t Ht), <- (last_ascii_app s' t' Ht').
  rewrite <- (last_ascii_app p (s +:+ t)), <- (last_ascii_app p' (s' +:+ t'))
    by (by apply app_nonempty).
  by rewrite E.
Qed.

Ltac by_suffix :=
  unfold key_balance, key_spent, key_killed;
  apply suffix_differs; [discriminate|discriminate|simpl; discriminate].

Lemma balance_spent id id' : key_balance id ≠ key_spent id'.
Proof.
  by_suffix.
Qed.

Lemma balance_killed id id' : key_balance id ≠ key_killed id'.
Proof.
  by_suffix.
Qed.

Lemma spent_killed id id' : key_spent id ≠ key_killed id'.
Proof.
  by_suffix.
Qed.

Lemma lock_balance res id : "lock:" +:+ res ≠ key_balance id.
Proof. discriminate. Qed.
Lemma lock_spent res id : "lock:" +:+ res ≠ key_spent id.
Proof. discriminate. Qed.
Lemma lock_killed res id : "lock:" +:+ res ≠ key_killed id.
Proof. discriminate. Qed.
Lemma lock_stats res k : "lock:" +:+ res ≠ "stats:" +:+ k.
Proof. discriminate. Qed.
Lemma stats_balance k id : "stats:" +:+ k ≠ key_balance id.
Proof. discriminate. Qed.
Lemma stats_spent k id : "stats:" +:+ k ≠ key_spent id.
Proof. discriminate. Qed.
Lemma stats_killed k id : "stats:" +:+ k ≠ key_killed id.
Proof. discriminate. Qed.
End Keys.

Create HintDb keys.
#[local] Hint Resolve Keys.balance_spent Keys.balance_killed Keys.spent_killed
  Keys.lock_balance Keys.lock_spent Keys.lock_killed Keys.lock_stats
  Keys.stats_balance Keys.stats_spent Keys.stats_killed : keys.

(** ** The engine over a store that answers like MockRedis *)

Ltac io :=
  cbv beta iota zeta delta
    [mbind mret IO_bind IO_ret await time_time asyncio_sleep raise lift];
  cbn [redis now trace fst snd].

Section Clients.
Context (RC : RedisClient (gmap string text)) (EL : EventLoop (gmap string text)).

(** Every command but the integer increment is answered as MockRedis
    answers it. *)
Hypothesis off_incr : forall c d,
  match c with INCR _ => True | _ => call c d = MockRedis.getattr c d end.

Lemma call_get k d : call (GET k) d = (Ret (from_option PyStr PyNone (d !! k)), d).
Proof.
  rewrite (off_incr (GET k) d). unfold MockRedis.getattr, MockRedis.get.
  by destruct (d !! k).
Qed.

Lemma call_set k v d : call (SET k v) d = (Ret (PyBool true), <[k := str v]> d).
Proof. by rewrite (off_incr (SET k v) d). Qed.

Lemma call_setnx_free k v d :
  d !! k = None -> call (SETNX k v) d = (Ret (PyBool true), <[k := str v]> d).
Proof.
  intros H. rewrite (off_incr (SETNX k v) d).
  unfold MockRedis.getattr, MockRedis.setnx. by rewrite H.
Qed.

Lemma call_setnx_held k v d :
  is_Some (d !! k) -> call (SETNX k v) d = (Ret (PyBool false), d).
Proof.
  intros [t H]. rewrite (off_incr (SETNX k v) d).
  unfold MockRedis.getattr, MockRedis.setnx. by rewrite H.
Qed.

Lemma call_expire k t d : call (EXPIRE k t) d = (Ret (PyBool true), d).
Proof. by rewrite (off_incr (EXPIRE k t) d). Qed.

Lemma call_delete k d :
  call (DELETE k) d =
  (Ret (PyInt (if decide (is_Some (d !! k)) then 1 else 0)), base.delete k d).
Proof.
  rewrite (off_incr (DELETE k) d). unfold MockRedis.getattr, MockRedis.delete.
  destruct (d !! k) eqn:E.
  - by rewrite decide_True.
  - rewrite decide_False by (by intros [? ?]). by rewrite delete_id.
Qed.

Lemma call_incrbyfloat k a d f :
  d !! k = Some (Repr f) ->
  call (INCRBYFLOAT k a) d =
  (Ret (PyFloat (PrimFloat.add f a)), <[k := Repr (PrimFloat.add f a)]> d).
Proof.
  intros H. rewrite (off_incr (INCRBYFLOAT k a) d).
  unfold MockRedis.getattr, MockRedis.incrbyfloat, MockRedis.current.
  by rewrite H.
Qed.

(** *** Taking and giving back a free lock *)

Lemma aenter_free fuel res w :
  redis w !! ("lock:" +:+ res) = None ->
  aenter (S fuel) (DistributedLock_init res) w =
  (Ret (mkLock ("lock:" +:+ res) 5 true),
   acquired res (<["lock:" +:+ res := Lit "locked"]> (redis w)) w).
Proof.
  intros H. unfold aenter, DistributedLock_init. io.
  cbn [aenter_loop resource timeout]. io.
  rewrite call_setnx_free by done. cbn [truthy str]. io.
  by rewrite call_expire.
Qed.

Lemma aexit_held res w :
  aexit (mkLock ("lock:" +:+ res) 5 true) w =
  (Ret (mkLock ("lock:" +:+ res) 5 false),
   released res (base.delete ("lock:" +:+ res) (redis w)) w).
Proof. unfold aexit. cbn [is_locked resource]. io. by rewrite call_delete. Qed.

Lemma async_with_free {A} fuel res (body : IO (gmap string text) A) w :
  redis w !! ("lock:" +:+ res) = None ->
  async_with (S fuel) (DistributedLock_init res) body w =
  let w1 := acquired res (<["lock:" +:+ res := Lit "locked"]> (redis w)) w in
  (fst (body w1),
   released res (base.delete ("lock:" +:+ res) (redis (snd (body w1)))) (snd (body w1))).
Proof.
  intros H. unfold async_with. rewrite aenter_free by done.
  cbv zeta. destruct (body _) as [r w2]. rewrite aexit_held. reflexivity.
Qed.
(** *** The five steps of [heartbeat], one lemma per exit *)

Lemma body_not_found request w :
  redis w !! key_balance (agent_id request) = None ->
  heartbeat_body request w =
  (Raise (HTTPException 404 "Agent not found"),
   mkWorld (redis w) (now w) (Cmd (GET (key_balance (agent_id request))) :: trace w)).
Proof.
  intros H. unfold heartbeat_body. io. rewrite call_get, H. reflexivity.
Qed.

Lemma body_killed request w b :
  redis w !! key_balance (agent_id request) = Some (Repr b) ->
  killed_of (redis w) (agent_id request) = true ->
  heartbeat_body request w = breach "Payment Required: Agent Killed" request w.
Proof.
  intros Hb Hk. unfold heartbeat_body, breach, killed_of, after_reads in *. io.
  rewrite call_get, Hb. cbn [from_option py_float]. io.
  rewrite call_get, Hk. io.
  destruct (call (INCR "stats:breaches") (redis w)) as [[| |] d]; reflexivity.
Qed.

Lemma body_zombie request w b :
  redis w !! key_balance (agent_id request) = Some (Repr b) ->
  killed_of (redis w) (agent_id request) = false ->
  is_zombie request = true ->
  heartbeat_body request w =
  let (r, d) := call (INCR "stats:zombies") (redis w) in
  match r with
  | Ret _ =>
      (Raise (HTTPException 402 "Payment Required: Zombie Agent Detected"),
       mkWorld (<[key_killed (agent_id request) := Lit "true"]> d) (now w)
         (Cmd (SET (key_killed (agent_id request)) (PyStr (Lit "true")))
            :: Cmd (INCR "stats:zombies") :: after_reads request w))
  | Raise e =>
      (Raise e, mkWorld d (now w) (Cmd (INCR "stats:zombies") :: after_reads request w))
  | Spinning =>
      (Spinning, mkWorld d (now w) (Cmd (INCR "stats:zombies") :: after_reads request w))
  end.
Proof.
  intros Hb Hk Hz. unfold heartbeat_body, killed_of, after_reads in *. io.
  rewrite call_get, Hb. cbn [from_option py_float]. io.
  rewrite call_get, Hk, Hz. io.
  destruct (call (INCR "stats:zombies") (redis w)) as [[| |] d]; try reflexivity.
  io. rewrite call_set. reflexivity.
Qed.

Lemma body_insufficient request w b :
  redis w !! key_balance (agent_id request) = Some (Repr b) ->
  killed_of (redis w) (agent_id request) = false ->
  is_zombie request = false ->
  PrimFloat.ltb b (cost request) = true ->
  heartbeat_body request w = breach "Payment Required: Insufficient Budget" request w.
Proof.
  intros Hb Hk Hz Hlt. unfold heartbeat_body, breach, killed_of, after_reads in *. io.
  rewrite call_get, Hb. cbn [from_option py_float]. io.
  rewrite call_get, Hk, Hz, Hlt. io.
  destruct (call (INCR "stats:breaches") (redis w)) as [[| |] d]; reflexivity.
Qed.

Lemma body_deduct request w b s :
  redis w !! key_balance (agent_id request) = Some (Repr b) ->
  redis w !! key_spent (agent_id request) = Some (Repr s) ->
  killed_of (redis w) (agent_id request) = false ->
  is_zombie request = false ->
  PrimFloat.ltb b (cost request) = false ->
  heartbeat_body request w =
  (Ret {| status := "ok"; remaining_balance := PrimFloat.sub b (cost request) |},
   mkWorld
     (<[key_spent (agent_id request) := Repr (PrimFloat.add s (cost request))]>
        (<[key_balance (agent_id request) := Repr (PrimFloat.sub b (cost request))]>
           (redis w)))
     (now w)
     (Cmd (INCRBYFLOAT (key_spent (agent_id request)) (cost request))
        :: Cmd (INCRBYFLOAT (key_balance (agent_id request)) (PrimFloat.opp (cost request)))
        :: after_reads request w)).
Proof.
  intros Hb Hs Hk Hz Hlt. unfold heartbeat_body, killed_of, after_reads in *. io.
  rewrite call_get, Hb. cbn [from_option py_float]. io.
  rewrite call_get, Hk, Hz, Hlt. io.
  rewrite (call_incrbyfloat _ _ _ b) by done. io.
  rewrite (call_incrbyfloat _ _ _ s)
    by (rewrite lookup_insert_ne; [done|auto with keys]).
  cbn [py_float]. rewrite FloatOrder.add_opp. reflexivity.
Qed.
(** *** [heartbeat] on a free lock *)

Lemma held_lookup res (d : gmap string text) k :
  "lock:" +:+ res ≠ k -> <["lock:" +:+ res := Lit "locked"]> d !! k = d !! k.
Proof. intros. by rewrite lookup_insert_ne. Qed.

Lemma held_killed res (d : gmap string text) id :
  killed_of (<["lock:" +:+ res := Lit "locked"]> d) id = killed_of d id.
Proof. unfold killed_of. rewrite held_lookup; [done|auto with keys]. Qed.

Lemma heartbeat_not_found fuel request w :
  redis w !! ("lock:" +:+ agent_id request) = None ->
  redis w !! key_balance (agent_id request) = None ->
  heartbeat (S fuel) request w =
  (Raise (HTTPException 404 "Agent not found"),
   released (agent_id request) (redis w)
     (mkWorld (redis w) (now w)
        (Cmd (GET (key_balance (agent_id request)))
           :: trace (acquired (agent_id request) (redis w) w)))).
Proof.
  intros Hl Hb. unfold heartbeat. rewrite async_with_free by done. cbv zeta.
  rewrite body_not_found
    by (cbn [redis acquired]; rewrite held_lookup; [done|auto with keys]).
  cbn [fst snd acquired redis]. by rewrite delete_insert_id.
Qed.

Lemma heartbeat_breach_killed fuel request w b :
  redis w !! ("lock:" +:+ agent_id request) = None ->
  redis w !! key_balance (agent_id request) = Some (Repr b) ->
  killed_of (redis w) (agent_id request) = true ->
  heartbeat (S fuel) request w =
  let (r, d) := call (INCR "stats:breaches")
                  (<[("lock:" +:+ agent_id request) := Lit "locked"]> (redis w)) in
  (match r with
   | Ret _ => Raise (HTTPException 402 "Payment Required: Agent Killed")
   | Raise e => Raise e
   | Spinning => Spinning
   end,
   served request (base.delete (("lock:" +:+ agent_id request)) d) [Cmd (INCR "stats:breaches")] w).
Proof.
  intros Hl Hb Hk. unfold heartbeat. rewrite async_with_free by done. cbv zeta.
  rewrite (body_killed _ _ b)
    by (cbn [redis acquired]; rewrite ?held_killed, ?held_lookup; auto with keys).
  unfold breach. cbn [redis acquired].
  destruct (call _ _) as [r d]. reflexivity.
Qed.

Lemma heartbeat_breach_insufficient fuel request w b :
  redis w !! ("lock:" +:+ agent_id request) = None ->
  redis w !! key_balance (agent_id request) = Some (Repr b) ->
  killed_of (redis w) (agent_id request) = false ->
  is_zombie request = false ->
  PrimFloat.ltb b (cost request) = true ->
  heartbeat (S fuel) request w =
  let (r, d) := call (INCR "stats:breaches")
                  (<[("lock:" +:+ agent_id request) := Lit "locked"]> (redis w)) in
  (match r with
   | Ret _ => Raise (HTTPException 402 "Payment Required: Insufficient Budget")
   | Raise e => Raise e
   | Spinning => Spinning
   end,
   served request (base.delete (("lock:" +:+ agent_id request)) d) [Cmd (INCR "stats:breaches")] w).
Proof.
  intros Hl Hb Hk Hz Hlt. unfold heartbeat. rewrite async_with_free by done. cbv zeta.
  rewrite (body_insufficient _ _ b)
    by (cbn [redis acquired]; rewrite ?held_killed, ?held_lookup; auto with keys).
  unfold breach. cbn [redis acquired].
  destruct (call _ _) as [r d]. reflexivity.
Qed.

Lemma heartbeat_zombie fuel request w b :
  redis w !! ("lock:" +:+ agent_id request) = None ->
  redis w !! key_balance (agent_id request) = Some (Repr b) ->
  killed_of (redis w) (agent_id request) = false ->
  is_zombie request = true ->
  heartbeat (S fuel) request w =
  let (r, d) := call (INCR "stats:zombies")
                  (<[("lock:" +:+ agent_id request) := Lit "locked"]> (redis w)) in
  match r with
  | Ret _ =>
      (Raise (HTTPException 402 "Payment Required: Zombie Agent Detected"),
       served request
         (base.delete (("lock:" +:+ agent_id request))
            (<[key_killed (agent_id request) := Lit "true"]> d))
         [Cmd (SET (key_killed (agent_id request)) (PyStr (Lit "true")));
          Cmd (INCR "stats:zombies")] w)
  | Raise e =>
      (Raise e,
       served request (base.delete (("lock:" +:+ agent_id request)) d) [Cmd (INCR "stats:zombies")] w)
  | Spinning =>
      (Spinning,
       served request (base.delete (("lock:" +:+ agent_id request)) d) [Cmd (INCR "stats:zombies")] w)
  end.
Proof.
  intros Hl Hb Hk Hz. unfold heartbeat. rewrite async_with_free by done. cbv zeta.
  rewrite (body_zombie _ _ b)
    by (cbn [redis acquired]; rewrite ?held_killed, ?held_lookup; auto with keys).
  cbn [redis acquired].
  destruct (call _ _) as [[| |] d]; reflexivity.
Qed.

Lemma heartbeat_deduct fuel request w b s :
  redis w !! ("lock:" +:+ agent_id request) = None ->
  redis w !! key_balance (agent_id request) = Some (Repr b) ->
  redis w !! key_spent (agent_id request) = Some (Repr s) ->
  killed_of (redis w) (agent_id request) = false ->
  is_zombie request = false ->
  PrimFloat.ltb b (cost request) = false ->
  heartbeat (S fuel) request w =
  (Ret {| status := "ok"; remaining_balance := PrimFloat.sub b (cost request) |},
   served request
     (<[key_spent (agent_id request) := Repr (PrimFloat.add s (cost request))]>
        (<[key_balance (agent_id request) := Repr (PrimFloat.sub b (cost request))]>
           (redis w)))
     [Cmd (INCRBYFLOAT (key_spent (agent_id request)) (cost request));
      Cmd (INCRBYFLOAT (key_balance (agent_id request)) (PrimFloat.opp (cost request)))]
     w).
Proof.
  intros Hl Hb Hs Hk Hz Hlt. unfold heartbeat. rewrite async_with_free by done. cbv zeta.
  rewrite (body_deduct _ _ b s)
    by (cbn [redis acquired]; rewrite ?held_killed, ?held_lookup; auto with keys).
  cbn [fst snd redis acquired].
  rewrite !delete_insert_ne by auto with keys.
  by rewrite delete_insert_id.
Qed.
End Clients.

(** Both stores answer every command but [incr] alike. *)
Lemma MockRedis_off_incr c d :
  match c with
  | INCR _ => True
  | _ => call (RedisClient := MockRedis_client) c d = MockRedis.getattr c d
  end.
Proof. by destruct c. Qed.

Lemma LedgerStore_off_incr c d :
  match c with
  | INCR _ => True
  | _ => call (RedisClient := LedgerStore_client) c d = MockRedis.getattr c d
  end.
Proof.
  destruct c as [k|k v|k v|k|k a|k a|k t|k]; try exact I;
    unfold call, LedgerStore_client, LedgerStore.exec, MockRedis.getattr; cbn.
  - unfold MockRedis.get. by destruct (d !! k).
  - reflexivity.
  - unfold MockRedis.setnx. destruct (d !! k) eqn:E.
    + by rewrite decide_True.
    + by rewrite decide_False by (by intros [? ?]).
  - unfold MockRedis.delete. destruct (d !! k) eqn:E.
    + by rewrite decide_True.
    + rewrite decide_False by (by intros [? ?]). by rewrite delete_id.
  - unfold MockRedis.decrby, MockRedis.current, LedgerStore.number.
    by destruct (d !! k) as [[]|].
  - unfold MockRedis.incrbyfloat, MockRedis.current, LedgerStore.number.
    by destruct (d !! k) as [[]|].
  - reflexivity.
Qed.

(** ** [heartbeat] on the store chosen at startup *)

Lemma backend_off_incr reachable c d :
  match c with
  | INCR _ => True
  | _ => call (RedisClient := backend reachable) c d = MockRedis.getattr c d
  end.
Proof. destruct reachable; [apply LedgerStore_off_incr|apply MockRedis_off_incr]. Qed.

Lemma backend_incr reachable key d :
  is_counter d key = true ->
  call (RedisClient := backend reachable) (INCR key) d =
  (if reachable then Ret (PyInt (counter_value d key + 1))
   else Raise (AttributeError "incr"),
   counted reachable key d).
Proof.
  unfold counted, is_counter, counter_value. destruct reachable; [|reflexivity].
  unfold call, backend, LedgerStore_client, LedgerStore.exec.
  destruct (d !! key) as [[]|]; intros; try discriminate; reflexivity.
Qed.

Lemma held_counter res (d : gmap string text) k :
  is_counter (<["lock:" +:+ res := Lit "locked"]> d) ("stats:" +:+ k)
  = is_counter d ("stats:" +:+ k).
Proof. unfold is_counter. rewrite lookup_insert_ne; [done|auto with keys]. Qed.

Lemma held_counted reachable res (d : gmap string text) k :
  d !! ("lock:" +:+ res) = None ->
  base.delete ("lock:" +:+ res)
    (counted reachable ("stats:" +:+ k) (<["lock:" +:+ res := Lit "locked"]> d))
  = counted reachable ("stats:" +:+ k) d.
Proof.
  intros H. unfold counted, counter_value. destruct reachable.
  - rewrite lookup_insert_ne by auto with keys.
    rewrite delete_insert_ne by auto with keys. by rewrite delete_insert_id.
  - by rewrite delete_insert_id.
Qed.

Section Exits.
Context (reachable : bool) (EL : EventLoop (gmap string text)).
Let RC := backend reachable.

Lemma heartbeat_killed fuel request w b :
  redis w !! ("lock:" +:+ agent_id request) = None ->
  redis w !! key_balance (agent_id request) = Some (Repr b) ->
  killed_of (redis w) (agent_id request) = true ->
  is_counter (redis w) "stats:breaches" = true ->
  heartbeat (RC := RC) (S fuel) request w =
  (rejected reachable "Payment Required: Agent Killed",
   served request (counted reachable "stats:breaches" (redis w))
     [Cmd (INCR "stats:breaches")] w).
Proof.
  intros Hl Hb Hk Hc.
  rewrite (heartbeat_breach_killed RC EL (backend_off_incr reachable) _ _ _ b) by done.
  unfold RC. rewrite backend_incr by (by rewrite (held_counter _ _ "breaches")).
  rewrite (held_counted _ _ _ "breaches") by done.
  by destruct reachable.
Qed.

Lemma heartbeat_insufficient fuel request w b :
  redis w !! ("lock:" +:+ agent_id request) = None ->
  redis w !! key_balance (agent_id request) = Some (Repr b) ->
  killed_of (redis w) (agent_id request) = false ->
  is_zombie request = false ->
  PrimFloat.ltb b (cost request) = true ->
  is_counter (redis w) "stats:breaches" = true ->
  heartbeat (RC := RC) (S fuel) request w =
  (rejected reachable "Payment Required: Insufficient Budget",
   served request (counted reachable "stats:breaches" (redis w))
     [Cmd (INCR "stats:breaches")] w).
Proof.
  intros Hl Hb Hk Hz Hlt Hc.
  rewrite (heartbeat_breach_insufficient RC EL (backend_off_incr reachable) _ _ _ b)
    by done.
  unfold RC. rewrite backend_incr by (by rewrite (held_counter _ _ "breaches")).
  rewrite (held_counted _ _ _ "breaches") by done.
  by destruct reachable.
Qed.

Lemma heartbeat_zombie_exit fuel request w b :
  redis w !! ("lock:" +:+ agent_id request) = None ->
  redis w !! key_balance (agent_id request) = Some (Repr b) ->
  killed_of (redis w) (agent_id request) = false ->
  is_zombie request = true ->
  is_counter (redis w) "stats:zombies" = true ->
  heartbeat (RC := RC) (S fuel) request w =
  if reachable then
    (Raise (HTTPException 402 "Payment Required: Zombie Agent Detected"),
     served request
       (<[key_killed (agent_id request) := Lit "true"]>
          (counted true "stats:zombies" (redis w)))
       [Cmd (SET (key_killed (agent_id request)) (PyStr (Lit "true")));
        Cmd (INCR "stats:zombies")] w)
  else
    (Raise (AttributeError "incr"),
     served request (redis w) [Cmd (INCR "stats:zombies")] w).
Proof.
  intros Hl Hb Hk Hz Hc.
  rewrite (heartbeat_zombie RC EL (backend_off_incr reachable) _ _ _ b) by done.
  unfold RC. rewrite backend_incr by (by rewrite (held_counter _ _ "zombies")).
  destruct reachable.
  - rewrite delete_insert_ne by auto with keys.
    by rewrite (held_counted true _ _ "zombies").
  - by rewrite (held_counted false _ _ "zombies").
Qed.

Lemma heartbeat_ok fuel request w b s :
  redis w !! ("lock:" +:+ agent_id request) = None ->
  redis w !! key_balance (agent_id request) = Some (Repr b) ->
  redis w !! key_spent (agent_id request) = Some (Repr s) ->
  killed_of (redis w) (agent_id request) = false ->
  is_zombie request = false ->
  PrimFloat.ltb b (cost request) = false ->
  heartbeat (RC := RC) (S fuel) request w =
  (Ret {| status := "ok"; remaining_balance := PrimFloat.sub b (cost request) |},
   served request
     (<[key_spent (agent_id request) := Repr (PrimFloat.add s (cost request))]>
        (<[key_balance (agent_id request) := Repr (PrimFloat.sub b (cost request))]>
           (redis w)))
     [Cmd (INCRBYFLOAT (key_spent (agent_id request)) (cost request));
      Cmd (INCRBYFLOAT (key_balance (agent_id request)) (PrimFloat.opp (cost request)))]
     w).
Proof. apply heartbeat_deduct, backend_off_incr. Qed.

Lemma heartbeat_404 fuel request w :
  redis w !! ("lock:" +:+ agent_id request) = None ->
  redis w !! key_balance (agent_id request) = None ->
  heartbeat (RC := RC) (S fuel) request w =
  (Raise (HTTPException 404 "Agent not found"),
   released (agent_id request) (redis w)
     (mkWorld (redis w) (now w)
        (Cmd (GET (key_balance (agent_id request)))
           :: trace (acquired (agent_id request) (redis w) w)))).
Proof. apply heartbeat_not_found, backend_off_incr. Qed.
End Exits.

(** ** C1: the five steps of a heartbeat *)

Lemma exact_total b s cost :
  exact_sub b cost = true -> exact_add s cost = true ->
  exists q q', ledger_total b s = Some q
               /\ ledger_total (PrimFloat.sub b cost) (PrimFloat.add s cost) = Some q'
               /\ (q == q')%Q.
Proof.
  unfold exact_sub, exact_add, ledger_total.
  destruct (F.to_Q b) as [qb|], (F.to_Q cost) as [qc|],
    (F.to_Q (PrimFloat.sub b cost)) as [qb'|]; try discriminate.
  destruct (F.to_Q s) as [qs|]; try discriminate.
  destruct (F.to_Q (PrimFloat.add s cost)) as [qs'|]; try discriminate.
  intros Hb Hs. apply Qeq_bool_iff in Hb, Hs.
  exists (qb + qs)%Q, (qb' + qs')%Q. repeat split.
  rewrite Hb, Hs. ring.
Qed.




(** ** C2: the kill switch *)

Section KillSwitch.
Context (EL : EventLoop (gmap string text)).

(** [kill_switch] on an agent with a record sets the flag, on either store. *)
Lemma kill_switch_sets reachable fuel id w b :
  redis w !! ("lock:" +:+ id) = None ->
  redis w !! key_balance id = Some (Repr b) ->
  kill_switch (RC := backend reachable) (S fuel) id w =
  (Ret ("killed", id),
   released id (<[key_killed id := Lit "true"]> (redis w))
     (mkWorld (<[key_killed id := Lit "true"]> (redis w)) (now w)
        (Cmd (SET (key_killed id) (PyStr (Lit "true")))
           :: Cmd (GET (key_balance id)) :: trace (acquired id (redis w) w)))).
Proof.
  intros Hl Hb. unfold kill_switch.
  rewrite (async_with_free _ _ (backend_off_incr reachable)) by done. cbv zeta.
  io. rewrite (call_get _ (backend_off_incr reachable)).
  cbn [acquired redis]. rewrite held_lookup by auto with keys. rewrite Hb.
  cbn [from_option truthy negb]. io.
  rewrite (call_set _ (backend_off_incr reachable)). cbn [fst snd redis str].
  rewrite delete_insert_ne by auto with keys. by rewrite delete_insert_id.
Qed.

Lemma killed_of_insert_true (d : gmap string text) id :
  killed_of (<[key_killed id := Lit "true"]> d) id = true.
Proof. unfold killed_of. by rewrite lookup_insert_eq. Qed.

Lemma killed_of_insert_stats (d : gmap string text) id k t :
  killed_of (<["stats:" +:+ k := t]> d) id = killed_of d id.
Proof. unfold killed_of. rewrite lookup_insert_ne; [done|auto with keys]. Qed.

Lemma is_counter_insert_self (d : gmap string text) k n :
  is_counter (<[k := Dec n]> d) k = true.
Proof. unfold is_counter. by rewrite lookup_insert_eq. Qed.

Lemma counter_value_insert_self (d : gmap string text) k n :
  counter_value (<[k := Dec n]> d) k = n.
Proof. unfold counter_value. by rewrite lookup_insert_eq. Qed.

(** On a store that provides [incr], a zombie report for a live agent
    counts one zombie, sets the flag, deducts nothing and answers 402. *)
Lemma zombie_report_kills fuel id cost w b :
  redis w !! ("lock:" +:+ id) = None ->
  redis w !! key_balance id = Some (Repr b) ->
  killed_of (redis w) id = false ->
  is_counter (redis w) "stats:zombies" = true ->
  let (r, w') := heartbeat (RC := backend true) (S fuel) (mkRequest id cost true) w in
  r = Raise (HTTPException 402 "Payment Required: Zombie Agent Detected")
  /\ killed_of (redis w') id = true
  /\ counter_value (redis w') "stats:zombies"
      = counter_value (redis w) "stats:zombies" + 1
  /\ redis w' !! key_balance id = redis w !! key_balance id
  /\ redis w' !! key_spent id = redis w !! key_spent id.
Proof.
  intros Hl Hb Hk Hc.
  rewrite (heartbeat_zombie_exit true EL fuel (mkRequest id cost true) w b) by done.
  cbn [served released redis agent_id counted]. repeat split.
  - apply killed_of_insert_true.
  - unfold counter_value at 1. rewrite lookup_insert_ne by auto with keys.
    by rewrite lookup_insert_eq.
  - by rewrite !lookup_insert_ne by auto with keys.
  - by rewrite !lookup_insert_ne by auto with keys.
Qed.

(** Once the flag is set, every later heartbeat for the agent is rejected
    as killed, each counting one breach, whatever it reports and whatever
    the balance; balance and spent stay as they were. *)
Lemma killed_stays_killed requests : forall id w b,
  Forall (fun request => agent_id request = id) requests ->
  redis w !! ("lock:" +:+ id) = None ->
  redis w !! key_balance id = Some (Repr b) ->
  killed_of (redis w) id = true ->
  is_counter (redis w) "stats:breaches" = true ->
  let (rs, w') := serve (RC := backend true) requests w in
  rs = map (fun _ => Raise (HTTPException 402 "Payment Required: Agent Killed")) requests
  /\ counter_value (redis w') "stats:breaches"
      = counter_value (redis w) "stats:breaches" + Z.of_nat (length requests)
  /\ killed_of (redis w') id = true
  /\ redis w' !! key_balance id = redis w !! key_balance id
  /\ redis w' !! key_spent id = redis w !! key_spent id.
Proof.
  induction requests as [|request rest IH]; intros id w b Hall Hl Hb Hk Hc.
  - cbn. repeat split; try done. lia.
  - inversion Hall as [|? ? Hid Hrest]; subst. cbn [serve].
    rewrite (heartbeat_killed true EL 0 request w b) by done.
    set (w1 := served _ _ _ _).
    assert (H1 : redis w1 = <["stats:breaches" :=
                                Dec (counter_value (redis w) "stats:breaches" + 1)]>
                              (redis w)) by reflexivity.
    specialize (IH (agent_id request) w1 b Hrest).
    rewrite H1 in IH.
    rewrite lookup_insert_ne in IH by auto with keys.
    rewrite lookup_insert_ne in IH by auto with keys.
    rewrite (killed_of_insert_stats _ _ "breaches") in IH.
    rewrite is_counter_insert_self, counter_value_insert_self in IH.
    specialize (IH Hl Hb Hk eq_refl).
    destruct (serve rest w1) as [rs w']. destruct IH as (-> & Hn & Hk' & Hb' & Hs').
    rewrite Hb', Hs', Hn. rewrite !lookup_insert_ne by auto with keys.
    cbn [map length]. repeat split; try done. lia.
Qed.
End KillSwitch.

(** C2, on the store the engine falls back to.  [MockRedis] has no [incr]:
    a zombie report for the seeded agent raises AttributeError before the
    flag is set, so it is answered 500 and the agent stays alive; and once an
    administrator has set the flag, a heartbeat raises the same error at the
    breach counter: 500, not 402, and no breach is counted. *)
Theorem kill_switch_on_fallback :
  let zombie := heartbeat (RC := backend false) (EL := quiet) 1
                  (mkRequest "Agent_007" 0.05%float true) seeded in
  let killed := kill_switch (RC := backend false) (EL := quiet) 1 "Agent_007" seeded in
  let later := heartbeat (RC := backend false) (EL := quiet) 1
                 (mkRequest "Agent_007" 0.05%float false) (snd killed) in
  fst zombie = Raise (AttributeError "incr")
  /\ http_status (fst zombie) = Some 500
  /\ killed_of (redis (snd zombie)) "Agent_007" = false
  /\ redis (snd zombie) !! "stats:zombies" = None
  /\ fst killed = Ret ("killed", "Agent_007")
  /\ killed_of (redis (snd killed)) "Agent_007" = true
  /\ fst later = Raise (AttributeError "incr")
  /\ http_status (fst later) = Some 500
  /\ redis (snd later) !! "stats:breaches" = None.
Proof. vm_compute. repeat split. Qed.

(** ** C10: a negative cost *)

(** C10.  The endpoint accepts a negative cost: for an agent with a record,
    not killed, with a balance that is not negative, a heartbeat (not a
    zombie report) with a negative cost passes the budget check, succeeds,
    raises the balance by the absolute value of the cost and lowers spent by
    the same amount. *)
Theorem negative_cost_tops_up
  (reachable : bool) (EL : EventLoop (gmap string text)) (fuel : nat)
  (id : string) (c : float) (w : World (gmap string text)) (b s : float) :
  redis w !! ("lock:" +:+ id) = None ->
  redis w !! key_balance id = Some (Repr b) ->
  redis w !! key_spent id = Some (Repr s) ->
  killed_of (redis w) id = false ->
  PrimFloat.leb 0%float b = true ->
  PrimFloat.ltb c 0%float = true ->
  let (r, w') := heartbeat (RC := backend reachable) (S fuel) (mkRequest id c false) w in
  r = Ret {| status := "ok";
             remaining_balance := PrimFloat.add b (PrimFloat.abs c) |}
  /\ redis w' !! key_balance id = Some (Repr (PrimFloat.add b (PrimFloat.abs c)))
  /\ redis w' !! key_spent id = Some (Repr (PrimFloat.sub s (PrimFloat.abs c))).
Proof.
  intros Hl Hb Hs Hk Hpos Hneg.
  rewrite (heartbeat_ok reachable EL fuel (mkRequest id c false) w b s);
    try done; [|by apply FloatOrder.negative_below].
  cbn [served released redis agent_id cost].
  rewrite (FloatOrder.sub_negative b c Hneg), (FloatOrder.add_negative s c Hneg).
  repeat split.
  - rewrite lookup_insert_ne by (apply not_eq_sym; auto with keys).
    by rewrite lookup_insert_eq.
  - by rewrite lookup_insert_eq.
Qed.

Lemma negative_cost_tops_up_witness :
  let (r, w') := heartbeat (RC := backend false) (EL := quiet) 1
                   (mkRequest "Agent_007" (-50)%float false) seeded in
  r = Ret {| status := "ok"; remaining_balance := 150%float |}
  /\ redis w' !! key_balance "Agent_007" = Some (Repr 150%float)
  /\ redis w' !! key_spent "Agent_007" = Some (Repr (-50)%float).
Proof.
  exact (negative_cost_tops_up false quiet 0 "Agent_007" (-50)%float seeded
           100%float 0%float eq_refl eq_refl eq_refl eq_refl eq_refl eq_refl).
Defined.

(** ** C6: draining the seeded budget *)

(** C6 as stated fails on the fallback store: the 2000 calls succeed, and
    the balance they leave is not 0.0. *)
Lemma depletion_leaves_residue :
  let run := heartbeats (RC := backend false) (EL := quiet) 2000
               (mkRequest "Agent_007" 0.05%float false) seeded in
  fst run = 2000%nat
  /\ exists balance, redis (snd run) !! key_balance "Agent_007" = Some (Repr balance)
       /\ PrimFloat.eqb balance 0%float = false.
Proof.
  vm_compute. split; [reflexivity|].
  eexists. split; [reflexivity|]. vm_compute. reflexivity.
Qed.

(** C6, amended.  Through the fallback store, the agent seeded with balance
    100.0 and spent 0.0 and heartbeated at cost 0.05 is served exactly 2000
    times; the 2000 binary64 subtractions leave the balance
    3.5443453727523888e-12 and the additions bring spent to
    99.999999999996461; the 2001st call finds the balance below the cost,
    goes for the breach counter and is not served, and deducts nothing. *)
Theorem depletion_on_fallback :
  let request := mkRequest "Agent_007" 0.05%float false in
  let run := heartbeats (RC := backend false) (EL := quiet) 2000 request seeded in
  let last := heartbeat (RC := backend false) (EL := quiet) 1 request (snd run) in
  redis seeded !! key_balance "Agent_007" = Some (Repr 100%float)
  /\ redis seeded !! key_spent "Agent_007" = Some (Repr 0%float)
  /\ fst run = 2000%nat
  /\ redis (snd run) !! key_balance "Agent_007" = Some (Repr 3.5443453727523888e-12%float)
  /\ redis (snd run) !! key_spent "Agent_007" = Some (Repr 99.999999999996461%float)
  /\ PrimFloat.ltb 3.5443453727523888e-12%float 0.05%float = true
  /\ (exists e, fst last = Raise e)
  /\ hd_error (tl (trace (snd last))) = Some (Cmd (INCR "stats:breaches"))
  /\ redis (snd last) !! key_balance "Agent_007" = Some (Repr 3.5443453727523888e-12%float)
  /\ redis (snd last) !! key_spent "Agent_007" = Some (Repr 99.999999999996461%float)
  /\ fst (heartbeats (RC := backend false) (EL := quiet) 2001 request seeded) = 2000%nat.
Proof.
  vm_compute. repeat split. eexists. reflexivity.
Qed.

(** ** C7: the fallback store against the specified store *)

(** C7, at the failing input.  On every command but [incr] the fallback
    store answers as the specified store does, with the same state after;
    [incr], which [heartbeat] awaits on three of its exits, is not defined on
    [MockRedis]: the call raises AttributeError where the specified store
    counts, and the engine's reply to the same request on the same ledger
    differs with the backend. *)
Theorem fallback_lacks_incr :
  (forall c d, (forall key, c <> INCR key) -> MockRedis.getattr c d = LedgerStore.exec c d)
  /\ (forall key d, MockRedis.getattr (INCR key) d = (Raise (AttributeError "incr"), d))
  /\ LedgerStore.exec (INCR "stats:breaches") (redis seeded)
     = (Ret (PyInt 1), <["stats:breaches" := Dec 1]> (redis seeded))
  /\ fst (heartbeat (RC := backend true) (EL := quiet) 1
            (mkRequest "Agent_007" 0.05%float true) seeded)
     = Raise (HTTPException 402 "Payment Required: Zombie Agent Detected")
  /\ fst (heartbeat (RC := backend false) (EL := quiet) 1
            (mkRequest "Agent_007" 0.05%float true) seeded)
     = Raise (AttributeError "incr").
Proof.
  split; [|split; [|split; [|split]]].
  - intros c d Hc. pose proof (LedgerStore_off_incr c d) as H.
    destruct c; try (symmetry; exact H). by destruct (Hc key).
  - reflexivity.
  - reflexivity.
  - vm_compute. reflexivity.
  - vm_compute. reflexivity.
Qed.

(** ** C5: the heartbeat dispatcher *)

Module Dispatcher.
Import Sdk.

Lemma cooldown t :
  PrimFloat.add t (F.of_int COOLDOWN_SECONDS) = PrimFloat.add t 60%float.
Proof. reflexivity. Qed.

(** While the circuit is open an attempt is refused and changes nothing. *)
Lemma refused_open t0 t1 self :
  PrimFloat.ltb t0 (circuit_tripped_until self) = true ->
  admission t0 t1 self =
  (Raise (CircuitBreakerTrippedError (circuit_tripped_until self)
            (PrimFloat.sub (circuit_tripped_until self) t1)), self).
Proof. intros H. unfold admission. by rewrite H. Qed.

Lemma attempts_open clock : forall self,
  Forall (fun '(t0, _) => PrimFloat.ltb t0 (circuit_tripped_until self) = true) clock ->
  attempts clock self =
  (map (fun '(_, t1) =>
          Raise (CircuitBreakerTrippedError (circuit_tripped_until self)
                   (PrimFloat.sub (circuit_tripped_until self) t1))) clock,
   self).
Proof.
  induction clock as [|[t0 t1] rest IH]; intros self Hall; [reflexivity|].
  inversion Hall as [|? ? H0 Hrest]; subst. cbn [attempts map].
  rewrite refused_open by done. by rewrite IH.
Qed.
End Dispatcher.

(** C5.  When the post of a heartbeat ends with status 200 or 402 the count
    of consecutive failures is reset to 0, and with 402 the local kill switch
    is set as well; when it ends with a transport error the count goes up by
    one and, once it has reached 3, the circuit is open until 60 seconds
    after that moment: every admission attempt before then raises
    CircuitBreakerTrippedError and changes nothing, and an attempt at or
    after that moment passes the circuit check; any other exception leaves
    the client as it was, and the dispatcher returns in every case. *)
Theorem dispatcher_transitions (self : Sdk.AiyodhaClient) (t : float) :
  (forall code, code = 200 \/ code = 402 ->
     Sdk.consecutive_failures (Sdk._send_heartbeat (Sdk.Response code) t self) = 0)
  /\ Sdk.local_kill_switch (Sdk._send_heartbeat (Sdk.Response 402) t self) = true
  /\ Sdk.local_kill_switch (Sdk._send_heartbeat (Sdk.Response 200) t self)
     = Sdk.local_kill_switch self
  /\ (let failed := Sdk._send_heartbeat Sdk.RequestError t self in
      Sdk.consecutive_failures failed = Sdk.consecutive_failures self + 1
      /\ Sdk.local_kill_switch failed = Sdk.local_kill_switch self
      /\ (Sdk.consecutive_failures failed < 3 ->
          Sdk.circuit_tripped_until failed = Sdk.circuit_tripped_until self)
      /\ (3 <= Sdk.consecutive_failures failed ->
          Sdk.circuit_tripped_until failed = PrimFloat.add t 60%float
          /\ (forall clock,
                Forall (fun '(t0, _) => PrimFloat.ltb t0 (PrimFloat.add t 60%float) = true)
                  clock ->
                attempts clock failed =
                (map (fun '(_, t1) =>
                        Raise (CircuitBreakerTrippedError (PrimFloat.add t 60%float)
                                 (PrimFloat.sub (PrimFloat.add t 60%float) t1))) clock,
                 failed))
          /\ (forall t0 t1, PrimFloat.ltb t0 (PrimFloat.add t 60%float) = false ->
                forall until remaining,
                fst (Sdk.admission t0 t1 failed)
                <> Raise (CircuitBreakerTrippedError until remaining))))
  /\ Sdk._send_heartbeat Sdk.OtherException t self = self.
Proof.
  split; [|split; [|split; [|split]]].
  - intros code Hcode. cbn. by rewrite bool_decide_eq_true_2.
  - reflexivity.
  - reflexivity.
  - cbv zeta. split; [reflexivity|]. split; [reflexivity|]. split.
    + intros H. cbn in *. rewrite bool_decide_eq_false_2; [done|].
      unfold Sdk.FAILURE_THRESHOLD. lia.
    + intros H.
      assert (Hu : Sdk.circuit_tripped_until (Sdk._send_heartbeat Sdk.RequestError t self)
                   = PrimFloat.add t 60%float).
      { cbn in *. by rewrite bool_decide_eq_true_2. }
      split; [exact Hu|]. split.
      * intros clock Hall. rewrite Dispatcher.attempts_open; rewrite Hu; done.
      * intros t0 t1 Hlt until remaining. unfold Sdk.admission. rewrite Hu, Hlt.
        destruct (Sdk.local_kill_switch _); [discriminate|].
        destruct (bool_decide _); discriminate.
  - reflexivity.
Qed.

(** ** C9: the zombie heuristic *)

Module Zombie.
Import Sdk.

Lemma flagged_iff self :
  _check_zombie_status self = true <->
  (5 <= length (response_history self))%nat
  /\ PrimFloat.ltb (std_dev (response_history self)) 5%float = true.
Proof.
  unfold _check_zombie_status. case_bool_decide as Hlen.
  - destruct (PrimFloat.ltb _ _); split; try done; try (intros [_ ?]; done).
    intros _. split; [lia|done].
  - split; [done|]. intros [H _]. lia.
Qed.

Lemma too_few self :
  (length (response_history self) < 5)%nat -> _check_zombie_status self = false.
Proof.
  intros H. unfold _check_zombie_status. rewrite bool_decide_eq_false_2; [done|lia].
Qed.

Lemma uniform_flagged_spec bound :
  uniform_flagged bound = true ->
  forall self (x n : nat),
    (x <= bound)%nat -> (5 <= n <= 10)%nat ->
    response_history self = repeat (Z.of_nat x) n ->
    PrimFloat.eqb (std_dev (response_history self)) 0%float = true
    /\ _check_zombie_status self = true.
Proof.
  unfold uniform_flagged. intros H self x n Hx Hn Hh.
  rewrite forallb_forall in H. specialize (H x).
  rewrite forallb_forall in H.
  assert (Hin : In x (seq 0 (S bound))) by (apply in_seq; lia).
  assert (Hin' : In n (seq 5 6)) by (apply in_seq; lia).
  specialize (H Hin n Hin'). apply andb_prop in H.
  unfold _check_zombie_status in *. cbn [response_history] in H. by rewrite Hh.
Qed.

Lemma uniform_4096 : uniform_flagged 4096 = true.
Proof. vm_compute. reflexivity. Qed.

(** The window after one more response: the last ten lengths. *)
Lemma history_window text self :
  (length (response_history self) <= 10)%nat ->
  response_history (_update_zombie_history text self)
  = last_n 10 (response_history self ++ [Z.of_nat (String.length text)])%list.
Proof.
  intros H. unfold _update_zombie_history, last_n, pop0. cbn [response_history].
  rewrite length_app. cbn [length].
  case_bool_decide as Hlen.
  - assert (length (response_history self) = 10)%nat as E by lia.
    rewrite E. cbn. by destruct (response_history self ++ _)%list.
  - replace (length (response_history self) + 1 - 10)%nat with 0%nat by lia.
    reflexivity.
Qed.

Lemma history_bounded text self :
  (length (response_history self) <= 10)%nat ->
  (length (response_history (_update_zombie_history text self)) <= 10)%nat.
Proof.
  intros H. unfold _update_zombie_history, pop0. cbn [response_history].
  case_bool_decide as Hlen.
  - destruct (response_history self) as [|a l]; cbn [app tail length] in *; [lia|].
    rewrite length_app. cbn [length]. rewrite length_app in Hlen. cbn [length] in Hlen. lia.
  - rewrite length_app in *. cbn [length] in *. lia.
Qed.

(** The oldest length is the one dropped. *)
Lemma history_drops_oldest text self oldest rest :
  response_history self = oldest :: rest -> length rest = 9%nat ->
  response_history (_update_zombie_history text self)
  = (rest ++ [Z.of_nat (String.length text)])%list.
Proof.
  intros E H. unfold _update_zombie_history, pop0. cbn [response_history].
  rewrite E. rewrite bool_decide_eq_true_2; [reflexivity|].
  cbn [app length]. rewrite length_app. cbn [length]. lia.
Qed.
End Zombie.


(** ** C4: local admission *)

Module Admission.
Import Sdk.
Local Open Scope list_scope.

(** The loop drops the leading timestamps that are older than a second. *)
Lemma evict_dropwhile now window :
  evict (PrimFloat.sub now 1%float) window
  = match window with
    | [] => []
    | t :: rest =>
        if older now t then evict (PrimFloat.sub now 1%float) rest else window
    end.
Proof. by destruct window. Qed.

(** On a window in clock order, that is every timestamp older than a
    second, and no other. *)
Lemma evict_filter now window :
  ascending window ->
  evict (PrimFloat.sub now 1%float) window
  = List.filter (fun t => negb (older now t)) window.
Proof.
  unfold ascending, older. induction 1 as [|t rest Hs IH Hall]; [reflexivity|].
  cbn [evict List.filter]. destruct (PrimFloat.ltb t _) eqn:E; cbn [negb]; [exact IH|].
  f_equal. symmetry. apply forallb_filter_id. apply forallb_forall.
  intros x Hx. rewrite List.Forall_forall in Hall.
  by rewrite (FloatOrder.not_ltb_leb t x _ E (Hall x Hx)).
Qed.

Lemma evict_all thr window :
  Forall (fun t => PrimFloat.ltb t thr = true) window -> evict thr window = [].
Proof. induction 1 as [|t rest H _ IH]; [reflexivity|]. cbn. by rewrite H. Qed.

(** Timestamps that are not older than a second stay, with what is left
    of the entries before them. *)
Lemma evict_keeps thr before recent :
  Forall (fun t => PrimFloat.ltb t thr = false) recent ->
  exists left, evict thr (before ++ recent) = left ++ recent.
Proof.
  intros Hall. induction before as [|t rest IH].
  - exists []. destruct Hall as [|t recent H Hrest]; [reflexivity|].
    cbn. by rewrite H.
  - cbn [app evict]. destruct (PrimFloat.ltb t thr); [exact IH|].
    by exists (t :: rest).
Qed.

Lemma evict_ascending thr window :
  ascending window -> ascending (evict thr window).
Proof.
  unfold ascending. induction 1 as [|t rest Hs IH Hall]; [constructor|].
  cbn. destruct (PrimFloat.ltb t thr); [exact IH|]. by constructor.
Qed.

Lemma evict_incl thr window t : In t (evict thr window) -> In t window.
Proof.
  induction window as [|a rest IH]; [done|]. cbn.
  destruct (PrimFloat.ltb a thr); [right; by apply IH|done].
Qed.

Lemma ascending_snoc window now :
  ascending window -> Forall (fun t => PrimFloat.leb t now = true) window ->
  ascending (window ++ [now]).
Proof.
  unfold ascending. induction 1 as [|t rest Hs IH Hall]; intros Hle.
  - repeat constructor.
  - inversion Hle as [|? ? Ht Hrest]; subst. cbn. constructor; [by apply IH|].
    apply Forall_app. split; [done|]. by constructor.
Qed.

(** *** The three checks, in order *)

Lemma refused_killed t0 t1 self :
  PrimFloat.ltb t0 (circuit_tripped_until self) = false ->
  local_kill_switch self = true ->
  admission t0 t1 self = (Raise (BudgetExceededError "Agent is killed (Local Cache)"), self).
Proof. intros H0 H1. unfold admission. by rewrite H0, H1. Qed.

Lemma checks_window t0 t1 self :
  PrimFloat.ltb t0 (circuit_tripped_until self) = false ->
  local_kill_switch self = false ->
  let window := evict (PrimFloat.sub t1 1%float) (request_timestamps self) in
  admission t0 t1 self =
  if bool_decide (5 <= length window)%nat then
    (Raise (BudgetExceededError "Local Rate Limit Exceeded (5 RPS)"),
     with_window window self)
  else (Ret tt, with_window (window ++ [t1]) self).
Proof.
  intros H0 H1. unfold admission, with_window, MAX_LOCAL_RPS. rewrite H0, H1. cbv zeta.
  case_bool_decide as H; case_bool_decide as H'; try reflexivity; lia.
Qed.

Lemma passes_after_slide t0 t1 self :
  PrimFloat.ltb t0 (circuit_tripped_until self) = false ->
  local_kill_switch self = false ->
  Forall (fun t => older t1 t = true) (request_timestamps self) ->
  admission t0 t1 self = (Ret tt, with_window [t1] self).
Proof.
  intros H0 H1 Hall. rewrite checks_window by done. cbv zeta.
  by rewrite evict_all.
Qed.

(** *** Attempts within one second *)

Lemma same_second_split recent t later :
  same_second (recent ++ t :: later) ->
  Forall (fun x => PrimFloat.ltb x (PrimFloat.sub t 1%float) = false) recent.
Proof.
  unfold same_second, older. induction recent as [|a rest IH]; [constructor|].
  cbn [app]. intros H. inversion H as [|? ? Ha Hrest]; subst. constructor.
  - rewrite List.Forall_forall in Ha. apply Ha. apply in_elt.
  - by apply IH.
Qed.

Lemma attempts_all_pass clock : forall self before recent,
  local_kill_switch self = false ->
  Forall (fun '(t0, _) => PrimFloat.ltb t0 (circuit_tripped_until self) = false) clock ->
  request_timestamps self = before ++ recent ->
  same_second (recent ++ map snd clock) ->
  fst (attempts clock self) = map (fun _ => Ret tt) clock ->
  exists left,
    snd (attempts clock self) = with_window (left ++ recent ++ map snd clock) self.
Proof.
  induction clock as [|[t0 t1] rest IH]; intros self before recent Hk Hc Hw Hs Hok.
  - exists before. cbn. rewrite app_nil_r, <- Hw. by destruct self.
  - inversion Hc as [|? ? H0 Hrest]; subst. cbn [attempts map snd] in *.
    rewrite checks_window in * by done. cbv zeta in *.
    destruct (evict_keeps (PrimFloat.sub t1 1%float) before recent
                (same_second_split _ _ _ Hs)) as [left Hleft].
    rewrite Hw, Hleft in *.
    case_bool_decide as Hfull.
    { destruct (attempts rest _); discriminate. }
    specialize (IH (with_window ((left ++ recent) ++ [t1]) self) left (recent ++ [t1])).
    cbn [local_kill_switch circuit_tripped_until request_timestamps with_window] in IH.
    rewrite <- !app_assoc in IH. cbn [app] in IH.
    rewrite <- !app_assoc in Hok. rewrite <- !app_assoc. cbn [app] in *.
    destruct (attempts rest _) as [rs self'] eqn:E. cbn [fst snd] in *.
    destruct (IH Hk Hrest eq_refl Hs) as [left' ->]; [congruence|].
    exists left'. reflexivity.
Qed.

(** Once five attempts within one second were admitted, the next attempt
    within that second is refused. *)
Lemma sixth_refused self clock t0 t1 :
  local_kill_switch self = false ->
  Forall (fun '(a, _) => PrimFloat.ltb a (circuit_tripped_until self) = false)
    (clock ++ [(t0, t1)]) ->
  same_second (map snd clock ++ [t1]) ->
  length clock = 5%nat ->
  fst (attempts clock self) = map (fun _ => Ret tt) clock ->
  fst (admission t0 t1 (snd (attempts clock self)))
  = Raise (BudgetExceededError "Local Rate Limit Exceeded (5 RPS)").
Proof.
  intros Hk Hc Hs Hlen Hok. apply Forall_app in Hc as [Hc Hc0].
  inversion Hc0 as [|? ? H0 _]; subst.
  destruct (attempts_all_pass clock self (request_timestamps self) []
              Hk Hc (eq_sym (app_nil_r _))) as [left E].
  { cbn [app]. clear -Hs. unfold same_second in *.
    induction (map snd clock) as [|a l IH]; [constructor|].
    cbn [app] in Hs. inversion Hs as [|? ? Ha Hl]; subst. constructor; [|by apply IH].
    rewrite List.Forall_forall in *. intros x Hx. apply Ha. apply in_or_app. by left. }
  { exact Hok. }
  rewrite E. cbn [app]. rewrite checks_window by done. cbv zeta.
  cbn [request_timestamps with_window].
  destruct (evict_keeps (PrimFloat.sub t1 1%float) left (map snd clock)
              (same_second_split _ _ _ Hs)) as [left' ->].
  rewrite bool_decide_eq_true_2; [reflexivity|].
  rewrite length_app, length_map. lia.
Qed.
End Admission.

(** C4.  Every admission attempt first compares the clock with
    [circuit_tripped_until] and raises CircuitBreakerTrippedError when it is
    before; then raises BudgetExceededError when the local kill switch is
    set; then drops the leading timestamps older than one second (on a
    window in clock order these are all the timestamps older than one
    second) and raises BudgetExceededError when 5 or more are left, else
    appends the current time and admits.  Hence a sixth attempt within the
    second of five admitted ones is refused, and an attempt made when every
    timestamp is older than one second is admitted. *)
Theorem local_admission (self : Sdk.AiyodhaClient) (t0 t1 : float) :
  (PrimFloat.ltb t0 (Sdk.circuit_tripped_until self) = true ->
   Sdk.admission t0 t1 self
   = (Raise (CircuitBreakerTrippedError (Sdk.circuit_tripped_until self)
               (PrimFloat.sub (Sdk.circuit_tripped_until self) t1)), self))
  /\ (PrimFloat.ltb t0 (Sdk.circuit_tripped_until self) = false ->
      Sdk.local_kill_switch self = true ->
      Sdk.admission t0 t1 self
      = (Raise (BudgetExceededError "Agent is killed (Local Cache)"), self))
  /\ (PrimFloat.ltb t0 (Sdk.circuit_tripped_until self) = false ->
      Sdk.local_kill_switch self = false ->
      let window := Sdk.evict (PrimFloat.sub t1 1%float) (Sdk.request_timestamps self) in
      (ascending (Sdk.request_timestamps self) ->
       window = List.filter (fun t => negb (older t1 t)) (Sdk.request_timestamps self))
      /\ Sdk.admission t0 t1 self
         = (if bool_decide (5 <= length window)%nat then
              (Raise (BudgetExceededError "Local Rate Limit Exceeded (5 RPS)"),
               with_window window self)
            else (Ret tt, with_window (window ++ [t1])%list self))
      /\ (ascending (Sdk.request_timestamps self) ->
          Forall (fun t => PrimFloat.leb t t1 = true) (Sdk.request_timestamps self) ->
          ascending (Sdk.request_timestamps (snd (Sdk.admission t0 t1 self))))
      /\ (forall clock,
            Forall (fun '(a, _) => PrimFloat.ltb a (Sdk.circuit_tripped_until self) = false)
              clock ->
            same_second (map snd clock ++ [t1])%list ->
            length clock = 5%nat ->
            fst (attempts clock self) = map (fun _ => Ret tt) clock ->
            fst (Sdk.admission t0 t1 (snd (attempts clock self)))
            = Raise (BudgetExceededError "Local Rate Limit Exceeded (5 RPS)"))
      /\ (Forall (fun t => older t1 t = true) (Sdk.request_timestamps self) ->
          Sdk.admission t0 t1 self = (Ret tt, with_window [t1] self))).
Proof.
  split; [apply Dispatcher.refused_open|]. split; [apply Admission.refused_killed|].
  intros H0 Hk. cbv zeta. split; [apply Admission.evict_filter|].
  split; [by apply Admission.checks_window|]. split; [|split].
  - intros Hasc Hle. rewrite Admission.checks_window by done. cbv zeta.
    pose proof (Admission.evict_ascending (PrimFloat.sub t1 1%float) _ Hasc) as Hev.
    case_bool_decide; cbn [snd with_window Sdk.request_timestamps]; [done|].
    apply Admission.ascending_snoc; [done|].
    rewrite List.Forall_forall in *. intros x Hx. apply Hle.
    by apply Admission.evict_incl in Hx.
  - intros clock Hc Hs Hlen Hok. apply Admission.sixth_refused; try done.
    apply Forall_app. split; [done|]. by constructor.
  - by apply Admission.passes_after_slide.
Qed.

(** Six attempts a tenth of a second apart on a new client, then one more
    1.15 seconds after the first. *)
Example six_attempts :
  let clock := [(10, 10); (10.1, 10.1); (10.2, 10.2); (10.3, 10.3); (10.4, 10.4);
                (10.5, 10.5); (11.15, 11.15)]%float in
  fst (attempts clock (Sdk.init "Agent_007"))
  = [Ret tt; Ret tt; Ret tt; Ret tt; Ret tt;
     Raise (BudgetExceededError "Local Rate Limit Exceeded (5 RPS)"); Ret tt]
  /\ Sdk.request_timestamps (snd (attempts clock (Sdk.init "Agent_007")))
     = [10.2; 10.3; 10.4; 11.15]%float.
Proof. vm_compute. split; reflexivity. Qed.

(** ** C8: the distributed lock *)

Section Lock.
Context (RC : RedisClient (gmap string text)) (EL : EventLoop (gmap string text)).
Hypothesis off_incr : forall c d,
  match c with INCR _ => True | _ => call c d = MockRedis.getattr c d end.

(** A held lock within the timeout: sleep 10 ms, then try again. *)
Lemma spin_retry fuel res start_time w :
  is_Some (redis w !! ("lock:" +:+ res)) ->
  PrimFloat.ltb 5%float (PrimFloat.sub (now w) start_time) = false ->
  aenter_loop (S fuel) (DistributedLock_init res) start_time w
  = aenter_loop fuel (DistributedLock_init res) start_time (slept res w).
Proof.
  intros Hheld Hin. cbn [aenter_loop DistributedLock_init resource timeout]. io.
  rewrite (call_setnx_held RC off_incr) by done. cbn [truthy]. io.
  change (F.of_int 5) with 5%float. rewrite Hin. unfold slept.
  cbn [redis now trace]. by destruct (suspended _ _).
Qed.

(** A held lock once the wait has exceeded the timeout: 503. *)
Lemma spin_busy fuel res start_time w :
  is_Some (redis w !! ("lock:" +:+ res)) ->
  PrimFloat.ltb 5%float (PrimFloat.sub (now w) start_time) = true ->
  aenter_loop (S fuel) (DistributedLock_init res) start_time w
  = (Raise (HTTPException 503 "Service Busy: Could not acquire lock"),
     mkWorld (redis w) (now w)
       (Cmd (SETNX ("lock:" +:+ res) (PyStr (Lit "locked"))) :: trace w)).
Proof.
  intros Hheld Hout. cbn [aenter_loop DistributedLock_init resource timeout]. io.
  rewrite (call_setnx_held RC off_incr) by done. cbn [truthy]. io.
  change (F.of_int 5) with 5%float. by rewrite Hout.
Qed.

(** A lock that is not held is not given back. *)
Lemma aexit_not_held res w :
  aexit (DistributedLock_init res) w = (Ret (DistributedLock_init res), w).
Proof. reflexivity. Qed.

(** When the lock could not be taken the body does not run and nothing is
    given back. *)
Lemma async_with_busy {A} fuel res (body : IO (gmap string text) A) w e w' :
  aenter fuel (DistributedLock_init res) w = (Raise e, w') ->
  async_with fuel (DistributedLock_init res) body w = (Raise e, w').
Proof. intros H. unfold async_with. by rewrite H. Qed.

(** Whatever the body does, the lock is given back once after it. *)
Lemma async_with_releases {A} fuel res (body : IO (gmap string text) A) w :
  redis w !! ("lock:" +:+ res) = None ->
  let w1 := acquired res (<["lock:" +:+ res := Lit "locked"]> (redis w)) w in
  let (r, w') := async_with (S fuel) (DistributedLock_init res) body w in
  r = fst (body w1)
  /\ redis w' !! ("lock:" +:+ res) = None
  /\ trace w' = Cmd (DELETE ("lock:" +:+ res)) :: trace (snd (body w1))
  /\ releases res (trace w') = S (releases res (trace (snd (body w1)))).
Proof.
  intros Hfree. cbv zeta. rewrite (async_with_free RC EL off_incr) by done.
  cbv zeta. cbn [released redis trace]. repeat split.
  - apply lookup_delete_eq.
  - unfold releases. cbn [List.filter is_release]. by rewrite String.eqb_refl.
Qed.
End Lock.

(** C8.  [__aenter__] tries a set-if-absent of "locked" on the key
    lock:<resource>; when the key was absent it sets a 5 second expiry on it
    and holds the lock; when the key is held and the wait so far does not
    exceed 5 seconds it sleeps 10 ms and tries again; when the key is held
    and the wait exceeds 5 seconds it raises HTTP 503 (Service Busy), having
    changed nothing.  After the body of the critical section, whether it
    returned or raised, and whatever it raised, the lock key is deleted once
    and the body's outcome is passed on; a lock that was not taken is not
    given back. *)
Theorem lock_contract
  (reachable : bool) (EL : EventLoop (gmap string text)) (fuel : nat)
  (res : string) (w : World (gmap string text)) :
  let lock := DistributedLock_init res in
  let attempt := Cmd (SETNX ("lock:" +:+ res) (PyStr (Lit "locked"))) in
  (redis w !! ("lock:" +:+ res) = None ->
   aenter (RC := backend reachable) (S fuel) lock w
   = (Ret (mkLock ("lock:" +:+ res) 5 true),
      mkWorld (<["lock:" +:+ res := Lit "locked"]> (redis w)) (now w)
        (Cmd (EXPIRE ("lock:" +:+ res) 5) :: attempt :: trace w)))
  /\ (forall start_time, is_Some (redis w !! ("lock:" +:+ res)) ->
      PrimFloat.ltb 5%float (PrimFloat.sub (now w) start_time) = false ->
      aenter_loop (RC := backend reachable) (S fuel) lock start_time w
      = aenter_loop (RC := backend reachable) fuel lock start_time (slept res w)
      /\ exists rest, trace (slept res w) = Sleep 0.01%float :: attempt :: rest)
  /\ (forall start_time, is_Some (redis w !! ("lock:" +:+ res)) ->
      PrimFloat.ltb 5%float (PrimFloat.sub (now w) start_time) = true ->
      aenter_loop (RC := backend reachable) (S fuel) lock start_time w
      = (Raise (HTTPException 503 "Service Busy: Could not acquire lock"),
         mkWorld (redis w) (now w) (attempt :: trace w)))
  /\ (forall A (body : IO (gmap string text) A),
      redis w !! ("lock:" +:+ res) = None ->
      let w1 := acquired res (<["lock:" +:+ res := Lit "locked"]> (redis w)) w in
      let (r, w') := async_with (RC := backend reachable) (S fuel) lock body w in
      r = fst (body w1)
      /\ redis w' !! ("lock:" +:+ res) = None
      /\ trace w' = Cmd (DELETE ("lock:" +:+ res)) :: trace (snd (body w1))
      /\ releases res (trace w') = S (releases res (trace (snd (body w1)))))
  /\ (forall A (body : IO (gmap string text) A) e w',
      aenter (RC := backend reachable) fuel lock w = (Raise e, w') ->
      async_with (RC := backend reachable) fuel lock body w = (Raise e, w'))
  /\ aexit (RC := backend reachable) lock w = (Ret lock, w).
Proof.
  cbv zeta. split; [|split; [|split; [|split; [|split]]]].
  - intros Hfree. by rewrite (aenter_free _ EL (backend_off_incr reachable)).
  - intros start_time Hheld Hin. split.
    + by apply spin_retry; [apply backend_off_incr| |].
    + unfold slept. destruct (suspended _ _). by eexists.
  - intros start_time Hheld Hout. by apply spin_busy; [apply backend_off_incr| |].
  - intros A body Hfree.
    by apply (async_with_releases _ EL (backend_off_incr reachable)).
  - intros A body e w' H. by apply async_with_busy.
  - reflexivity.
Qed.

(** A heartbeat for an agent whose lock stays held, on an event loop where
    only the clock moves: 502 attempts 10 ms apart, then 503 once more than
    5 seconds have passed; the holder's key is still there. *)
Example lock_timeout_503 :
  let (r, w) := heartbeat (RC := backend false) (EL := quiet) 1000
                  (mkRequest "Agent_007" 0.05%float false) contended in
  r = Raise (HTTPException 503 "Service Busy: Could not acquire lock")
  /\ length (List.filter (fun e => match e with Sleep _ => true | _ => false end)
               (trace w)) = 501%nat
  /\ PrimFloat.ltb 5%float (now w) = true
  /\ PrimFloat.ltb (now w) 5.02%float = true
  /\ releases "Agent_007" (trace w) = 0%nat
  /\ redis w !! "lock:Agent_007" = Some (Lit "locked")
  /\ redis w !! key_balance "Agent_007" = Some (Repr 100%float).
Proof. vm_compute. repeat split. Qed.

(** ** C3: heartbeats interleaved on the event loop *)

Section Interleaving.
Context (id : string) (c B S0 : float) (N : nat).
Let request := mkRequest id c false.
Let Hoff := MockRedis_off_incr.

Hypothesis enough : covers N c B = true.

Lemma covers_each n : forall b j,
  covers n c b = true -> (j < n)%nat -> PrimFloat.ltb (deduct_n j c b) c = false.
Proof.
  induction n as [|n IH]; intros b j H Hj; [lia|].
  cbn [covers] in H. apply andb_prop in H as [H1 H2].
  destruct j as [|j]; [cbn; by destruct (PrimFloat.ltb b c)|].
  unfold deduct_n. rewrite Nat.iter_succ_r. apply (IH _ j H2). lia.
Qed.

Lemma total_insert (f : point -> nat) (ps : list point) i p p' :
  ps !! i = Some p ->
  (total f (<[i := p']> ps) + f p = total f ps + f p')%nat.
Proof.
  unfold total. revert i. induction ps as [|a ps IH]; intros [|i] H; try discriminate.
  - injection H as ->. simpl. lia.
  - simpl in *. specialize (IH i H). lia.
Qed.

Lemma total_same (f : point -> nat) (ps : list point) i p p' :
  ps !! i = Some p -> f p' = f p -> total f (<[i := p']> ps) = total f ps.
Proof. intros H E. pose proof (total_insert f ps i p p' H). lia. Qed.

Lemma total_member (f : point -> nat) (ps : list point) i p :
  ps !! i = Some p -> (f p <= total f ps)%nat.
Proof.
  unfold total. revert i. induction ps as [|a ps IH]; intros [|i] H; try discriminate.
  - injection H as ->. simpl. lia.
  - simpl in *. specialize (IH i H). lia.
Qed.

(** Two coroutines of a pool count separately. *)
Lemma total_two (f : point -> nat) (ps : list point) i j p q :
  f Start = 0%nat ->
  i <> j -> ps !! i = Some p -> ps !! j = Some q -> (f p + f q <= total f ps)%nat.
Proof.
  intros Hf Hij Hi Hj.
  pose proof (total_insert f ps i p Start Hi) as H1.
  assert (Hj' : <[i := Start]> ps !! j = Some q) by (by rewrite list_lookup_insert_ne).
  pose proof (total_member f _ _ _ Hj'). lia.
Qed.

(** A coroutine that has not deducted leaves the count below the number of
    coroutines. *)
Lemma total_below (ps : list point) i p :
  ps !! i = Some p -> deducted p = 0%nat -> (total deducted ps < length ps)%nat.
Proof.
  intros Hi Hp.
  assert (G : forall l, (total deducted l <= length l)%nat).
  { unfold total. induction l as [|q l IH]; [done|]. simpl.
    assert (deducted q <= 1)%nat by (destruct q as [| | | | | | | | | | |[]|[]]; cbn; lia).
    lia. }
  pose proof (total_insert deducted ps i p (Credit PyNone) Hi) as H.
  specialize (G (<[i := Credit PyNone]> ps)). rewrite length_insert in G.
  cbn [deducted] in H. lia.
Qed.

(** A step of the coroutine that holds the lock leaves the others, which
    carry no balance, as expected whatever the balance has become. *)
Lemma expected_holder (ps : list point) i p p' b b' :
  (total holding ps <= 1)%nat ->
  ps !! i = Some p -> holding p = 1%nat ->
  Forall (expected b) ps -> expected b' p' ->
  Forall (expected b') (<[i := p']> ps).
Proof.
  intros Hone Hi Hp Hexp Hp'. apply Forall_lookup. intros j q Hj.
  destruct (decide (i = j)) as [<-|Hij].
  - rewrite list_lookup_insert_eq in Hj by (by eapply lookup_lt_Some).
    by injection Hj as <-.
  - rewrite list_lookup_insert_ne in Hj by done.
    pose proof (total_two holding ps i j p q eq_refl Hij Hi Hj).
    pose proof (proj1 (Forall_lookup _ _) Hexp j q Hj) as Hq.
    destruct q; cbn [holding] in *; try lia; exact Hq.
Qed.

Lemma taken_insert (ps : list point) i p p' :
  ps !! i = Some p ->
  (timed_out p' <= timed_out p \/ 1 <= total holding ps)%nat ->
  (holding p + deducted p <= holding p' + deducted p'
   \/ 1 <= holding p' + deducted p')%nat ->
  lock_was_taken ps -> lock_was_taken (<[i := p']> ps).
Proof.
  unfold lock_was_taken. intros Hi H1 H2 H.
  pose proof (total_insert holding ps i p p' Hi).
  pose proof (total_insert deducted ps i p p' Hi).
  pose proof (total_insert timed_out ps i p p' Hi).
  pose proof (total_member holding ps i p Hi).
  pose proof (total_member deducted ps i p Hi).
  pose proof (total_member timed_out ps i p Hi).
  lia.
Qed.

Lemma expected_insert (ps : list point) i p' b :
  Forall (expected b) ps -> expected b p' -> Forall (expected b) (<[i := p']> ps).
Proof. intros. by apply Forall_insert. Qed.

Ltac fits :=
  first
    [ apply expected_insert; [assumption|cbn; eauto]
    | eapply taken_insert;
      [eassumption
      |first [left; cbn; lia|right; lia]
      |first [left; cbn; lia|right; cbn; lia]
      |assumption] ].

Ltac counts Hi :=
  repeat match goal with
    | |- context [total ?f (<[_ := ?p']> _)] =>
        rewrite (total_same f _ _ _ p' Hi) by reflexivity
    end.

Lemma resume_preserves i t P p :
  ledger_invariant id c B S0 N P ->
  tasks P !! i = Some p ->
  ledger_invariant id c B S0 N (resume_in false request i t P).
Proof.
  intros (Hone & Hlock & Hb & Hs & Hk & Hlen & Hexp & Htaken) Hi.
  unfold resume_in. rewrite Hi.
  pose proof (proj1 (Forall_lookup _ _) Hexp i p Hi) as Hp.
  pose proof (total_member holding _ _ _ Hi) as Hh.
  change (backend false) with MockRedis_client.
  destruct p as [|st|st| | |b|detail| | | |nb|r|r]; cbn [resume request agent_id cost is_zombie].
  - (* Start *)
    cbn [store tasks]. unfold ledger_invariant. cbn [store tasks]. counts Hi.
    rewrite length_insert. repeat split; try done; fits.
  - (* TrySetnx *)
    destruct (total holding (tasks P)) as [|n] eqn:En.
    + cbn [Nat.eqb] in Hlock. rewrite (call_setnx_free _ Hoff) by done.
      cbn [entering truthy str]. unfold ledger_invariant. cbn [store tasks].
      pose proof (total_insert holding _ i _ Expire Hi) as Ht.
      pose proof (total_same deducted _ i _ Expire Hi eq_refl) as Hd.
      pose proof (total_same credited _ i _ Expire Hi eq_refl) as Hc.
      cbn [holding] in Ht. rewrite Hd, Hc.
      replace (total holding (<[i:=Expire]> (tasks P))) with 1%nat by lia.
      unfold killed_of in *. rewrite lookup_insert_eq.
      rewrite !lookup_insert_ne by auto with keys.
      rewrite length_insert. repeat split; try done; fits.
    + cbn [Nat.eqb] in Hlock. rewrite (call_setnx_held _ Hoff) by (by rewrite Hlock).
      cbn [entering truthy].
      destruct (PrimFloat.ltb _ _); unfold ledger_invariant; cbn [store tasks];
        counts Hi; rewrite En, length_insert; (repeat split; try done; fits).
  - (* Sleep10 *)
    unfold ledger_invariant. cbn [store tasks]. counts Hi.
    rewrite length_insert. repeat split; try done; fits.
  - (* Expire *)
    rewrite (call_expire _ Hoff). cbn [entering].
    unfold ledger_invariant. cbn [store tasks]. counts Hi.
    rewrite length_insert. repeat split; try done; fits.
  - (* GetBalance *)
    rewrite (call_get _ Hoff), Hb. cbn [inside from_option py_float].
    unfold ledger_invariant. cbn [store tasks]. counts Hi.
    rewrite length_insert. repeat split; try done; fits.
  - (* GetKilled *)
    rewrite (call_get _ Hoff). unfold killed_of in Hk. cbn [inside]. rewrite Hk.
    cbn [expected] in Hp. subst b.
    rewrite (covers_each N B (total deducted (tasks P)) enough)
      by (rewrite <- Hlen; eapply total_below; [exact Hi|done]).
    unfold ledger_invariant; cbn [store tasks]; counts Hi.
    rewrite length_insert. repeat split; try done; fits.
  - (* IncrBreaches *) destruct Hp.
  - (* IncrZombies *) destruct Hp.
  - (* SetKilled *) destruct Hp.
  - (* Deduct *)
    rewrite (call_incrbyfloat _ Hoff _ _ _ _ Hb). cbn [inside].
    unfold ledger_invariant. cbn [store tasks].
    set (nb := PyFloat _).
    pose proof (total_insert deducted _ i _ (Credit nb) Hi) as Hd.
    rewrite (total_same holding _ _ _ (Credit nb) Hi) by done.
    rewrite (total_same credited _ _ _ (Credit nb) Hi) by done.
    cbn [deducted] in Hd.
    replace (total deducted (<[i:=Credit nb]> (tasks P)))
      with (S (total deducted (tasks P))) by lia.
    unfold killed_of in *. rewrite lookup_insert_eq.
    rewrite !lookup_insert_ne by auto with keys. rewrite FloatOrder.add_opp.
    rewrite length_insert. repeat split; try done; [|fits].
    apply (expected_holder _ _ Deduct _ _ _ Hone Hi eq_refl Hexp). cbn. eauto.
  - (* Credit *)
    destruct Hp as [f ->].
    rewrite (call_incrbyfloat _ Hoff _ _ _ _ Hs). cbn [inside py_float].
    unfold ledger_invariant. cbn [store tasks].
    set (q := Release _).
    pose proof (total_insert credited _ i _ q Hi) as Hc.
    rewrite (total_same holding _ _ _ q Hi) by done.
    rewrite (total_same deducted _ _ _ q Hi) by done.
    pose proof (eq_refl : credited q = 1%nat) as Hq. cbn [credited] in Hc.
    replace (total credited (<[i:=q]> (tasks P)))
      with (S (total credited (tasks P))) by lia.
    unfold killed_of in *. rewrite lookup_insert_eq.
    rewrite !lookup_insert_ne by (auto with keys || (apply not_eq_sym; auto with keys)).
    rewrite length_insert. repeat split; try done; fits.
  - (* Release *)
    destruct Hp as [remaining ->]. set (r := Ret _).
    rewrite (call_delete _ Hoff). cbn [entering].
    unfold ledger_invariant. cbn [store tasks].
    pose proof (total_insert holding _ i _ (Finished r) Hi) as Ht.
    cbn [holding] in Ht, Hh.
    rewrite (total_same deducted _ _ _ (Finished r) Hi) by done.
    rewrite (total_same credited _ _ _ (Finished r) Hi) by done.
    replace (total holding (<[i:=Finished r]> (tasks P))) with 0%nat by lia.
    unfold killed_of in *. rewrite lookup_delete_eq.
    rewrite !lookup_delete_ne by auto with keys.
    rewrite length_insert. repeat split; try done; try lia; fits.
  - (* Finished *)
    unfold ledger_invariant. cbn [store tasks]. rewrite list_insert_id by done.
    done.
Qed.

Lemma initially (d : gmap string text) :
  d !! ("lock:" +:+ id) = None ->
  d !! key_balance id = Some (Repr B) ->
  d !! key_spent id = Some (Repr S0) ->
  killed_of d id = false ->
  ledger_invariant id c B S0 N (mkPool d (repeat Start N)).
Proof.
  intros Hl Hb Hs Hk. unfold ledger_invariant. cbn [store tasks].
  assert (H0 : forall f, f Start = 0%nat -> total f (repeat Start N) = 0%nat).
  { intros f Hf. unfold total. clear enough. induction N as [|n IH]; [done|].
    simpl. rewrite Hf. exact IH. }
  unfold lock_was_taken. rewrite !H0 by done. cbn. rewrite repeat_length.
  repeat split; try done; try lia.
  apply Forall_forall. intros p Hp. apply list_elem_of_In, repeat_spec in Hp. by subst.
Qed.

Lemma schedules_invariant P Q :
  ledger_invariant id c B S0 N P ->
  schedules false request P Q ->
  ledger_invariant id c B S0 N Q.
Proof.
  intros HP H. revert HP. induction H as [P|P Q i t p _ IH Hi _]; intros HP; [done|].
  eapply resume_preserves; eauto.
Qed.

(** When every coroutine has finished as expected, none holds the lock,
    those that deducted are those that answered ok, and each either answered
    ok or timed out. *)
Lemma finished_totals b (ps : list point) :
  Forall (expected b) ps ->
  forallb is_finished ps = true ->
  total holding ps = 0%nat
  /\ total deducted ps = total answered_ok ps
  /\ total credited ps = total answered_ok ps
  /\ (total answered_ok ps + total timed_out ps = length ps)%nat.
Proof.
  unfold total. induction ps as [|p ps IH]; [done|].
  cbn [forallb map list_sum length]. intros Hexp H.
  inversion Hexp as [|? ? Hp Hps']; subst.
  apply andb_prop in H as [Hfin Hps].
  destruct (IH Hps' Hps) as (H1 & H2 & H3 & H4).
  destruct p; try discriminate.
  destruct Hp as [[remaining ->]| ->]; repeat split; simpl; lia.
Qed.
End Interleaving.

Lemma follow_schedules reachable request schedule : forall P Q,
  schedules reachable request P Q ->
  well_scheduled reachable request schedule Q = true ->
  schedules reachable request P (follow reachable request schedule Q).
Proof.
  induction schedule as [|[i t] rest IH]; intros P Q HPQ Hw; [done|].
  cbn [well_scheduled follow] in *.
  destruct (tasks Q !! i) as [p|] eqn:Hi; [|discriminate].
  apply andb_prop in Hw as [Hp Hrest]. apply IH; [|done].
  eapply schedules_step; eauto. by destruct (is_finished p).
Qed.




(** A heartbeat that waits more than 5 seconds for the lock is answered 503
    and deducts nothing: of three heartbeats two are served. *)
Example one_times_out :
  let request := mkRequest "Agent_007" 0.05%float false in
  let schedule :=
    ([(0%nat, 0%float); (0%nat, 0%float); (1%nat, 0%float); (1%nat, 6%float)]
       ++ repeat (0%nat, 6%float) 6 ++ repeat (2%nat, 6%float) 8)%list in
  let Q := follow false request schedule three_heartbeats in
  well_scheduled false request schedule three_heartbeats = true
  /\ tasks Q
     = [Finished (Ret {| status := "ok"; remaining_balance := 99.95%float |});
        Finished (Raise (HTTPException 503 "Service Busy: Could not acquire lock"));
        Finished (Ret {| status := "ok"; remaining_balance := 99.900000000000006%float |})]
  /\ store Q !! key_balance "Agent_007" = Some (Repr 99.900000000000006%float)
  /\ store Q !! key_spent "Agent_007" = Some (Repr 0.1%float).
Proof. vm_compute. repeat split. Qed.

(** *** The coroutine alone is the sequential [heartbeat] *)

Section Alone.
Context {St : Type} (RC : RedisClient St) (EL : EventLoop St) (request : HeartbeatRequest).
Let held := mkLock ("lock:" +:+ agent_id request) 5 true.

Lemma alone_finished n r s t :
  alone request n (Finished r) s t = (Finished r, (s, t)).
Proof. by destruct n. Qed.

Lemma leaving_unfold (r : outcome HeartbeatResponse) (w : World St) :
  returned (leaving held (r, w))
  = let (p, s) := entering (call (DELETE ("lock:" +:+ agent_id request)) (redis w))
                    (fun _ => Finished r) in
    (p, (s, now w)).
Proof.
  unfold returned, leaving, aexit, held. cbn [is_locked resource timeout]. io.
  by destruct (call _ _) as [[| |] ?].
Qed.

Lemma release_alone n r (w : World St) :
  alone request (S n) (Release r) (redis w) (now w) = returned (leaving held (r, w)).
Proof.
  rewrite leaving_unfold. cbn [alone resume].
  destruct (call _ _) as [[| |] ?]; cbn [entering fst snd]; apply alone_finished.
Qed.

(** One awaited call inside the critical section. *)
Lemma await_inside n p c (k : pyval -> point) (rest : pyval -> IO St HeartbeatResponse)
  (w : World St) :
  (forall s, resume request (now w) p s = inside (call c s) k) ->
  (forall st, p <> Sleep10 st) ->
  (forall v w', now w' = now w ->
     alone request (S n) (k v) (redis w') (now w') = returned (leaving held (rest v w'))) ->
  alone request (S (S n)) p (redis w) (now w)
  = returned (leaving held ((v ← await c; rest v) w)).
Proof.
  intros Hp Hs Hk.
  assert (E : alone request (S (S n)) p (redis w) (now w)
              = let (p', s') := resume request (now w) p (redis w) in
                alone request (S n) p' s' (now w)).
  { destruct p as [|st|st| | |b|detail| | | |nb|r|r]; try reflexivity;
      by destruct (Hs st). }
  rewrite E, Hp. io.
  destruct (call c (redis w)) as [[v|e|] s'] eqn:Ec; cbn [inside].
  - apply (Hk v (mkWorld s' (now w) (Cmd c :: trace w)) eq_refl).
  - apply (release_alone n (Raise e) (mkWorld s' (now w) (Cmd c :: trace w))).
  - apply (release_alone n Spinning (mkWorld s' (now w) (Cmd c :: trace w))).
Qed.

Lemma alone_more n m p s t r x :
  alone request n p s t = (Finished r, x) ->
  alone request (n + m) p s t = (Finished r, x).
Proof.
  revert p s t. induction n as [|n IH]; intros p s t H.
  - cbn in H. injection H as -> <-. apply alone_finished.
  - cbn [Nat.add alone] in *.
    destruct p as [|st|st| | |b|detail| | | |nb|r'|r']; try done;
      try (destruct (resume _ _ _ _) as [p' s']; by apply IH).
    destruct (suspended _ _) as [s' t']. by apply IH.
Qed.

Ltac fin := first [reflexivity | apply alone_finished].

Ltac inside_step n w :=
  eapply (await_inside n); [intros ?; reflexivity|discriminate|].

Lemma credit_alone n nb (w : World St) :
  alone request (2 + n) (Credit nb) (redis w) (now w)
  = returned (leaving held (rest_of request (Credit nb) w)).
Proof.
  cbn [rest_of Nat.add]. inside_step n w. intros v w' _; cbv beta. io.
  destruct (py_float nb); apply release_alone.
Qed.

Lemma deduct_alone n (w : World St) :
  alone request (3 + n) Deduct (redis w) (now w)
  = returned (leaving held (rest_of request Deduct w)).
Proof.
  cbn [rest_of Nat.add]. inside_step (S n) w. intros nb w' _; cbv beta.
  apply (credit_alone n nb w').
Qed.

Lemma breach_alone n detail (w : World St) :
  alone request (2 + n) (IncrBreaches detail) (redis w) (now w)
  = returned (leaving held (rest_of request (IncrBreaches detail) w)).
Proof.
  cbn [rest_of Nat.add]. inside_step n w. intros v w' _; cbv beta. apply release_alone.
Qed.

Lemma set_killed_alone n (w : World St) :
  alone request (2 + n) SetKilled (redis w) (now w)
  = returned (leaving held (rest_of request SetKilled w)).
Proof.
  cbn [rest_of Nat.add]. inside_step n w. intros v w' _; cbv beta. apply release_alone.
Qed.

Lemma zombies_alone n (w : World St) :
  alone request (3 + n) IncrZombies (redis w) (now w)
  = returned (leaving held (rest_of request IncrZombies w)).
Proof.
  cbn [rest_of Nat.add]. inside_step (S n) w. intros v w' _; cbv beta.
  apply (set_killed_alone n w').
Qed.

Lemma get_killed_alone n b (w : World St) :
  alone request (4 + n) (GetKilled b) (redis w) (now w)
  = returned (leaving held (rest_of request (GetKilled b) w)).
Proof.
  cbn [rest_of Nat.add]. inside_step (S (S n)) w. intros killed w' _; cbv beta.
  destruct (is_true_text killed); [apply (breach_alone (S n))|].
  destruct (is_zombie request); [apply (zombies_alone n)|].
  destruct (PrimFloat.ltb b (cost request));
    [apply (breach_alone (S n))|apply (deduct_alone n)].
Qed.

Lemma get_balance_alone n (w : World St) :
  alone request (5 + n) GetBalance (redis w) (now w)
  = returned (leaving held (heartbeat_body request w)).
Proof.
  unfold heartbeat_body. cbn [Nat.add]. inside_step (S (S (S n))) w.
  intros balance w' _; cbv beta.
  destruct balance as [|bb|nn|ff|tt]; try apply release_alone;
    try (cbn [py_float lift]; io; apply (get_killed_alone n)).
  destruct tt; cbn [py_float lift]; io;
    try apply (get_killed_alone n); apply release_alone.
Qed.

(** The busy-wait, then the critical section. *)
Lemma aenter_loop_alone fuel : forall n start_time (w : World St),
  let X := match aenter_loop fuel (DistributedLock_init (agent_id request))
                   start_time w with
           | (Ret _, w1) => leaving held (heartbeat_body request w1)
           | (Raise e, w1) => (Raise e, w1)
           | (Spinning, w1) => (Spinning, w1)
           end in
  fst X <> Spinning ->
  alone request (2 * fuel + 7 + n) (TrySetnx start_time) (redis w) (now w)
  = returned X.
Proof.
  induction fuel as [|fuel IH]; intros n start_time w X HX.
  - by destruct HX.
  - subst X. revert HX.
    cbn [aenter_loop DistributedLock_init resource timeout]. io.
    replace (2 * S fuel + 7 + n)%nat with (S (S (2 * fuel + 7 + n))) by lia.
    cbn [alone resume agent_id].
    destruct (call (SETNX _ _) (redis w)) as [[got|e|] s1]; cbn [entering];
      [|intros _; fin|intros HX; by destruct HX].
    destruct (truthy got).
    + io. cbn [alone resume].
      destruct (call (EXPIRE _ _) s1) as [[v|e|] s2]; cbn [entering];
        [|intros _; fin|intros HX; by destruct HX].
      intros _.
      replace (2 * fuel + 7 + n)%nat with (5 + (2 * fuel + 2 + n))%nat by lia.
      apply (get_balance_alone (2 * fuel + 2 + n)
               (mkWorld s2 (now w) (Cmd (EXPIRE ("lock:" +:+ agent_id request) 5)
                  :: Cmd (SETNX ("lock:" +:+ agent_id request) (PyStr (Lit "locked")))
                  :: trace w))).
    + io. destruct (PrimFloat.ltb _ _); [intros _; fin|].
      cbn [alone]. destruct (suspended _ _) as [s' t'] eqn:Es.
      intros HX.
      apply (IH n start_time
               (mkWorld s' t'
                  (Sleep 0.01%float
                     :: Cmd (SETNX ("lock:" +:+ agent_id request) (PyStr (Lit "locked")))
                     :: trace w)) HX).
Qed.

Lemma aenter_loop_held fuel : forall start_time (w w1 : World St) lk,
  aenter_loop fuel (DistributedLock_init (agent_id request)) start_time w = (Ret lk, w1) ->
  lk = held.
Proof.
  induction fuel as [|fuel IH]; intros start_time w w1 lk; [discriminate|].
  cbn [aenter_loop DistributedLock_init resource timeout]. io.
  destruct (call (SETNX _ _) (redis w)) as [[got|e|] s1]; try discriminate.
  destruct (truthy got).
  - io. destruct (call (EXPIRE _ _) s1) as [[v|e|] s2]; try discriminate.
    by intros [= <- _].
  - io. destruct (PrimFloat.ltb _ _); [discriminate|].
    destruct (suspended _ _) as [s' t']. apply IH.
Qed.

(** A [heartbeat] that did not run out of fuel is the coroutine run alone
    from [Start]: same reply, same store, same clock. *)
Lemma heartbeat_alone fuel (w : World St) :
  fst (heartbeat fuel request w) <> Spinning ->
  alone request (2 * fuel + 8) Start (redis w) (now w)
  = returned (heartbeat fuel request w).
Proof.
  unfold heartbeat, async_with, aenter. io. intros HX.
  replace (2 * fuel + 8)%nat with (S (2 * fuel + 7 + 0)) by lia.
  cbn [alone resume].
  assert (E : match aenter_loop fuel (DistributedLock_init (agent_id request)) (now w) w with
              | (Ret lk, w1) =>
                  let (r, w2) := heartbeat_body request w1 in
                  match aexit lk w2 with
                  | (Ret _, w3) => (r, w3)
                  | (Raise e, w3) => (Raise e, w3)
                  | (Spinning, w3) => (Spinning, w3)
                  end
              | (Raise e, w1) => (Raise e, w1)
              | (Spinning, w1) => (Spinning, w1)
              end
              = match aenter_loop fuel (DistributedLock_init (agent_id request)) (now w) w with
                | (Ret _, w1) => leaving held (heartbeat_body request w1)
                | (Raise e, w1) => (Raise e, w1)
                | (Spinning, w1) => (Spinning, w1)
                end).
  { destruct (aenter_loop _ _ _ _) as [[lk| |] w1] eqn:El; try reflexivity.
    by rewrite (aenter_loop_held _ _ _ _ _ El). }
  rewrite E in *. by apply aenter_loop_alone.
Qed.
End Alone.

(* ===================================================================== *)
(** * Further properties of the code *)
(* ===================================================================== *)

(** ** The keys of different agents *)

Module Agents.
Lemma append_length (s t : string) :
  String.length (s +:+ t) = (String.length s + String.length t)%nat.
Proof.
  induction s as [|a s IH]; [reflexivity|].
  change (String a s +:+ t) with (String a (s +:+ t)). cbn. by rewrite IH.
Qed.

Lemma append_inj_l (s s' t : string) : s +:+ t = s' +:+ t -> s = s'.
Proof.
  revert s'. induction s as [|a s IH]; intros [|a' s'] H.
  - reflexivity.
  - apply (f_equal String.length) in H. rewrite !append_length in H. cbn in H. lia.
  - apply (f_equal String.length) in H. rewrite !append_length in H. cbn in H. lia.
  - change (String a (s +:+ t) = String a' (s' +:+ t)) in H.
    injection H as -> H. f_equal. by apply IH.
Qed.

Lemma lock_inj id id' : "lock:" +:+ id = "lock:" +:+ id' -> id = id'.
Proof. intros H. by injection H. Qed.

Lemma balance_inj id id' : key_balance id = key_balance id' -> id = id'.
Proof.
  unfold key_balance. intros H. injection H as H.
  change (id +:+ ":balance" = id' +:+ ":balance") in H. by apply append_inj_l in H.
Qed.

Lemma spent_inj id id' : key_spent id = key_spent id' -> id = id'.
Proof.
  unfold key_spent. intros H. injection H as H.
  change (id +:+ ":spent" = id' +:+ ":spent") in H. by apply append_inj_l in H.
Qed.

Lemma killed_inj id id' : key_killed id = key_killed id' -> id = id'.
Proof.
  unfold key_killed. intros H. injection H as H.
  change (id +:+ ":killed" = id' +:+ ":killed") in H. by apply append_inj_l in H.
Qed.

(** The keys of two different agents are all different. *)
Lemma agents_apart id id' key key' :
  id <> id' -> In key (agent_keys id) -> In key' (agent_keys id') -> key <> key'.
Proof.
  intros Hne Hk Hk' E. unfold agent_keys in *. cbn [In] in *.
  destruct Hk as [<-|[<-|[<-|[<-|[]]]]], Hk' as [<-|[<-|[<-|[<-|[]]]]];
    first [ by apply Hne, lock_inj | by apply Hne, balance_inj
          | by apply Hne, spent_inj | by apply Hne, killed_inj
          | by eapply Keys.lock_balance | by eapply Keys.lock_spent
          | by eapply Keys.lock_killed | by eapply Keys.balance_spent
          | by eapply Keys.balance_killed | by eapply Keys.spent_killed
          | symmetry in E;
            first [ by eapply Keys.lock_balance | by eapply Keys.lock_spent
                  | by eapply Keys.lock_killed | by eapply Keys.balance_spent
                  | by eapply Keys.balance_killed | by eapply Keys.spent_killed ] ].
Qed.
End Agents.

(** ** The client over a series of calls *)

Module Client.
Import Sdk.
Local Open Scope list_scope.

Lemma evict_length thr window : (length (evict thr window) <= length window)%nat.
Proof.
  induction window as [|t rest IH]; [done|]. cbn.
  destruct (PrimFloat.ltb t thr); cbn; lia.
Qed.

(** One attempt leaves at most five timestamps in the window, or no more
    than there were. *)
Lemma admission_window t0 t1 self :
  (length (request_timestamps (snd (admission t0 t1 self)))
   <= Nat.max 5 (length (request_timestamps self)))%nat.
Proof.
  unfold admission, MAX_LOCAL_RPS.
  pose proof (evict_length (PrimFloat.sub t1 1%float) (request_timestamps self)).
  destruct (PrimFloat.ltb t0 _); [cbn; lia|].
  destruct (local_kill_switch self); [cbn; lia|].
  cbv zeta. case_bool_decide; cbn [snd request_timestamps]; [lia|].
  rewrite length_app. cbn [length]. lia.
Qed.

Lemma create_fields t0 t1 prompt self :
  let self' := snd (create t0 t1 prompt self) in
  request_timestamps self' = request_timestamps (snd (admission t0 t1 self))
  /\ local_kill_switch self' = local_kill_switch self
  /\ consecutive_failures self' = consecutive_failures self
  /\ circuit_tripped_until self' = circuit_tripped_until self
  /\ agent_id self' = agent_id self.
Proof.
  unfold create, admission.
  destruct (PrimFloat.ltb t0 _); [done|].
  destruct (local_kill_switch self) eqn:E; [done|].
  cbv zeta. case_bool_decide; done.
Qed.

Lemma send_fields r t self :
  let self' := _send_heartbeat r t self in
  request_timestamps self' = request_timestamps self
  /\ response_history self' = response_history self
  /\ agent_id self' = agent_id self.
Proof. by destruct r. Qed.

Lemma send_keeps_kill r t self :
  local_kill_switch self = true -> local_kill_switch (_send_heartbeat r t self) = true.
Proof. intros H. destruct r; cbn; [by case_bool_decide|done|done]. Qed.

Lemma refused_when_killed t0 t1 prompt self :
  local_kill_switch self = true ->
  exists e, create t0 t1 prompt self = (Raise e, self).
Proof.
  intros H. unfold create, admission. destruct (PrimFloat.ltb t0 _); [by eexists|].
  rewrite H. by eexists.
Qed.

Lemma after_events_snoc es e self :
  after_events (es ++ [e]) self = after_event e (after_events es self).
Proof. unfold after_events. by rewrite fold_left_app. Qed.

Lemma last_n_short {A} n (l : list A) : (length l <= n)%nat -> last_n n l = l.
Proof. intros H. unfold last_n. by replace (length l - n)%nat with 0%nat by lia. Qed.

Lemma last_n_length {A} n (l : list A) : (length (last_n n l) <= n)%nat.
Proof. unfold last_n. rewrite length_skipn. lia. Qed.

Lemma last_n_app {A} n (l r : list A) :
  last_n n (last_n n l ++ r) = last_n n (l ++ r).
Proof.
  unfold last_n. rewrite !length_app, length_skipn.
  destruct (decide (length l <= n)%nat) as [H|H].
  - replace (length l - n)%nat with 0%nat by lia. cbn [skipn]. f_equal. lia.
  - replace (length l - (length l - n) + length r - n)%nat with (length r)%nat by lia.
    replace (length l + length r - n)%nat with ((length l - n) + length r)%nat by lia.
    rewrite !skipn_app. rewrite length_skipn.
    replace (length r - (length l - (length l - n)))%nat with (length r - n)%nat by lia.
    replace (length l - n + length r - length l)%nat with (length r - n)%nat by lia.
    f_equal. rewrite skipn_skipn. f_equal. lia.
Qed.

(** What one call of [create] does to the history: nothing when it is
    refused, the length of the response appended when it returns. *)
Lemma create_history t0 t1 prompt self :
  match create t0 t1 prompt self with
  | (Ret (text, task), self') =>
      text = _mock_llm_call prompt
      /\ task = mkRequest (agent_id self) 0.05%float (_check_zombie_status self)
      /\ response_history self'
         = response_history (_update_zombie_history text self)
  | (_, self') => response_history self' = response_history self
  end.
Proof.
  unfold create, admission.
  destruct (PrimFloat.ltb t0 _); [done|].
  destruct (local_kill_switch self); [done|].
  cbv zeta. case_bool_decide; done.
Qed.
End Client.

(** X1: the rate limiter's window.  Whatever calls of [create] are made and
    whatever heartbeat tasks end, in any order and at any clock readings, the
    window of request timestamps never holds more than five entries (or
    than it held to begin with, if that was more). *)
Theorem window_never_exceeds_five (events : list client_event) (self : Sdk.AiyodhaClient) :
  (length (Sdk.request_timestamps (after_events events self))
   <= Nat.max 5 (length (Sdk.request_timestamps self)))%nat.
Proof.
  induction events as [|e events IH] using rev_ind; [cbn; lia|].
  rewrite Client.after_events_snoc. destruct e as [t0 t1 prompt|r t]; cbn [after_event].
  - destruct (Client.create_fields t0 t1 prompt (after_events events self)) as (-> & _).
    pose proof (Client.admission_window t0 t1 (after_events events self)). lia.
  - by destruct (Client.send_fields r t (after_events events self)) as (-> & _).
Qed.

(** X2: the local kill switch is final.  Once it is set, no call of [create]
    and no end of a heartbeat task, whatever the engine answered, clears it:
    every later [create] raises and leaves the client as it was. *)
Theorem local_kill_is_final (events : list client_event) (self : Sdk.AiyodhaClient) :
  Sdk.local_kill_switch self = true ->
  Sdk.local_kill_switch (after_events events self) = true
  /\ forall t0 t1 prompt,
       exists e, Sdk.create t0 t1 prompt (after_events events self)
                 = (Raise e, after_events events self).
Proof.
  intros H.
  assert (Hk : Sdk.local_kill_switch (after_events events self) = true).
  { induction events as [|e events IH] using rev_ind; [done|].
    rewrite Client.after_events_snoc. destruct e as [t0 t1 prompt|r t]; cbn [after_event].
    - by destruct (Client.create_fields t0 t1 prompt (after_events events self))
        as (_ & -> & _).
    - by apply Client.send_keeps_kill. }
  split; [done|]. intros t0 t1 prompt. by apply Client.refused_when_killed.
Qed.

Lemma local_kill_is_final_witness :
  let self := Sdk._send_heartbeat (Sdk.Response 402) 0%float (Sdk.init "Agent_007") in
  let events := [Posted (Sdk.Response 200) 1%float; Create 2%float 2%float "hello";
                 Posted Sdk.RequestError 3%float] in
  Sdk.local_kill_switch (after_events events self) = true
  /\ forall t0 t1 prompt,
       exists e, Sdk.create t0 t1 prompt (after_events events self)
                 = (Raise e, after_events events self).
Proof.
  exact (local_kill_is_final
           [Posted (Sdk.Response 200) 1%float; Create 2%float 2%float "hello";
            Posted Sdk.RequestError 3%float]
           (Sdk._send_heartbeat (Sdk.Response 402) 0%float (Sdk.init "Agent_007"))
           eq_refl).
Defined.

(** X3: what counts as consecutive.  Only an answer with status 200 or 402
    resets the failure count: over any series of events without one, the
    count grows by the number of transport errors, whatever other answers
    (404, 500, 503), swallowed exceptions and calls of [create] lie between
    them. *)
Theorem failures_outlive_other_answers
  (events : list client_event) (self : Sdk.AiyodhaClient) :
  Forall (fun e => resets e = false) events ->
  Sdk.consecutive_failures (after_events events self)
  = Sdk.consecutive_failures self
    + Z.of_nat (length (List.filter is_transport_error events)).
Proof.
  induction events as [|e events IH] using rev_ind; intros Hall; [cbn; lia|].
  apply Forall_app in Hall as [Hall He]. inversion He as [|? ? Hr _]; subst.
  rewrite Client.after_events_snoc, List.filter_app, length_app.
  specialize (IH Hall).
  destruct e as [t0 t1 prompt|[code| |] t]; cbn [after_event].
  - destruct (Client.create_fields t0 t1 prompt (after_events events self))
      as (_ & _ & -> & _). cbn. lia.
  - cbn in Hr. cbn. rewrite Hr. cbn. lia.
  - cbn. lia.
  - cbn. lia.
Qed.

Lemma failures_outlive_other_answers_witness :
  Sdk.consecutive_failures
    (after_events [Posted Sdk.RequestError 1%float; Posted (Sdk.Response 503) 2%float;
                   Posted Sdk.RequestError 3%float; Posted Sdk.OtherException 4%float;
                   Create 5%float 5%float "hello"; Posted Sdk.RequestError 6%float]
       (Sdk.init "Agent_007"))
  = Sdk.consecutive_failures (Sdk.init "Agent_007") + Z.of_nat 3.
Proof.
  apply (failures_outlive_other_answers
           [Posted Sdk.RequestError 1%float; Posted (Sdk.Response 503) 2%float;
            Posted Sdk.RequestError 3%float; Posted Sdk.OtherException 4%float;
            Create 5%float 5%float "hello"; Posted Sdk.RequestError 6%float]
           (Sdk.init "Agent_007")).
  repeat constructor.
Defined.

Module Burst.
Import Sdk.
Local Open Scope list_scope.

(** A window whose entries are none older than a second loses nothing. *)
Lemma evict_none thr window :
  Forall (fun t => PrimFloat.ltb t thr = false) window -> evict thr window = window.
Proof. destruct 1 as [|t rest H _]; [reflexivity|]. cbn. by rewrite H. Qed.

Lemma same_second_tail recent t later :
  same_second (recent ++ t :: later) -> same_second ((recent ++ [t]) ++ later).
Proof. by rewrite <- app_assoc. Qed.

Lemma same_second_drop recent t later :
  same_second (recent ++ t :: later) -> same_second (recent ++ later).
Proof.
  unfold same_second. induction recent as [|a rest IH]; cbn [app]; intros H.
  - by inversion H.
  - inversion H as [|? ? Ha Hrest]; subst. constructor; [|by apply IH].
    rewrite List.Forall_forall in *. intros x Hx. apply Ha.
    apply in_app_or in Hx as [Hx|Hx]; apply in_or_app; [by left|right; by right].
Qed.

Lemma attempts_burst clock : forall self recent,
  request_timestamps self = recent ->
  local_kill_switch self = false ->
  Forall (fun '(t0, _) => PrimFloat.ltb t0 (circuit_tripped_until self) = false) clock ->
  same_second (recent ++ map snd clock) ->
  fst (attempts clock self)
  = repeat (Ret tt) (Nat.min (length clock) (5 - length recent))
    ++ repeat (Raise (BudgetExceededError "Local Rate Limit Exceeded (5 RPS)"))
         (length clock - (5 - length recent)).
Proof.
  induction clock as [|[t0 t1] rest IH]; intros self recent Hw Hk Hc Hs; [reflexivity|].
  inversion Hc as [|? ? H0 Hrest]; subst. cbn [attempts map snd length] in *.
  rewrite Admission.checks_window by done. cbv zeta.
  rewrite (evict_none _ _ (Admission.same_second_split _ _ _ Hs)).
  case_bool_decide as Hfull.
  - specialize (IH (with_window (request_timestamps self) self) (request_timestamps self)
                  eq_refl Hk Hrest (same_second_drop _ _ _ Hs)).
    destruct (attempts rest _) as [rs self']. cbn [fst] in *. rewrite IH.
    replace (5 - length (request_timestamps self))%nat with 0%nat by lia.
    rewrite !Nat.min_0_r, !Nat.sub_0_r. reflexivity.
  - specialize (IH (with_window (request_timestamps self ++ [t1]) self)
                  (request_timestamps self ++ [t1]) eq_refl Hk Hrest
                  (same_second_tail _ _ _ Hs)).
    destruct (attempts rest _) as [rs self']. cbn [fst] in *. rewrite IH.
    rewrite length_app. cbn [length].
    destruct (5 - length (request_timestamps self))%nat as [|k] eqn:E; [lia|].
    replace (5 - (length (request_timestamps self) + 1))%nat with k by lia.
    reflexivity.
Qed.
End Burst.

(** X4: a burst.  Of any number of admission attempts that fall within one
    second of each other on a client with an empty window, a closed circuit
    and no kill switch, the first five are admitted and every further one is
    refused with the rate-limit error. *)
Theorem burst_admits_five (clock : list (float * float)) (self : Sdk.AiyodhaClient) :
  Sdk.request_timestamps self = [] ->
  Sdk.local_kill_switch self = false ->
  Forall (fun '(t0, _) => PrimFloat.ltb t0 (Sdk.circuit_tripped_until self) = false)
    clock ->
  same_second (map snd clock) ->
  fst (attempts clock self)
  = (repeat (Ret tt) (Nat.min (length clock) 5)
     ++ repeat (Raise (BudgetExceededError "Local Rate Limit Exceeded (5 RPS)"))
          (length clock - 5))%list.
Proof.
  intros Hw Hk Hc Hs.
  rewrite (Burst.attempts_burst clock self [] Hw Hk Hc Hs). reflexivity.
Qed.

Lemma burst_admits_five_witness :
  let clock := map (fun t => (t, t))
                 [7; 7; 7.1; 7.2; 7.25; 7.5; 7.5; 7.75; 8; 8]%float in
  fst (attempts clock (Sdk.init "Agent_007"))
  = (repeat (Ret tt) 5
     ++ repeat (Raise (BudgetExceededError "Local Rate Limit Exceeded (5 RPS)")) 5)%list.
Proof.
  apply (burst_admits_five
           (map (fun t => (t, t)) [7; 7; 7.1; 7.2; 7.25; 7.5; 7.5; 7.75; 8; 8]%float)
           (Sdk.init "Agent_007") eq_refl eq_refl).
  - repeat constructor.
  - unfold same_second. repeat constructor.
Defined.

Module History.
Import Sdk.
Local Open Scope list_scope.

Lemma creates_history calls : forall self,
  (length (response_history self) <= 10)%nat ->
  response_history (snd (creates calls self))
  = last_n 10 (response_history self
               ++ map (fun text => Z.of_nat (String.length text))
                    (returned_texts (fst (creates calls self)))).
Proof.
  induction calls as [|[[t0 t1] prompt] rest IH]; intros self Hlen.
  - cbn. rewrite app_nil_r. by rewrite Client.last_n_short.
  - cbn [creates]. pose proof (Client.create_history t0 t1 prompt self) as H.
    destruct (create t0 t1 prompt self) as [r self1].
    specialize (IH self1).
    destruct (creates rest self1) as [rs self2]. cbn [fst snd] in *.
    unfold returned_texts in *. cbn [omap].
    destruct r as [[text task]|e|].
    + destruct H as (_ & _ & H). rewrite H in IH.
      rewrite Zombie.history_window in IH by done.
      rewrite IH by apply Client.last_n_length.
      rewrite Client.last_n_app. cbn [map]. by rewrite <- app_assoc.
    + rewrite H in IH. by apply IH.
    + rewrite H in IH. by apply IH.
Qed.

(** The zombie flags of a series of calls on a client whose history holds
    [k] times the length [x]. *)
Lemma check_uniform self x k :
  (x <= 4096)%nat -> (k <= 10)%nat ->
  response_history self = repeat (Z.of_nat x) k ->
  _check_zombie_status self = bool_decide (5 <= k)%nat.
Proof.
  intros Hx Hk Hh. case_bool_decide as H5.
  - by apply (Zombie.uniform_flagged_spec 4096 Zombie.uniform_4096 self x k).
  - apply Zombie.too_few. rewrite Hh, repeat_length. lia.
Qed.

Lemma update_uniform text self k :
  (k <= 10)%nat ->
  response_history self = repeat (Z.of_nat (String.length text)) k ->
  response_history (_update_zombie_history text self)
  = repeat (Z.of_nat (String.length text)) (Nat.min (S k) 10).
Proof.
  intros Hk Hh. rewrite Zombie.history_window by (rewrite Hh, repeat_length; lia).
  rewrite Hh. unfold last_n. rewrite length_app, repeat_length. cbn [length].
  change [Z.of_nat (String.length text)] with (repeat (Z.of_nat (String.length text)) 1).
  rewrite <- repeat_app.
  destruct (decide (k = 10%nat)) as [->|Hne].
  - reflexivity.
  - replace (k + 1 - 10)%nat with 0%nat by lia. rewrite skipn_O. f_equal. lia.
Qed.

Lemma creates_uniform calls : forall self x k,
  (x <= 4096)%nat -> (k <= 10)%nat ->
  Forall (fun '(_, _, prompt) => String.length (_mock_llm_call prompt) = x) calls ->
  response_history self = repeat (Z.of_nat x) k ->
  forall j flag,
    zombie_flags (fst (creates calls self)) !! j = Some flag ->
    flag = bool_decide (5 <= k + j)%nat.
Proof.
  induction calls as [|[[t0 t1] prompt] rest IH]; intros self x k Hx Hk Hall Hh j flag.
  - cbn. by rewrite lookup_nil.
  - inversion Hall as [|? ? Hp Hrest]; subst. cbn [creates].
    pose proof (Client.create_history t0 t1 prompt self) as H.
    destruct (create t0 t1 prompt self) as [r self1].
    specialize (IH self1 (String.length (_mock_llm_call prompt))).
    destruct (creates rest self1) as [rs self2]. cbn [fst snd] in *.
    unfold zombie_flags in *. cbn [omap].
    destruct r as [[text task]|e|].
    + destruct H as (-> & -> & H).
      rewrite (update_uniform _ _ k Hk Hh) in H.
      destruct j as [|j]; cbn [lookup list_lookup].
      * intros [= <-]. cbn [is_zombie]. rewrite (check_uniform self _ k Hx Hk Hh).
        by rewrite Nat.add_0_r.
      * intros Hj. rewrite (IH (Nat.min (S k) 10) Hx ltac:(lia) Hrest H j flag Hj).
        apply bool_decide_ext. lia.
    + rewrite Hh in H. by apply (IH k Hx Hk Hrest H).
    + rewrite Hh in H. by apply (IH k Hx Hk Hrest H).
Qed.
End History.

(** X5: the response history.  After any series of calls of [create], the
    history holds the lengths of the last ten responses returned (with what
    it held before, while fewer than ten were returned); a call that is
    refused adds nothing. *)
Theorem history_is_last_ten_responses
  (calls : list (float * float * string)) (self : Sdk.AiyodhaClient) :
  (length (Sdk.response_history self) <= 10)%nat ->
  Sdk.response_history (snd (creates calls self))
  = last_n 10 (Sdk.response_history self
               ++ map (fun text => Z.of_nat (String.length text))
                    (returned_texts (fst (creates calls self))))%list.
Proof. apply History.creates_history. Qed.

Lemma history_is_last_ten_responses_witness :
  let calls := [(1, 1, "a"); (2, 2, "bc"); (3, 3, "def")]%float in
  Sdk.response_history (snd (creates calls (Sdk.init "Agent_007")))
  = last_n 10 (Sdk.response_history (Sdk.init "Agent_007")
               ++ map (fun text => Z.of_nat (String.length text))
                    (returned_texts (fst (creates calls (Sdk.init "Agent_007")))))%list.
Proof.
  apply (history_is_last_ten_responses
           [(1, 1, "a"); (2, 2, "bc"); (3, 3, "def")]%float (Sdk.init "Agent_007")).
  cbn. lia.
Defined.

(** X6: the zombie flag lags.  [create] computes the flag from the history
    before the call, and the history of a new client is empty: the
    heartbeats of its first five admitted calls never carry the flag,
    whatever the prompts and the responses. *)
Theorem first_five_calls_never_flagged
  (calls : list (float * float * string)) (id : string) (j : nat) (flag : bool) :
  zombie_flags (fst (creates calls (Sdk.init id))) !! j = Some flag ->
  (j < 5)%nat -> flag = false.
Proof.
  assert (G : forall calls self j flag,
             zombie_flags (fst (creates calls self)) !! j = Some flag ->
             (length (Sdk.response_history self) + j < 5)%nat -> flag = false).
  { clear. induction calls as [|[[t0 t1] prompt] rest IH]; intros self j flag.
    - cbn. by rewrite lookup_nil.
    - cbn [creates]. pose proof (Client.create_history t0 t1 prompt self) as H.
      destruct (Sdk.create t0 t1 prompt self) as [r self1].
      specialize (IH self1).
      destruct (creates rest self1) as [rs self2]. cbn [fst snd] in *.
      unfold zombie_flags in *. cbn [omap].
      destruct r as [[text task]|e|].
      + destruct H as (_ & -> & H).
        destruct j as [|j]; cbn [lookup list_lookup].
        * intros [= <-] Hlen. cbn [is_zombie]. apply Zombie.too_few. lia.
        * intros Hj Hlen. apply (IH j flag Hj). rewrite H.
          unfold Sdk._update_zombie_history. cbn [Sdk.response_history].
          rewrite bool_decide_eq_false_2 by (rewrite length_app; cbn; lia).
          rewrite length_app. cbn [length]. lia.
      + intros Hj Hlen. apply (IH j flag Hj). by rewrite H.
      + intros Hj Hlen. apply (IH j flag Hj). by rewrite H. }
  intros Hj Hlt. apply (G calls (Sdk.init id) j flag Hj). cbn. lia.
Qed.

Lemma first_five_calls_never_flagged_witness :
  zombie_flags (fst (creates [(1, 1, "same"); (2, 2, "same"); (3, 3, "same")]%float
                       (Sdk.init "Agent_Zombie"))) !! 2%nat = Some false
  /\ false = false.
Proof.
  split; [reflexivity|].
  apply (first_five_calls_never_flagged
           [(1, 1, "same"); (2, 2, "same"); (3, 3, "same")]%float "Agent_Zombie" 2 false);
    [reflexivity|lia].
Defined.

Module Overlap.
Import Sdk.
Local Open Scope list_scope.

(** Nothing intervening, the two stretches make up [create]. *)
Lemma create_in_two t0 t1 prompt self :
  create t0 t1 prompt self =
  match create_until_await t0 t1 self with
  | (Ret task, self1) =>
      let (response_text, self2) := create_after_await prompt self1 in
      (Ret (response_text, task), self2)
  | (Raise e, self1) => (Raise e, self1)
  | (Spinning, self1) => (Spinning, self1)
  end.
Proof.
  unfold create, create_until_await, create_after_await.
  by destruct (admission t0 t1 self) as [[[]| |] self1].
Qed.

Lemma until_await_history t0 t1 self :
  response_history (snd (create_until_await t0 t1 self)) = response_history self
  /\ forall task, fst (create_until_await t0 t1 self) = Ret task ->
                  is_zombie task = _check_zombie_status self.
Proof.
  unfold create_until_await, admission.
  destruct (PrimFloat.ltb t0 _); [done|].
  destruct (local_kill_switch self); [done|].
  cbv zeta. case_bool_decide; [done|]. split; [done|]. by intros task [= <-].
Qed.

Lemma ended_app os os' : ended (os ++ os') = (ended os + ended os')%nat.
Proof. unfold ended. by rewrite List.filter_app, length_app. Qed.

(** On a client whose history holds [k] times the length [x], with every
    prompt in flight and to come of one length: a call that passes the local
    checks is flagged exactly when [k] and the calls returned before it make
    up five. *)
Lemma flagged_by_returns steps : forall L n k before task after,
  (n <= 4085)%nat -> (k <= 10)%nat ->
  Forall (fun s => match s with
                   | Call _ _ prompt => String.length prompt = n
                   | _ => True
                   end) steps ->
  Forall (fun prompt => String.length prompt = n) (waiting L) ->
  response_history (client L) = repeat (Z.of_nat (11 + n)) k ->
  fst (run_loop steps L) = before ++ Began (Ret task) :: after ->
  is_zombie task = bool_decide (5 <= k + ended before)%nat.
Proof.
  induction steps as [|s rest IH]; intros L n k before task after Hn Hk Hall Hw Hh.
  - cbn. by destruct before.
  - inversion Hall as [|? ? Hs Hrest]; subst. cbn [run_loop].
    destruct (loop_step_run s L) as [o L1] eqn:E1.
    destruct (run_loop rest L1) as [os L2] eqn:E2. cbn [fst].
    assert (Hos : os = fst (run_loop rest L1)) by (by rewrite E2).
    destruct s as [t0 t1 prompt|i|r t]; cbn [loop_step_run] in E1.
    + pose proof (until_await_history t0 t1 (client L)) as [H1 H2].
      destruct (create_until_await t0 t1 (client L)) as [r self1]. cbn [fst snd] in *.
      assert (Hw1 : Forall (fun prompt => String.length prompt = n) (waiting L1)).
      { destruct r; cbn in E1; inversion E1; cbn [waiting]; [|done..].
        apply Forall_app. split; [done|by constructor]. }
      assert (Hh1 : response_history (client L1) = repeat (Z.of_nat (11 + n)) k).
      { destruct r; cbn in E1; inversion E1; cbn [client]; by rewrite H1. }
      destruct before as [|o' before]; cbn [app].
      * intros [= -> ->]. cbn [ended List.filter length]. rewrite Nat.add_0_r.
        destruct r as [task'| |]; cbn in E1; inversion E1. subst task'.
        rewrite (H2 task eq_refl).
        by apply (History.check_uniform _ (11 + n) k); [lia| |].
      * intros [= -> ->].
        rewrite (IH L1 n k before task after Hn Hk Hrest Hw1 Hh1 (eq_sym Hos)).
        apply bool_decide_ext. unfold ended. cbn [List.filter].
        by destruct r; cbn in E1; inversion E1.
    + destruct (waiting L !! i) as [prompt|] eqn:Ei.
      * unfold create_after_await in E1. injection E1 as <- <-.
        assert (Hp : String.length prompt = n).
        { rewrite Forall_forall in Hw. apply Hw. by eapply list_elem_of_lookup_2. }
        assert (Hx : String.length (_mock_llm_call prompt) = (11 + n)%nat).
        { unfold _mock_llm_call. by rewrite Agents.append_length, Hp. }
        destruct before as [|o' before]; cbn [app]; [done|].
        intros [= <- ->].
        set (L1 := mkFlight (_update_zombie_history (_mock_llm_call prompt) (client L))
                     (base.delete i (waiting L))) in *.
        assert (Hw1 : Forall (fun prompt => String.length prompt = n) (waiting L1)).
        { cbn [waiting L1]. rewrite Forall_forall in Hw. apply Forall_forall.
          intros p Hin. apply Hw. apply list_elem_of_lookup in Hin as [j Hj].
          destruct (decide (j < i)%nat).
          - rewrite list_lookup_delete_lt in Hj by done. by eapply list_elem_of_lookup_2.
          - rewrite list_lookup_delete_ge in Hj by lia. by eapply list_elem_of_lookup_2. }
        assert (Hh1 : response_history (client L1)
                      = repeat (Z.of_nat (11 + n)) (Nat.min (S k) 10)).
        { cbn [client L1]. rewrite <- Hx.
          apply (History.update_uniform _ _ k); [done|by rewrite Hx]. }
        rewrite (IH L1 n (Nat.min (S k) 10) before task after Hn ltac:(lia) Hrest Hw1 Hh1
                   (eq_sym Hos)).
        apply bool_decide_ext. unfold ended. cbn [List.filter length]. lia.
      * injection E1 as <- <-.
        destruct before as [|o' before]; cbn [app]; [done|].
        intros [= <- ->].
        rewrite (IH L n k before task after Hn Hk Hrest Hw Hh (eq_sym Hos)).
        apply bool_decide_ext. unfold ended. cbn [List.filter]. done.
    + injection E1 as <- <-.
      destruct before as [|o' before]; cbn [app]; [done|].
      intros [= <- ->].
      assert (Hh1 : response_history (_send_heartbeat r t (client L))
                    = repeat (Z.of_nat (11 + n)) k)
        by (by rewrite (proj1 (proj2 (Client.send_fields r t (client L))))).
      rewrite (IH (mkFlight (_send_heartbeat r t (client L)) (waiting L))
                 n k before task after Hn Hk Hrest Hw Hh1 (eq_sym Hos)).
      apply bool_decide_ext. unfold ended. cbn [List.filter]. done.
Qed.

Lemma run_loop_app steps steps' L :
  run_loop (steps ++ steps') L
  = (fst (run_loop steps L) ++ fst (run_loop steps' (snd (run_loop steps L))),
     snd (run_loop steps' (snd (run_loop steps L)))).
Proof.
  revert L. induction steps as [|s rest IH]; intros L; cbn [app run_loop].
  - cbn. by destruct (run_loop steps' L).
  - destruct (loop_step_run s L) as [o L1]. rewrite IH.
    by destruct (run_loop rest L1) as [os L2].
Qed.

(** A call that runs to its return before anything else happens is a call
    of [create]. *)
Lemma call_then_wake t0 t1 prompt self :
  run_loop [Call t0 t1 prompt; Wake 0] (mkFlight self [])
  = match create t0 t1 prompt self with
    | (Ret (response_text, task), self') =>
        ([Began (Ret task); Ended response_text], mkFlight self' [])
    | (Raise e, self') => ([Began (Raise e); Skipped], mkFlight self' [])
    | (Spinning, self') => ([Began Spinning; Skipped], mkFlight self' [])
    end.
Proof.
  rewrite create_in_two. cbn [run_loop loop_step_run client waiting].
  by destruct (create_until_await t0 t1 self) as [[task| |] self1].
Qed.

(** Calls made one after the other are the calls of [creates]. *)
Lemma in_turn_creates calls : forall self,
  began_flags (fst (run_loop (in_turn calls) (mkFlight self [])))
  = zombie_flags (fst (creates calls self))
  /\ snd (run_loop (in_turn calls) (mkFlight self []))
     = mkFlight (snd (creates calls self)) [].
Proof.
  induction calls as [|[[t0 t1] prompt] rest IH]; intros self; [done|].
  change (in_turn ((t0, t1, prompt) :: rest))
    with ([Call t0 t1 prompt; Wake 0] ++ in_turn rest).
  rewrite run_loop_app, call_then_wake. cbn [creates].
  destruct (create t0 t1 prompt self) as [[[response_text task]|e|] self1];
    cbn [fst snd]; destruct (IH self1) as [IH1 IH2]; rewrite IH2;
    (split; [|by destruct (creates rest self1)]);
    unfold began_flags in *; rewrite omap_app, IH1;
    by destruct (creates rest self1).
Qed.
End Overlap.

(** X7: responses of one length.  When the prompts of a new client all have
    the same length (up to 4085 characters, so that the responses have up to
    4096), a call of [create] that passes the local checks carries the zombie
    flag exactly when at least five calls had returned before it was made,
    however the calls overlap; of calls made one after the other, the sixth
    admitted one is the first to carry it. *)
Theorem same_length_flagged_after_five_returns
  (steps : list loop_step) (id : string) (n : nat) :
  (n <= 4085)%nat ->
  Forall (fun s => match s with
                   | Call _ _ prompt => String.length prompt = n
                   | _ => True
                   end) steps ->
  (forall before task after,
     fst (run_loop steps (mkFlight (Sdk.init id) []))
     = (before ++ Began (Ret task) :: after)%list ->
     is_zombie task = bool_decide (5 <= ended before)%nat)
  /\ (forall calls j flag,
        steps = in_turn calls ->
        began_flags (fst (run_loop steps (mkFlight (Sdk.init id) []))) !! j = Some flag ->
        flag = bool_decide (5 <= j)%nat).
Proof.
  intros Hn Hall. split.
  - intros before task after H.
    apply (Overlap.flagged_by_returns steps (mkFlight (Sdk.init id) []) n 0%nat
             before task after); [done|lia|done|constructor|reflexivity|done].
  - intros calls j flag -> Hj.
    rewrite (proj1 (Overlap.in_turn_creates calls (Sdk.init id))) in Hj.
    apply (History.creates_uniform calls (Sdk.init id) (11 + n) 0 ltac:(lia) ltac:(lia));
      [|reflexivity|exact Hj].
    clear -Hall. induction calls as [|[[t0 t1] prompt] rest IH]; [constructor|].
    cbn [in_turn flat_map app] in Hall.
    inversion Hall as [|? ? Hp Hrest]. inversion Hrest as [|? ? _ Hrest'].
    constructor; [|by apply IH].
    unfold Sdk._mock_llm_call. by rewrite Agents.append_length, Hp.
Qed.

Lemma same_length_flagged_after_five_returns_witness :
  let observations := fst (run_loop two_batches (mkFlight (Sdk.init "Agent_007") [])) in
  began_flags observations = [false; false; false; false; false; false]
  /\ (forall before task after,
        observations = (before ++ Began (Ret task) :: after)%list ->
        is_zombie task = bool_decide (5 <= ended before)%nat).
Proof.
  split; [vm_compute; reflexivity|].
  apply (same_length_flagged_after_five_returns two_batches "Agent_007" 11);
    [lia|repeat constructor].
Defined.

(** ** The engine on any store *)

Section AnyStore.
Context (reachable : bool).
Let RC : RedisClient (gmap string text) := backend reachable.
Let off := backend_off_incr reachable.

(** What [incr] does on the store chosen at startup: it counts, or it
    raises and changes nothing; on the fallback it raises. *)
Lemma incr_cases key d :
  match call (RedisClient := RC) (INCR key) d with
  | (Ret _, d') => reachable = true /\ exists n, d' = <[key := Dec n]> d
  | (Raise e, d') => d' = d /\ (reachable = false -> e = AttributeError "incr")
  | (Spinning, _) => False
  end.
Proof.
  unfold RC. destruct reachable; cbn.
  - destruct (d !! key) as [[]|]; try (split; [done|by eexists]); by split.
  - by split.
Qed.

Lemma incr_held res k d :
  call (RedisClient := RC) (INCR ("stats:" +:+ k)) (<["lock:" +:+ res := Lit "locked"]> d)
  = let (r, d') := call (RedisClient := RC) (INCR ("stats:" +:+ k)) d in
    (r, <["lock:" +:+ res := Lit "locked"]> d').
Proof.
  unfold RC. destruct reachable; cbn; [|done].
  rewrite lookup_insert_ne by auto with keys.
  destruct (d !! ("stats:" +:+ k)) as [[]|]; try done;
    (rewrite insert_insert_ne; [done|auto with keys]).
Qed.

(** The exit [heartbeat_body] takes on the store [d], and the store it
    leaves. *)
Let exits (request : HeartbeatRequest) (d : gmap string text)
  : outcome HeartbeatResponse * gmap string text :=
  let id := agent_id request in
  let breach (detail : string) : outcome HeartbeatResponse * gmap string text :=
    let (ri, di) := call (RedisClient := RC) (INCR "stats:breaches") d in
    (match ri with
     | Ret _ => Raise (HTTPException 402 detail)
     | Raise e => Raise e
     | Spinning => Spinning
     end, di) in
  match d !! key_balance id with
  | None => (Raise (HTTPException 404 "Agent not found"), d)
  | Some tb =>
      match py_float (PyStr tb) with
      | Raise e => (Raise e, d)
      | Spinning => (Spinning, d)
      | Ret b =>
          if killed_of d id then breach "Payment Required: Agent Killed"
          else if is_zombie request then
            let (ri, di) := call (RedisClient := RC) (INCR "stats:zombies") d in
            match ri with
            | Ret _ => (Raise (HTTPException 402 "Payment Required: Zombie Agent Detected"),
                        <[key_killed id := Lit "true"]> di)
            | Raise e => (Raise e, di)
            | Spinning => (Spinning, di)
            end
          else if PrimFloat.ltb b (cost request) then
            breach "Payment Required: Insufficient Budget"
          else
            let d1 := <[key_balance id := Repr (PrimFloat.sub b (cost request))]> d in
            match MockRedis.current (key_spent id) d with
            | Ret s =>
                (Ret {| status := "ok";
                        remaining_balance := PrimFloat.sub b (cost request) |},
                 <[key_spent id := Repr (PrimFloat.add s (cost request))]> d1)
            | Raise e => (Raise e, d1)
            | Spinning => (Spinning, d1)
            end
      end
  end.

Lemma body_exits request w :
  exists w',
    heartbeat_body (RC := RC) request w = (fst (exits request (redis w)), w')
    /\ redis w' = snd (exits request (redis w)).
Proof.
  unfold heartbeat_body, exits, killed_of. io.
  rewrite (call_get RC off).
  destruct (redis w !! key_balance (agent_id request)) as [tb|] eqn:Hb;
    [|by eexists].
  cbn [from_option]. destruct tb as [s|f|n]; cbn [py_float]; io; [by eexists| |].
  all: rewrite (call_get RC off);
    destruct (is_true_text _); io;
    [ destruct (call (INCR "stats:breaches") (redis w)) as [[| |] di]; io; by eexists |];
    destruct (is_zombie request); io;
    [ destruct (call (INCR "stats:zombies") (redis w)) as [[| |] di]; io;
      rewrite ?(call_set RC off); by eexists |];
    destruct (PrimFloat.ltb _ _); io;
    [ destruct (call (INCR "stats:breaches") (redis w)) as [[| |] di]; io; by eexists |];
    rewrite (off (INCRBYFLOAT _ _));
    unfold MockRedis.getattr, MockRedis.incrbyfloat, MockRedis.current;
    rewrite Hb; cbn [py_float str]; cbv zeta; io; rewrite FloatOrder.add_opp;
    rewrite (off (INCRBYFLOAT _ _));
    unfold MockRedis.getattr, MockRedis.incrbyfloat, MockRedis.current;
    rewrite lookup_insert_ne by auto with keys;
    destruct (py_float _) as [s'| |]; io; by eexists.
Qed.

(** Under the lock the exits are the same, and the lock key stays. *)
Lemma exits_held request d :
  exits request (<["lock:" +:+ agent_id request := Lit "locked"]> d)
  = (fst (exits request d),
     <["lock:" +:+ agent_id request := Lit "locked"]> (snd (exits request d))).
Proof.
  unfold exits, killed_of, MockRedis.current.
  rewrite !lookup_insert_ne by auto with keys.
  destruct (d !! key_balance (agent_id request)) as [tb|]; [|done].
  destruct (py_float (PyStr tb)) as [b| |]; [|done|done].
  pose proof (incr_held (agent_id request) "breaches" d) as Hbr.
  pose proof (incr_held (agent_id request) "zombies" d) as Hzo.
  change ("stats:" +:+ "breaches") with "stats:breaches" in Hbr.
  change ("stats:" +:+ "zombies") with "stats:zombies" in Hzo.
  destruct (is_true_text _).
  { rewrite Hbr. by destruct (call (INCR "stats:breaches") d) as [[| |] di]. }
  destruct (is_zombie request).
  { rewrite Hzo. destruct (call (INCR "stats:zombies") d) as [[| |] di]; try done.
    cbn [fst snd]. f_equal. apply insert_insert_ne. apply not_eq_sym. auto with keys. }
  destruct (PrimFloat.ltb _ _).
  { rewrite Hbr. by destruct (call (INCR "stats:breaches") d) as [[| |] di]. }
  cbv zeta.
  destruct (py_float _) as [s| |]; cbn [fst snd]; f_equal;
    rewrite ?(insert_insert_ne _ (key_spent _)) by (apply not_eq_sym; auto with keys);
    rewrite ?(insert_insert_ne _ (key_balance _)) by (apply not_eq_sym; auto with keys);
    done.
Qed.

(** A coroutine that finds the lock held, alone on the loop: it tries,
    sleeps and tries again, and touches nothing. *)
Lemma spin_locked fuel res : forall start_time w,
  is_Some (redis w !! ("lock:" +:+ res)) ->
  let rw := aenter_loop (RC := RC) (EL := quiet) fuel (DistributedLock_init res)
              start_time w in
  redis (snd rw) = redis w
  /\ (fst rw = Raise (HTTPException 503 "Service Busy: Could not acquire lock")
      \/ fst rw = Spinning)
  /\ exists added,
       trace (snd rw) = (added ++ trace w)%list
       /\ Forall (fun e => e = Sleep 0.01%float
                           \/ e = Cmd (SETNX ("lock:" +:+ res) (PyStr (Lit "locked"))))
            added.
Proof.
  induction fuel as [|fuel IH]; intros start_time w Hheld; cbv zeta.
  - cbn [aenter_loop]. io. split; [done|]. split; [by right|]. by exists [].
  - destruct (PrimFloat.ltb 5%float (PrimFloat.sub (now w) start_time)) eqn:E.
    + rewrite (spin_busy RC quiet off) by done. cbn [fst snd redis trace].
      split; [done|]. split; [by left|]. eexists [_]. split; [done|].
      constructor; [by right|constructor].
    + rewrite (spin_retry RC quiet off) by done.
      destruct (IH start_time (slept (EL := quiet) res w)) as (H1 & H2 & added & H3 & H4).
      { done. }
      split; [by rewrite H1|]. split; [done|].
      exists (added ++ [Sleep 0.01%float;
                        Cmd (SETNX ("lock:" +:+ res) (PyStr (Lit "locked")))])%list.
      split; [by rewrite H3, <- app_assoc|].
      apply Forall_app. split; [done|].
      constructor; [by left|]. constructor; [by right|constructor].
Qed.

Lemma not_entered {A} fuel res (body : IO (gmap string text) A) w :
  is_Some (redis w !! ("lock:" +:+ res)) \/ fuel = 0%nat ->
  let rw := async_with (RC := RC) (EL := quiet) fuel (DistributedLock_init res) body w in
  redis (snd rw) = redis w
  /\ (fst rw = Raise (HTTPException 503 "Service Busy: Could not acquire lock")
      \/ fst rw = Spinning)
  /\ exists added,
       trace (snd rw) = (added ++ trace w)%list
       /\ Forall (fun e => e = Sleep 0.01%float
                           \/ e = Cmd (SETNX ("lock:" +:+ res) (PyStr (Lit "locked"))))
            added.
Proof.
  intros [Hheld| ->]; cbv zeta.
  - unfold async_with, aenter. io.
    pose proof (spin_locked fuel res (now w) w Hheld) as H. cbv zeta in H.
    destruct (aenter_loop _ _ _ _) as [[lk|e|] w1]; cbn [fst snd] in *;
      destruct H as (H1 & H2 & H3).
    + by destruct H2.
    + split; [done|]. split; [|done]. destruct H2 as [[= ->]|[=]]. by left.
    + split; [done|]. split; [by right|done].
  - unfold async_with, aenter. io. cbn [aenter_loop]. io.
    split; [done|]. split; [by right|]. by exists [].
Qed.

(** [heartbeat] when the lock is free: the call takes one of the exits, and
    the lock is free again after. *)
Lemma exits_leave_lock request d :
  snd (exits request d) !! ("lock:" +:+ agent_id request)
  = d !! ("lock:" +:+ agent_id request).
Proof.
  unfold exits, killed_of, MockRedis.current.
  destruct (d !! key_balance (agent_id request)) as [tb|]; [|done].
  destruct (py_float (PyStr tb)) as [b| |]; [|done|done].
  pose proof (incr_cases "stats:breaches" d) as Hbr.
  pose proof (incr_cases "stats:zombies" d) as Hzo.
  destruct (is_true_text _).
  { destruct (call (INCR "stats:breaches") d) as [[| |] di]; cbn [snd];
      [destruct Hbr as (_ & n & ->); by rewrite lookup_insert_ne
      |by destruct Hbr as [-> _]|done]. }
  destruct (is_zombie request).
  { destruct (call (INCR "stats:zombies") d) as [[| |] di]; cbn [snd];
      [destruct Hzo as (_ & n & ->); by rewrite !lookup_insert_ne by auto with keys
      |by destruct Hzo as [-> _]|done]. }
  destruct (PrimFloat.ltb _ _).
  { destruct (call (INCR "stats:breaches") d) as [[| |] di]; cbn [snd];
      [destruct Hbr as (_ & n & ->); by rewrite lookup_insert_ne
      |by destruct Hbr as [-> _]|done]. }
  cbv zeta. destruct (py_float _) as [s| |]; cbn [snd];
    by rewrite !lookup_insert_ne by auto with keys.
Qed.

Lemma heartbeat_entered fuel request w :
  redis w !! ("lock:" +:+ agent_id request) = None ->
  exists w',
    heartbeat (RC := RC) (EL := quiet) (S fuel) request w
    = (fst (exits request (redis w)), w')
    /\ redis w' = snd (exits request (redis w)).
Proof.
  intros Hl. unfold heartbeat.
  rewrite (async_with_free RC quiet off) by done. cbv zeta.
  destruct (body_exits request
              (acquired (agent_id request)
                 (<["lock:" +:+ agent_id request := Lit "locked"]> (redis w)) w))
    as (w' & -> & E).
  cbn [acquired redis fst snd] in *. rewrite E, exits_held. cbn [fst snd].
  eexists. split; [reflexivity|]. cbn [released redis].
  apply delete_insert_id. by rewrite exits_leave_lock.
Qed.

(** [heartbeat] on any store: either the lock was not to be had, and nothing
    changed; or the lock was free, and the call took one of the exits. *)
Lemma heartbeat_rule fuel request w
  (P : outcome HeartbeatResponse -> gmap string text -> Prop) :
  (forall r,
     r = Raise (HTTPException 503 "Service Busy: Could not acquire lock") \/ r = Spinning ->
     P r (redis w)) ->
  (redis w !! ("lock:" +:+ agent_id request) = None ->
   P (fst (exits request (redis w))) (snd (exits request (redis w)))) ->
  P (fst (heartbeat (RC := RC) (EL := quiet) fuel request w))
    (redis (snd (heartbeat (RC := RC) (EL := quiet) fuel request w))).
Proof.
  intros Hout Hin. unfold heartbeat.
  destruct (redis w !! ("lock:" +:+ agent_id request)) as [t|] eqn:Hl.
  { destruct (not_entered fuel (agent_id request) (heartbeat_body (RC := RC) request) w)
      as (H1 & H2 & _); [left; by rewrite Hl|].
    rewrite H1. by apply Hout. }
  destruct fuel as [|fuel].
  { destruct (not_entered 0 (agent_id request) (heartbeat_body (RC := RC) request) w)
      as (H1 & H2 & _); [by right|].
    rewrite H1. by apply Hout. }
  destruct (heartbeat_entered fuel request w Hl) as (w' & E & E').
  unfold heartbeat in E. rewrite E. cbn [fst snd]. rewrite E'. by apply Hin.
Qed.
(** What the exits write: the agent's balance, spent and killed keys and
    the two counters, nothing else. *)
Lemma exits_frame request d key :
  key <> key_balance (agent_id request) -> key <> key_spent (agent_id request) ->
  key <> key_killed (agent_id request) ->
  key <> "stats:breaches" -> key <> "stats:zombies" ->
  snd (exits request d) !! key = d !! key.
Proof.
  intros H1 H2 H3 H4 H5. unfold exits, killed_of, MockRedis.current.
  destruct (d !! key_balance (agent_id request)) as [tb|]; [|done].
  destruct (py_float (PyStr tb)) as [b| |]; [|done|done].
  pose proof (incr_cases "stats:breaches" d) as Hbr.
  pose proof (incr_cases "stats:zombies" d) as Hzo.
  destruct (is_true_text _).
  { destruct (call (INCR "stats:breaches") d) as [[| |] di]; cbn [snd];
      [destruct Hbr as (_ & n & ->); by rewrite lookup_insert_ne
      |by destruct Hbr as [-> _]|done]. }
  destruct (is_zombie request).
  { destruct (call (INCR "stats:zombies") d) as [[| |] di]; cbn [snd];
      [destruct Hzo as (_ & n & ->); by rewrite !lookup_insert_ne
      |by destruct Hzo as [-> _]|done]. }
  destruct (PrimFloat.ltb _ _).
  { destruct (call (INCR "stats:breaches") d) as [[| |] di]; cbn [snd];
      [destruct Hbr as (_ & n & ->); by rewrite lookup_insert_ne
      |by destruct Hbr as [-> _]|done]. }
  cbv zeta. destruct (py_float _) as [s| |]; cbn [snd];
    by rewrite !lookup_insert_ne.
Qed.

(** No exit clears a kill flag, of any agent. *)
Lemma exits_keep_killed request d id :
  killed_of d id = true -> killed_of (snd (exits request d)) id = true.
Proof.
  unfold exits, killed_of, MockRedis.current. intros Hk.
  destruct (d !! key_balance (agent_id request)) as [tb|]; [|done].
  destruct (py_float (PyStr tb)) as [b| |]; [|done|done].
  pose proof (incr_cases "stats:breaches" d) as Hbr.
  pose proof (incr_cases "stats:zombies" d) as Hzo.
  destruct (is_true_text (from_option PyStr PyNone (d !! key_killed (agent_id request)))).
  { destruct (call (INCR "stats:breaches") d) as [[| |] di]; cbn [snd];
      [destruct Hbr as (_ & n & ->);
       rewrite lookup_insert_ne; [done|apply (Keys.stats_killed "breaches")]
      |by destruct Hbr as [-> _]|done]. }
  destruct (is_zombie request).
  { destruct (call (INCR "stats:zombies") d) as [[| |] di]; cbn [snd];
      [destruct Hzo as (_ & n & ->)|by destruct Hzo as [-> _]|done].
    destruct (decide (key_killed (agent_id request) = key_killed id)) as [->|Hne].
    - by rewrite lookup_insert_eq.
    - rewrite lookup_insert_ne by done.
      rewrite lookup_insert_ne; [done|apply (Keys.stats_killed "zombies")]. }
  destruct (PrimFloat.ltb _ _).
  { destruct (call (INCR "stats:breaches") d) as [[| |] di]; cbn [snd];
      [destruct Hbr as (_ & n & ->);
       rewrite lookup_insert_ne; [done|apply (Keys.stats_killed "breaches")]
      |by destruct Hbr as [-> _]|done]. }
  cbv zeta. destruct (py_float _) as [s| |]; cbn [snd];
    by rewrite !lookup_insert_ne by auto with keys.
Qed.

(** On the fallback store no exit answers 402, and none counts. *)
Lemma exits_fallback request d :
  reachable = false ->
  http_status (fst (exits request d)) <> Some 402
  /\ snd (exits request d) !! "stats:breaches" = d !! "stats:breaches"
  /\ snd (exits request d) !! "stats:zombies" = d !! "stats:zombies".
Proof.
  intros Hr. unfold exits, killed_of, MockRedis.current.
  destruct (d !! key_balance (agent_id request)) as [tb|]; [|done].
  destruct (py_float (PyStr tb)) as [b| |] eqn:Eb; [| |done].
  2: { destruct tb; cbn in Eb; by inversion Eb. }
  pose proof (incr_cases "stats:breaches" d) as Hbr.
  pose proof (incr_cases "stats:zombies" d) as Hzo.
  destruct (is_true_text _).
  { destruct (call (INCR "stats:breaches") d) as [[| |] di]; cbn [fst snd];
      [destruct Hbr as [? _]; congruence
      |destruct Hbr as [-> ->]; done|done]. }
  destruct (is_zombie request).
  { destruct (call (INCR "stats:zombies") d) as [[| |] di]; cbn [fst snd];
      [destruct Hzo as [? _]; congruence
      |destruct Hzo as [-> ->]; done|done]. }
  destruct (PrimFloat.ltb _ _).
  { destruct (call (INCR "stats:breaches") d) as [[| |] di]; cbn [fst snd];
      [destruct Hbr as [? _]; congruence
      |destruct Hbr as [-> ->]; done|done]. }
  cbv zeta.
  destruct (d !! key_spent (agent_id request)) as [[s|f|n]|]; cbn [py_float fst snd];
    rewrite ?lookup_insert_ne
      by (apply not_eq_sym;
          first [apply (Keys.stats_balance "breaches") | apply (Keys.stats_spent "breaches")
                |apply (Keys.stats_balance "zombies") | apply (Keys.stats_spent "zombies")]);
    done.
Qed.

(** An exit that does not answer ok has left balance and spent alone,
    unless spent holds a string that is no number. *)
Lemma exits_no_charge request d :
  (forall s, d !! key_spent (agent_id request) <> Some (Lit s)) ->
  (forall response, fst (exits request d) <> Ret response) ->
  snd (exits request d) !! key_balance (agent_id request)
  = d !! key_balance (agent_id request)
  /\ snd (exits request d) !! key_spent (agent_id request)
     = d !! key_spent (agent_id request).
Proof.
  intros Hs. unfold exits, killed_of, MockRedis.current.
  destruct (d !! key_balance (agent_id request)) as [tb|] eqn:Hb; [|done].
  destruct (py_float (PyStr tb)) as [b| |]; [|done|done].
  pose proof (incr_cases "stats:breaches" d) as Hbr.
  pose proof (incr_cases "stats:zombies" d) as Hzo.
  destruct (is_true_text _).
  { destruct (call (INCR "stats:breaches") d) as [[| |] di]; cbn [fst snd];
      [destruct Hbr as (_ & n & ->);
       rewrite !lookup_insert_ne by (first [apply (Keys.stats_balance "breaches")
                                           |apply (Keys.stats_spent "breaches")]); done
      |destruct Hbr as [-> _]; done|done]. }
  destruct (is_zombie request).
  { destruct (call (INCR "stats:zombies") d) as [[| |] di]; cbn [fst snd];
      [destruct Hzo as (_ & n & ->);
       rewrite !lookup_insert_ne
         by (first [apply (Keys.stats_balance "zombies")
                   |apply (Keys.stats_spent "zombies")
                   |apply not_eq_sym; auto with keys]); done
      |destruct Hzo as [-> _]; done|done]. }
  destruct (PrimFloat.ltb _ _).
  { destruct (call (INCR "stats:breaches") d) as [[| |] di]; cbn [fst snd];
      [destruct Hbr as (_ & n & ->);
       rewrite !lookup_insert_ne by (first [apply (Keys.stats_balance "breaches")
                                           |apply (Keys.stats_spent "breaches")]); done
      |destruct Hbr as [-> _]; done|done]. }
  cbv zeta.
  destruct (d !! key_spent (agent_id request)) as [[s|f|n]|] eqn:Hsp; cbn [py_float fst snd].
  - by destruct (Hs s).
  - intros H. by destruct (H _ eq_refl).
  - intros H. by destruct (H _ eq_refl).
  - intros H. by destruct (H _ eq_refl).
Qed.

(** An ok answer reports the balance the store now holds. *)
Lemma exits_ok request d response :
  fst (exits request d) = Ret response ->
  status response = "ok"
  /\ snd (exits request d) !! key_balance (agent_id request)
     = Some (Repr (remaining_balance response)).
Proof.
  unfold exits, killed_of, MockRedis.current.
  destruct (d !! key_balance (agent_id request)) as [tb|] eqn:Hb; [|done].
  destruct (py_float (PyStr tb)) as [b| |]; [|done|done].
  destruct (is_true_text _).
  { by destruct (call (INCR "stats:breaches") d) as [[| |] di]. }
  destruct (is_zombie request).
  { by destruct (call (INCR "stats:zombies") d) as [[| |] di]. }
  destruct (PrimFloat.ltb _ _).
  { by destruct (call (INCR "stats:breaches") d) as [[| |] di]. }
  cbv zeta. destruct (py_float _) as [s| |]; cbn [fst snd]; try done.
  intros [= <-]. cbn [status remaining_balance]. split; [done|].
  rewrite lookup_insert_ne by (apply not_eq_sym; auto with keys).
  by rewrite lookup_insert_eq.
Qed.

(** *** [kill_switch], [get_status] and [get_resilience_stats] on any store *)

Let kill_exits (id : string) (d : gmap string text)
  : outcome (string * string) * gmap string text :=
  if truthy (from_option PyStr PyNone (d !! key_balance id))
  then (Ret ("killed", id), <[key_killed id := Lit "true"]> d)
  else (Raise (HTTPException 404 "Agent not found"), d).

Lemma kill_rule fuel id w
  (P : outcome (string * string) -> gmap string text -> Prop) :
  (forall r,
     r = Raise (HTTPException 503 "Service Busy: Could not acquire lock") \/ r = Spinning ->
     P r (redis w)) ->
  (redis w !! ("lock:" +:+ id) = None ->
   P (fst (kill_exits id (redis w))) (snd (kill_exits id (redis w)))) ->
  P (fst (kill_switch (RC := RC) (EL := quiet) fuel id w))
    (redis (snd (kill_switch (RC := RC) (EL := quiet) fuel id w))).
Proof.
  intros Hout Hin. unfold kill_switch.
  match goal with |- context [async_with _ _ ?b _] => set (body := b) end.
  destruct (redis w !! ("lock:" +:+ id)) as [t|] eqn:Hl.
  { destruct (not_entered fuel id body w) as (H1 & H2 & _); [left; by rewrite Hl|].
    rewrite H1. by apply Hout. }
  destruct fuel as [|fuel].
  { destruct (not_entered 0 id body w) as (H1 & H2 & _); [by right|].
    rewrite H1. by apply Hout. }
  rewrite (async_with_free RC quiet off) by done. cbv zeta. cbn [fst snd released redis].
  specialize (Hin eq_refl). unfold kill_exits in Hin. subst body. io.
  rewrite (call_get RC off). cbn [acquired redis].
  rewrite lookup_insert_ne by auto with keys.
  destruct (truthy _); cbn [negb]; io.
  - rewrite (call_set RC off). cbn [fst snd redis].
    rewrite delete_insert_ne by auto with keys. by rewrite delete_insert_id.
  - cbn [fst snd redis]. by rewrite delete_insert_id.
Qed.

(** What [get_status] answers on the store [d]. *)
Let status_reply (id : string) (d : gmap string text) : outcome (option StatusReport) :=
  match d !! key_balance id with
  | None => Ret None
  | Some tb =>
      match py_float (PyStr tb),
            py_float (from_option PyStr PyNone (d !! key_spent id)) with
      | Ret b, Ret s =>
          Ret (Some {| report_agent_id := id;
                       budget := PrimFloat.add b s;
                       remaining := b;
                       spent := s;
                       killed := killed_of d id |})
      | Ret _, Raise e => Raise e
      | Raise e, _ => Raise e
      | _, _ => Spinning
      end
  end.

Lemma status_reads id w :
  exists added,
    get_status (RC := RC) id w
    = (status_reply id (redis w),
       mkWorld (redis w) (now w) (added ++ trace w)%list)
    /\ Forall (fun e => exists key, e = Cmd (GET key)) added.
Proof.
  unfold get_status, status_reply, killed_of. io. rewrite (call_get RC off).
  destruct (redis w !! key_balance id) as [tb|]; cbn [from_option]; io.
  2: { exists [Cmd (GET (key_balance id))]. split; [done|].
       constructor; [by eexists|constructor]. }
  destruct tb as [s|f|n]; cbn [py_float];
    rewrite (call_get RC off); io; rewrite (call_get RC off); io;
    (exists [Cmd (GET (key_killed id)); Cmd (GET (key_spent id));
             Cmd (GET (key_balance id))];
     split; [|repeat (constructor; [by eexists|]); constructor]);
    try destruct (py_float _); reflexivity.
Qed.

Let resilience_reply (d : gmap string text) : ResilienceStats :=
  match py_int (or_zero (from_option PyStr PyNone (d !! "stats:zombies"))),
        py_int (or_zero (from_option PyStr PyNone (d !! "stats:breaches"))) with
  | Some zombies, Some breaches =>
      {| zombie_agents := zombies; total_breaches := breaches;
         circuit_breaker_trips := 0 |}
  | _, _ => {| zombie_agents := 0; total_breaches := 0; circuit_breaker_trips := 0 |}
  end.

Lemma resilience_reads w :
  fst (get_resilience_stats (RC := RC) w) = Ret (resilience_reply (redis w))
  /\ redis (snd (get_resilience_stats (RC := RC) w)) = redis w.
Proof.
  unfold get_resilience_stats, try_except, resilience_reply. io.
  rewrite !(call_get RC off). io. rewrite ?(call_get RC off). io.
  destruct (py_int (or_zero (from_option PyStr PyNone (redis w !! "stats:zombies"))));
    destruct (py_int (or_zero (from_option PyStr PyNone (redis w !! "stats:breaches"))));
    done.
Qed.

Lemma kill_entered fuel id w :
  redis w !! ("lock:" +:+ id) = None ->
  fst (kill_switch (RC := RC) (EL := quiet) (S fuel) id w) = fst (kill_exits id (redis w))
  /\ redis (snd (kill_switch (RC := RC) (EL := quiet) (S fuel) id w))
     = snd (kill_exits id (redis w)).
Proof.
  intros Hl. unfold kill_switch.
  rewrite (async_with_free RC quiet off) by done. cbv zeta. cbn [fst snd released redis].
  unfold kill_exits. io.
  rewrite (call_get RC off). cbn [acquired redis].
  rewrite lookup_insert_ne by auto with keys.
  destruct (truthy _); cbn [negb]; io.
  - rewrite (call_set RC off). cbn [fst snd redis]. split; [done|].
    rewrite delete_insert_ne by auto with keys. by rewrite delete_insert_id.
  - cbn [fst snd redis]. by rewrite delete_insert_id.
Qed.

(** *** What a request leaves of the store *)

Lemma handle_keeps_killed fuel a w id :
  killed_of (redis w) id = true ->
  killed_of (redis (handle (RC := RC) (EL := quiet) fuel a w)) id = true.
Proof.
  intros Hk. destruct a as [request|id'|id'|]; cbn [handle].
  - apply (heartbeat_rule fuel request w (fun _ d' => killed_of d' id = true)); [done|].
    intros _. by apply exits_keep_killed.
  - apply (kill_rule fuel id' w (fun _ d' => killed_of d' id = true)); [done|].
    intros _. unfold kill_exits. destruct (truthy _); [|done]. cbn [snd].
    unfold killed_of in *.
    destruct (decide (key_killed id' = key_killed id)) as [->|Hne].
    + by rewrite lookup_insert_eq.
    + by rewrite lookup_insert_ne.
  - destruct (status_reads id' w) as (added & -> & _). done.
  - destruct (resilience_reads w) as [_ ->]. done.
Qed.

(** Every lock key is after a request as it was before: the request's own
    lock was free and is free again, or was held and was not touched. *)
Lemma handle_keeps_locks fuel a w res :
  redis (handle (RC := RC) (EL := quiet) fuel a w) !! ("lock:" +:+ res)
  = redis w !! ("lock:" +:+ res).
Proof.
  destruct a as [request|id'|id'|]; cbn [handle].
  - apply (heartbeat_rule fuel request w
             (fun _ d' => d' !! ("lock:" +:+ res) = redis w !! ("lock:" +:+ res)));
      [done|].
    intros _. apply exits_frame; auto with keys.
  - apply (kill_rule fuel id' w
             (fun _ d' => d' !! ("lock:" +:+ res) = redis w !! ("lock:" +:+ res)));
      [done|].
    intros _. unfold kill_exits. destruct (truthy _); [|done]. cbn [snd].
    rewrite lookup_insert_ne; [done|]. apply not_eq_sym. auto with keys.
  - destruct (status_reads id' w) as (added & -> & _). done.
  - destruct (resilience_reads w) as [_ ->]. done.
Qed.

Lemma handle_fallback_counters fuel a w :
  reachable = false ->
  redis (handle (RC := RC) (EL := quiet) fuel a w) !! "stats:breaches"
  = redis w !! "stats:breaches"
  /\ redis (handle (RC := RC) (EL := quiet) fuel a w) !! "stats:zombies"
     = redis w !! "stats:zombies".
Proof.
  intros Hr. destruct a as [request|id'|id'|]; cbn [handle].
  - apply (heartbeat_rule fuel request w
             (fun _ d' => d' !! "stats:breaches" = redis w !! "stats:breaches"
                          /\ d' !! "stats:zombies" = redis w !! "stats:zombies"));
      [done|].
    intros _. by destruct (exits_fallback request (redis w) Hr) as (_ & ? & ?).
  - apply (kill_rule fuel id' w
             (fun _ d' => d' !! "stats:breaches" = redis w !! "stats:breaches"
                          /\ d' !! "stats:zombies" = redis w !! "stats:zombies"));
      [done|].
    intros _. unfold kill_exits. destruct (truthy _); [|done]. cbn [snd].
    rewrite !lookup_insert_ne; [done| |].
    + apply not_eq_sym, (Keys.stats_killed "zombies").
    + apply not_eq_sym, (Keys.stats_killed "breaches").
  - destruct (status_reads id' w) as (added & -> & _). done.
  - destruct (resilience_reads w) as [_ ->]. done.
Qed.

Lemma handle_all_snoc fuel calls a w :
  handle_all (RC := RC) (EL := quiet) fuel (calls ++ [a]) w
  = handle (RC := RC) (EL := quiet) fuel a (handle_all (RC := RC) (EL := quiet) fuel calls w).
Proof. unfold handle_all. by rewrite fold_left_app. Qed.

(** The outcome of [heartbeat] on the fallback store, on any event loop. *)
Lemma entering_outcome (EL : EventLoop (gmap string text)) fuel res :
  forall start_time w,
  match fst (aenter_loop (RC := RC) (EL := EL) fuel (DistributedLock_init res)
               start_time w) with
  | Ret held => held = mkLock ("lock:" +:+ res) 5 true
  | Raise e => e = HTTPException 503 "Service Busy: Could not acquire lock"
  | Spinning => True
  end.
Proof.
  induction fuel as [|fuel IH]; intros start_time w; [done|].
  cbn [aenter_loop DistributedLock_init resource timeout]. io.
  rewrite (off (SETNX _ _)). unfold MockRedis.getattr, MockRedis.setnx.
  destruct (redis w !! ("lock:" +:+ res)); cbn [truthy]; io.
  - destruct (PrimFloat.ltb _ _); [done|]. destruct (suspended _ _) as [s' t'].
    apply IH.
  - by rewrite (call_expire RC off).
Qed.

Lemma fallback_outcome (EL : EventLoop (gmap string text)) fuel request w :
  reachable = false ->
  http_status (fst (heartbeat (RC := RC) (EL := EL) fuel request w)) <> Some 402.
Proof.
  intros Hr. unfold heartbeat, async_with, aenter. io.
  pose proof (entering_outcome EL fuel (agent_id request) (now w) w) as H.
  destruct (aenter_loop _ _ _ _) as [[held|e|] w1]; cbn [fst] in H.
  - subst held. destruct (body_exits request w1) as (w2 & -> & _).
    rewrite aexit_held by exact off. cbn [fst].
    by destruct (exits_fallback request (redis w1) Hr) as [? _].
  - by subst e.
  - done.
Qed.

(** *** Properties of the engine on any store *)

(** X8: what a heartbeat may change.  A heartbeat for an agent, whatever its
    outcome and whatever the store holds, leaves every key as it found it
    but that agent's balance, spent and killed keys and the two counters;
    the records and locks of every other agent are untouched. *)
Theorem heartbeat_touches_only_its_agent
  (fuel : nat) (request : HeartbeatRequest) (w : World (gmap string text)) :
  let w' := snd (heartbeat (RC := backend reachable) (EL := quiet) fuel request w) in
  (forall key,
     key <> key_balance (agent_id request) -> key <> key_spent (agent_id request) ->
     key <> key_killed (agent_id request) ->
     key <> "stats:breaches" -> key <> "stats:zombies" ->
     redis w' !! key = redis w !! key)
  /\ (forall id, id <> agent_id request ->
      Forall (fun key => redis w' !! key = redis w !! key) (agent_keys id)).
Proof.
  cbv zeta.
  assert (G : forall key,
             key <> key_balance (agent_id request) -> key <> key_spent (agent_id request) ->
             key <> key_killed (agent_id request) ->
             key <> "stats:breaches" -> key <> "stats:zombies" ->
             redis (snd (heartbeat (RC := RC) (EL := quiet) fuel request w)) !! key
             = redis w !! key).
  { intros key H1 H2 H3 H4 H5.
    apply (heartbeat_rule fuel request w (fun _ d' => d' !! key = redis w !! key));
      [done|].
    intros _. by apply exits_frame. }
  split; [exact G|]. intros id Hne. apply List.Forall_forall. intros key Hin.
  assert (Hapart : forall key', In key' (agent_keys (agent_id request)) -> key <> key').
  { intros key' Hin'. by apply (Agents.agents_apart id (agent_id request)). }
  apply G.
  - apply Hapart. cbn. tauto.
  - apply Hapart. cbn. tauto.
  - apply Hapart. cbn. tauto.
  - unfold agent_keys in Hin. cbn [In] in Hin.
    destruct Hin as [<-|[<-|[<-|[<-|[]]]]]; [apply (Keys.lock_stats id "breaches")| | |];
      apply not_eq_sym;
      [apply (Keys.stats_balance "breaches")|apply (Keys.stats_spent "breaches")
      |apply (Keys.stats_killed "breaches")].
  - unfold agent_keys in Hin. cbn [In] in Hin.
    destruct Hin as [<-|[<-|[<-|[<-|[]]]]]; [apply (Keys.lock_stats id "zombies")| | |];
      apply not_eq_sym;
      [apply (Keys.stats_balance "zombies")|apply (Keys.stats_spent "zombies")
      |apply (Keys.stats_killed "zombies")].
Qed.

(** X9: the reply and the ledger agree.  Whenever a heartbeat answers, on any
    store, the status is ok, the remaining balance of the reply is the
    balance the store holds after the call, and the agent's lock is free
    again. *)
Theorem ok_reports_the_stored_balance
  (fuel : nat) (request : HeartbeatRequest) (w : World (gmap string text))
  (response : HeartbeatResponse) :
  fst (heartbeat (RC := backend reachable) (EL := quiet) fuel request w) = Ret response ->
  let w' := snd (heartbeat (RC := backend reachable) (EL := quiet) fuel request w) in
  status response = "ok"
  /\ redis w' !! key_balance (agent_id request) = Some (Repr (remaining_balance response))
  /\ redis w' !! ("lock:" +:+ agent_id request) = None.
Proof.
  cbv zeta. intros H. revert response H.
  apply (heartbeat_rule fuel request w
           (fun r d' => forall response, r = Ret response ->
              status response = "ok"
              /\ d' !! key_balance (agent_id request)
                 = Some (Repr (remaining_balance response))
              /\ d' !! ("lock:" +:+ agent_id request) = None)).
  - by intros r [-> | ->].
  - intros Hl response H. destruct (exits_ok request (redis w) response H) as [H1 H2].
    split; [done|]. split; [done|]. by rewrite exits_leave_lock.
Qed.

(** X10: no charge without an ok.  A heartbeat that does not answer ok -
    refused, unknown, timed out on the lock, or failed - leaves the balance
    and the spent of its agent as they were, provided spent does not hold a
    string that is no number. *)
Theorem no_charge_without_ok
  (fuel : nat) (request : HeartbeatRequest) (w : World (gmap string text)) :
  (forall s, redis w !! key_spent (agent_id request) <> Some (Lit s)) ->
  (forall response,
     fst (heartbeat (RC := backend reachable) (EL := quiet) fuel request w)
     <> Ret response) ->
  let w' := snd (heartbeat (RC := backend reachable) (EL := quiet) fuel request w) in
  redis w' !! key_balance (agent_id request) = redis w !! key_balance (agent_id request)
  /\ redis w' !! key_spent (agent_id request) = redis w !! key_spent (agent_id request).
Proof.
  cbv zeta. intros Hs.
  apply (heartbeat_rule fuel request w
           (fun r d' => (forall response, r <> Ret response) ->
              d' !! key_balance (agent_id request)
              = redis w !! key_balance (agent_id request)
              /\ d' !! key_spent (agent_id request)
                 = redis w !! key_spent (agent_id request))).
  - done.
  - intros _. by apply exits_no_charge.
Qed.

(** X11: a deduction without its credit.  When the spent key holds a string
    that is no number, a heartbeat that passes the checks takes the cost off
    the balance, then fails on spent with ValueError (status 500): the
    balance is lower, spent is as it was, and the lock is free again. *)
Theorem deduction_without_credit
  (fuel : nat) (request : HeartbeatRequest) (w : World (gmap string text))
  (b : float) (s : string) :
  redis w !! ("lock:" +:+ agent_id request) = None ->
  redis w !! key_balance (agent_id request) = Some (Repr b) ->
  redis w !! key_spent (agent_id request) = Some (Lit s) ->
  killed_of (redis w) (agent_id request) = false ->
  is_zombie request = false ->
  PrimFloat.ltb b (cost request) = false ->
  let rw := heartbeat (RC := backend reachable) (EL := quiet) (S fuel) request w in
  fst rw = Raise ValueError
  /\ http_status (fst rw) = Some 500
  /\ redis (snd rw) !! key_balance (agent_id request)
     = Some (Repr (PrimFloat.sub b (cost request)))
  /\ redis (snd rw) !! key_spent (agent_id request) = Some (Lit s)
  /\ redis (snd rw) !! ("lock:" +:+ agent_id request) = None.
Proof.
  intros Hl Hb Hs Hk Hz Hlt. cbv zeta.
  destruct (heartbeat_entered fuel request w Hl) as (w' & E & E').
  fold RC. rewrite E. cbn [fst snd]. rewrite E'.
  pose proof (exits_leave_lock request (redis w)) as Hlock. revert Hlock.
  unfold exits, killed_of, MockRedis.current in *.
  rewrite Hb, Hs. cbn [py_float]. rewrite Hk, Hz, Hlt. cbv zeta. cbn [fst snd].
  intros ->. rewrite lookup_insert_eq.
  rewrite lookup_insert_ne by auto with keys. done.
Qed.

(** X12: a held lock shuts the agent out.  While the lock key of an agent is
    held and nothing else runs, a heartbeat or an admin kill for that agent
    changes nothing in the store and sends the store nothing but set-if-absent
    attempts on the lock: it ends with 503, or is still waiting, and it
    never deletes the holder's lock. *)
Theorem held_lock_shuts_out (fuel : nat) (id : string) (w : World (gmap string text)) :
  is_Some (redis w !! ("lock:" +:+ id)) ->
  (forall c z,
     let rw := heartbeat (RC := backend reachable) (EL := quiet) fuel (mkRequest id c z) w in
     redis (snd rw) = redis w
     /\ (fst rw = Raise (HTTPException 503 "Service Busy: Could not acquire lock")
         \/ fst rw = Spinning)
     /\ releases id (trace (snd rw)) = releases id (trace w))
  /\ (let rw := kill_switch (RC := backend reachable) (EL := quiet) fuel id w in
      redis (snd rw) = redis w
      /\ (fst rw = Raise (HTTPException 503 "Service Busy: Could not acquire lock")
          \/ fst rw = Spinning)
      /\ releases id (trace (snd rw)) = releases id (trace w)).
Proof.
  intros Hheld.
  assert (G : forall A (body : IO (gmap string text) A),
    let rw := async_with (RC := RC) (EL := quiet) fuel (DistributedLock_init id) body w in
    redis (snd rw) = redis w
    /\ (fst rw = Raise (HTTPException 503 "Service Busy: Could not acquire lock")
        \/ fst rw = Spinning)
    /\ releases id (trace (snd rw)) = releases id (trace w)).
  { intros A body. cbv zeta.
    destruct (not_entered fuel id body w (or_introl Hheld)) as (H1 & H2 & added & H3 & H4).
    split; [done|]. split; [done|]. rewrite H3. unfold releases.
    rewrite List.filter_app, length_app.
    replace (List.filter (is_release id) added) with (@nil event); [done|].
    clear -H4. induction H4 as [|e l [-> | ->] _ IH]; [done| |]; cbn; exact IH. }
  split.
  - intros c z. apply G.
  - apply G.
Qed.

(** X13: the status after a heartbeat.  After a heartbeat that answered ok,
    [get_status] reports the balance of the reply as remaining, the spent
    raised by the cost, their binary64 sum as the budget, and the agent as
    not killed. *)
Theorem status_after_heartbeat
  (fuel : nat) (request : HeartbeatRequest) (w : World (gmap string text)) (b s : float) :
  redis w !! ("lock:" +:+ agent_id request) = None ->
  redis w !! key_balance (agent_id request) = Some (Repr b) ->
  redis w !! key_spent (agent_id request) = Some (Repr s) ->
  killed_of (redis w) (agent_id request) = false ->
  is_zombie request = false ->
  PrimFloat.ltb b (cost request) = false ->
  let rw := heartbeat (RC := backend reachable) (EL := quiet) (S fuel) request w in
  fst rw = Ret {| status := "ok"; remaining_balance := PrimFloat.sub b (cost request) |}
  /\ fst (get_status (RC := backend reachable) (agent_id request) (snd rw))
     = Ret (Some {| report_agent_id := agent_id request;
                    budget := PrimFloat.add (PrimFloat.sub b (cost request))
                                (PrimFloat.add s (cost request));
                    remaining := PrimFloat.sub b (cost request);
                    spent := PrimFloat.add s (cost request);
                    killed := false |}).
Proof.
  intros Hl Hb Hs Hk Hz Hlt. cbv zeta.
  rewrite (heartbeat_ok reachable quiet fuel request w b s) by done.
  split; [done|]. cbn [snd].
  destruct (status_reads (agent_id request)
              (served request
                 (<[key_spent (agent_id request) := Repr (PrimFloat.add s (cost request))]>
                    (<[key_balance (agent_id request)
                       := Repr (PrimFloat.sub b (cost request))]> (redis w)))
                 [Cmd (INCRBYFLOAT (key_spent (agent_id request)) (cost request));
                  Cmd (INCRBYFLOAT (key_balance (agent_id request))
                         (PrimFloat.opp (cost request)))] w))
    as (added & E & _).
  fold RC. rewrite E. cbn [fst served released redis].
  unfold status_reply, killed_of in *.
  rewrite lookup_insert_eq.
  rewrite (lookup_insert_ne _ (key_spent _) (key_balance _))
    by (apply not_eq_sym; auto with keys).
  rewrite lookup_insert_eq. cbn [py_float from_option].
  rewrite !lookup_insert_ne by (apply not_eq_sym; auto with keys).
  by rewrite Hk.
Qed.

(** X14: the status is read only.  [get_status] sends the store nothing but
    reads and takes no lock, so it answers while the agent's lock is held;
    it leaves the store as it was, and its reply is empty exactly when the
    agent has no balance key. *)
Theorem status_is_read_only (id : string) (w : World (gmap string text)) :
  let rw := get_status (RC := backend reachable) id w in
  redis (snd rw) = redis w
  /\ (exists added,
        trace (snd rw) = (added ++ trace w)%list
        /\ Forall (fun e => exists key, e = Cmd (GET key)) added)
  /\ fst rw <> Spinning
  /\ (fst rw = Ret None <-> redis w !! key_balance id = None).
Proof.
  cbv zeta. destruct (status_reads id w) as (added & E & H). fold RC. rewrite E.
  cbn [fst snd redis trace]. split; [done|]. split; [by exists added|].
  unfold status_reply.
  destruct (redis w !! key_balance id) as [tb|]; [|done].
  destruct tb as [s|f|n]; cbn [py_float];
    destruct (redis w !! key_spent id) as [[s'|f'|n']|]; cbn [py_float from_option];
    (split; [done|split; done]).
Qed.

(** X15: an agent with a balance only.  For an agent that has a balance key
    but no spent key, [get_status] raises TypeError (status 500), while a
    heartbeat is served - it starts spent from 0.0 - after which
    [get_status] answers. *)
Theorem status_needs_a_spent_record
  (fuel : nat) (id : string) (c : float) (w : World (gmap string text)) (b : float) :
  redis w !! ("lock:" +:+ id) = None ->
  redis w !! key_balance id = Some (Repr b) ->
  redis w !! key_spent id = None ->
  killed_of (redis w) id = false ->
  PrimFloat.ltb b c = false ->
  let rw := heartbeat (RC := backend reachable) (EL := quiet) (S fuel)
              (mkRequest id c false) w in
  fst (get_status (RC := backend reachable) id w) = Raise TypeError
  /\ fst rw = Ret {| status := "ok"; remaining_balance := PrimFloat.sub b c |}
  /\ fst (get_status (RC := backend reachable) id (snd rw))
     = Ret (Some {| report_agent_id := id;
                    budget := PrimFloat.add (PrimFloat.sub b c) (PrimFloat.add 0%float c);
                    remaining := PrimFloat.sub b c;
                    spent := PrimFloat.add 0%float c;
                    killed := false |}).
Proof.
  intros Hl Hb Hs Hk Hlt. cbv zeta. split.
  { destruct (status_reads id w) as (added & E & _). fold RC. rewrite E.
    cbn [fst]. unfold status_reply. by rewrite Hb, Hs. }
  destruct (heartbeat_entered fuel (mkRequest id c false) w Hl) as (w' & E & E').
  fold RC. rewrite E. cbn [fst snd].
  destruct (status_reads id w') as (added & E2 & _). rewrite E2. cbn [fst].
  unfold status_reply. rewrite E'.
  unfold exits, killed_of, MockRedis.current in *. cbn [agent_id cost is_zombie].
  rewrite Hb, Hs. cbn [py_float]. rewrite Hk, Hlt. cbv zeta. cbn [fst snd].
  split; [done|].
  rewrite (lookup_insert_ne _ (key_spent _) (key_balance _))
    by (apply not_eq_sym; auto with keys).
  rewrite !lookup_insert_eq. cbn [py_float from_option].
  rewrite !lookup_insert_ne by (apply not_eq_sym; auto with keys).
  by rewrite Hk.
Qed.

(** X16: startup rebinds the store, then seeds.  When Redis does not answer
    the ping, the engine starts on a new, empty MockRedis: whatever ledger the
    process held, the store is then exactly the three seeded keys of
    Agent_007 (100.0, 0.0, not killed), so a kill flag and a spent budget do
    not outlive a restart and a heartbeat is served again.  When Redis
    answers, the seeding leaves a balance that is there, even 0.0, with its
    spent and its kill flag as they are, sets the three keys beside all
    others when the balance key is absent, and a second startup on that store
    changes nothing. *)
Theorem startup_rebinds_then_seeds (w : World (gmap string text)) :
  (let w1 := snd (startup None w) in
   fst (startup None w) = false
   /\ redis w1 = <[key_killed "Agent_007" := Lit "false"]>
                   (<[key_spent "Agent_007" := Repr 0%float]>
                      (<[key_balance "Agent_007" := Repr 100%float]> ∅))
   /\ redis (snd (startup None w1)) = redis w1
   /\ (forall cost, PrimFloat.leb cost 100%float = true ->
       fst (heartbeat (RC := backend false) (EL := quiet) 1
              (mkRequest "Agent_007" cost false) w1)
       = Ret {| status := "ok"; remaining_balance := PrimFloat.sub 100%float cost |}))
  /\ (forall d, let w1 := snd (startup (Some d) w) in
      fst (startup (Some d) w) = true
      /\ (forall t, d !! key_balance "Agent_007" = Some t -> t <> Lit "" ->
          redis w1 = d)
      /\ (d !! key_balance "Agent_007" = None ->
          redis w1 = <[key_killed "Agent_007" := Lit "false"]>
                       (<[key_spent "Agent_007" := Repr 0%float]>
                          (<[key_balance "Agent_007" := Repr 100%float]> d)))
      /\ redis (snd (startup (Some (redis w1)) w1)) = redis w1).
Proof.
  assert (G : forall w0 : World (gmap string text),
    redis (snd (startup_event (RC := backend true) w0))
    = if truthy (from_option PyStr PyNone (redis w0 !! key_balance "Agent_007"))
      then redis w0
      else <[key_killed "Agent_007" := Lit "false"]>
             (<[key_spent "Agent_007" := Repr 0%float]>
                (<[key_balance "Agent_007" := Repr 100%float]> (redis w0)))).
  { intros w0. unfold startup_event, seed. io.
    rewrite (call_get _ (backend_off_incr true)).
    destruct (truthy _); cbn [negb]; io; [done|].
    rewrite !(call_set _ (backend_off_incr true)). io.
    rewrite ?(call_set _ (backend_off_incr true)). io.
    rewrite ?(call_set _ (backend_off_incr true)). done. }
  split.
  - cbv zeta. split; [done|]. split; [by vm_compute|]. split; [by vm_compute|].
    intros cost Hle.
    rewrite (heartbeat_ok false quiet 0 _ _ 100%float 0%float);
      [done|by vm_compute..|].
    by apply FloatOrder.leb_not_ltb.
  - intros d. cbv zeta. unfold startup. cbn [fst snd].
    split; [done|]. split; [|split].
    + intros t Ht Hne. rewrite G. cbn [redis]. rewrite Ht. cbn [from_option truthy].
      destruct t as [s| |]; [|done|done].
      destruct (String.eqb_spec s ""); [by subst|done].
    + intros Hnone. rewrite G. cbn [redis]. by rewrite Hnone.
    + rewrite (G (mkWorld _ _ _)). cbn [redis]. rewrite (G (mkWorld d _ _)). cbn [redis].
      destruct (truthy (from_option PyStr PyNone (d !! key_balance "Agent_007")))
        eqn:E; [by rewrite E|].
      rewrite lookup_insert_ne by (apply not_eq_sym; auto with keys).
      rewrite lookup_insert_ne by (apply not_eq_sym; auto with keys).
      by rewrite lookup_insert_eq.
Qed.

(** X17: no request revives an agent.  Once the kill flag of an agent is set,
    it stays set through every series of heartbeats, admin kills, status and
    statistics requests, for that agent or any other. *)
Theorem no_request_revives_an_agent
  (fuel : nat) (requests : list api) (w : World (gmap string text)) (id : string) :
  killed_of (redis w) id = true ->
  killed_of (redis (handle_all (RC := backend reachable) (EL := quiet) fuel requests w)) id
  = true.
Proof.
  intros Hk. induction requests as [|a requests IH] using rev_ind; [done|].
  fold RC in IH |- *. rewrite handle_all_snoc. by apply handle_keeps_killed.
Qed.

(** X18: what an admin kill changes.  [kill_switch] changes no key but the
    agent's kill flag; when it answers, the flag is set; when it does not -
    unknown agent, lock not to be had - the store is as it was, so no flag
    is created for an agent without a balance. *)
Theorem kill_switch_sets_only_the_flag
  (fuel : nat) (id : string) (w : World (gmap string text)) :
  let rw := kill_switch (RC := backend reachable) (EL := quiet) fuel id w in
  (forall key, key <> key_killed id -> redis (snd rw) !! key = redis w !! key)
  /\ (forall reply, fst rw = Ret reply ->
        reply = ("killed", id) /\ killed_of (redis (snd rw)) id = true)
  /\ ((forall reply, fst rw <> Ret reply) -> redis (snd rw) = redis w)
  /\ (redis w !! key_balance id = None -> forall reply, fst rw <> Ret reply).
Proof.
  cbv zeta. fold RC.
  apply (kill_rule fuel id w
           (fun r d' =>
              (forall key, key <> key_killed id -> d' !! key = redis w !! key)
              /\ (forall reply, r = Ret reply ->
                    reply = ("killed", id) /\ killed_of d' id = true)
              /\ ((forall reply, r <> Ret reply) -> d' = redis w)
              /\ (redis w !! key_balance id = None -> forall reply, r <> Ret reply))).
  - intros r [-> | ->]; (split; [done|split; [done|split; done]]).
  - intros _. unfold kill_exits.
    destruct (redis w !! key_balance id) as [tb|]; cbn [from_option].
    2: { cbn [truthy fst snd]. split; [done|]. split; [done|]. split; done. }
    destruct (truthy (PyStr tb)); cbn [fst snd].
    + split; [intros key Hne; by rewrite lookup_insert_ne|].
      split; [|split; [|done]].
      * intros reply [= <-]. split; [done|]. unfold killed_of.
        by rewrite lookup_insert_eq.
      * intros H. by destruct (H _ eq_refl).
    + split; [done|]. split; [done|]. split; done.
Qed.

(** X19: an unknown agent is not metered.  A heartbeat task of a client whose
    agent has no balance key is answered 404 by the engine, which the
    dispatcher takes for neither a verdict nor a failure: the client and the
    store are left exactly as they were. *)
Theorem unknown_agents_are_not_metered
  (fuel : nat) (c : float) (z : bool) (t : float)
  (self : Sdk.AiyodhaClient) (w : World (gmap string text)) :
  redis w !! ("lock:" +:+ Sdk.agent_id self) = None ->
  redis w !! key_balance (Sdk.agent_id self) = None ->
  fst (report reachable (S fuel) c z t self w) = self
  /\ redis (snd (report reachable (S fuel) c z t self w)) = redis w.
Proof.
  intros Hl Hb. unfold report.
  rewrite (heartbeat_404 reachable quiet fuel (mkRequest (Sdk.agent_id self) c z) w)
    by done.
  cbn [http_status fst snd released redis]. split; [|done]. by destruct self.
Qed.
End AnyStore.

Lemma ok_reports_the_stored_balance_witness :
  let rw := heartbeat (RC := backend false) (EL := quiet) 1
              (mkRequest "Agent_007" 0.25%float false) seeded in
  status {| status := "ok"; remaining_balance := 99.75%float |} = "ok"
  /\ redis (snd rw) !! key_balance "Agent_007" = Some (Repr 99.75%float)
  /\ redis (snd rw) !! "lock:Agent_007" = None.
Proof.
  exact (ok_reports_the_stored_balance false 1 (mkRequest "Agent_007" 0.25%float false)
           seeded {| status := "ok"; remaining_balance := 99.75%float |} eq_refl).
Defined.

Lemma no_charge_without_ok_witness :
  let rw := heartbeat (RC := backend false) (EL := quiet) 1
              (mkRequest "Agent_007" 1000%float false) seeded in
  redis (snd rw) !! key_balance "Agent_007" = redis seeded !! key_balance "Agent_007"
  /\ redis (snd rw) !! key_spent "Agent_007" = redis seeded !! key_spent "Agent_007".
Proof.
  apply (no_charge_without_ok false 1 (mkRequest "Agent_007" 1000%float false) seeded).
  - intros s. vm_compute. discriminate.
  - intros response. vm_compute. discriminate.
Defined.

(** The seeded store with a spent key that is no number. *)
Lemma deduction_without_credit_witness :
  let w := mkWorld (<[key_spent "Agent_007" := Lit "n/a"]> (redis seeded)) 0%float [] in
  let rw := heartbeat (RC := backend false) (EL := quiet) 1
              (mkRequest "Agent_007" 0.25%float false) w in
  fst rw = Raise ValueError
  /\ http_status (fst rw) = Some 500
  /\ redis (snd rw) !! key_balance "Agent_007" = Some (Repr 99.75%float)
  /\ redis (snd rw) !! key_spent "Agent_007" = Some (Lit "n/a")
  /\ redis (snd rw) !! "lock:Agent_007" = None.
Proof.
  exact (deduction_without_credit false 0 (mkRequest "Agent_007" 0.25%float false)
           (mkWorld (<[key_spent "Agent_007" := Lit "n/a"]> (redis seeded)) 0%float [])
           100%float "n/a" eq_refl eq_refl eq_refl eq_refl eq_refl eq_refl).
Defined.

Lemma held_lock_shuts_out_witness :
  (forall c z,
     let rw := heartbeat (RC := backend false) (EL := quiet) 600
                 (mkRequest "Agent_007" c z) contended in
     redis (snd rw) = redis contended
     /\ (fst rw = Raise (HTTPException 503 "Service Busy: Could not acquire lock")
         \/ fst rw = Spinning)
     /\ releases "Agent_007" (trace (snd rw)) = releases "Agent_007" (trace contended))
  /\ (let rw := kill_switch (RC := backend false) (EL := quiet) 600 "Agent_007" contended in
      redis (snd rw) = redis contended
      /\ (fst rw = Raise (HTTPException 503 "Service Busy: Could not acquire lock")
          \/ fst rw = Spinning)
      /\ releases "Agent_007" (trace (snd rw)) = releases "Agent_007" (trace contended)).
Proof.
  apply (held_lock_shuts_out false 600 "Agent_007" contended).
  vm_compute. by eexists.
Defined.

Lemma status_after_heartbeat_witness :
  let rw := heartbeat (RC := backend false) (EL := quiet) 1
              (mkRequest "Agent_007" 0.25%float false) seeded in
  fst rw = Ret {| status := "ok"; remaining_balance := 99.75%float |}
  /\ fst (get_status (RC := backend false) "Agent_007" (snd rw))
     = Ret (Some {| report_agent_id := "Agent_007";
                    budget := 100%float;
                    remaining := 99.75%float;
                    spent := 0.25%float;
                    killed := false |}).
Proof.
  exact (status_after_heartbeat false 0 (mkRequest "Agent_007" 0.25%float false) seeded
           100%float 0%float eq_refl eq_refl eq_refl eq_refl eq_refl eq_refl).
Defined.

(** An agent entered into the store with a balance and nothing else. *)
Lemma status_needs_a_spent_record_witness :
  let w := mkWorld (<[key_balance "Agent_008" := Repr 10%float]> (redis seeded)) 0%float [] in
  let rw := heartbeat (RC := backend false) (EL := quiet) 1
              (mkRequest "Agent_008" 0.25%float false) w in
  fst (get_status (RC := backend false) "Agent_008" w) = Raise TypeError
  /\ fst rw = Ret {| status := "ok"; remaining_balance := 9.75%float |}
  /\ fst (get_status (RC := backend false) "Agent_008" (snd rw))
     = Ret (Some {| report_agent_id := "Agent_008";
                    budget := 10%float;
                    remaining := 9.75%float;
                    spent := 0.25%float;
                    killed := false |}).
Proof.
  exact (status_needs_a_spent_record false 0 "Agent_008" 0.25%float
           (mkWorld (<[key_balance "Agent_008" := Repr 10%float]> (redis seeded)) 0%float [])
           10%float eq_refl eq_refl eq_refl eq_refl eq_refl).
Defined.

Lemma no_request_revives_an_agent_witness :
  let w := snd (kill_switch (RC := backend false) (EL := quiet) 1 "Agent_007" seeded) in
  killed_of
    (redis (handle_all (RC := backend false) (EL := quiet) 1
              [Heartbeat (mkRequest "Agent_007" 0.05%float false); Status "Agent_007";
               KillSwitch "Agent_008"; Resilience;
               Heartbeat (mkRequest "Agent_008" (-1)%float true)] w))
    "Agent_007" = true.
Proof.
  apply (no_request_revives_an_agent false 1
           [Heartbeat (mkRequest "Agent_007" 0.05%float false); Status "Agent_007";
            KillSwitch "Agent_008"; Resilience;
            Heartbeat (mkRequest "Agent_008" (-1)%float true)]
           (snd (kill_switch (RC := backend false) (EL := quiet) 1 "Agent_007" seeded))
           "Agent_007").
  vm_compute. reflexivity.
Defined.

Lemma unknown_agents_are_not_metered_witness :
  let self := Sdk.init "Agent_HighRoller" in
  fst (report false 1 60%float false 0%float self seeded) = self
  /\ redis (snd (report false 1 60%float false 0%float self seeded)) = redis seeded.
Proof.
  exact (unknown_agents_are_not_metered false 0 60%float false 0%float
           (Sdk.init "Agent_HighRoller") seeded eq_refl eq_refl).
Defined.

(** ** The engine on the fallback store *)

(** X20: the fallback never answers 402.  With [MockRedis] behind it, on any
    store contents, any event loop and any request, [heartbeat] never ends
    with status 402: each of its three rejections first awaits [incr], which
    [MockRedis] does not have. *)
Theorem fallback_never_answers_402
  (EL : EventLoop (gmap string text)) (fuel : nat) (request : HeartbeatRequest)
  (w : World (gmap string text)) :
  http_status (fst (heartbeat (RC := backend false) (EL := EL) fuel request w)) <> Some 402.
Proof. by apply (fallback_outcome false). Qed.

(** X21: the fallback never kills a client.  Whatever heartbeat a client
    reports to an engine that runs on [MockRedis] - over budget, flagged
    as a zombie, or for an agent killed by the administrator - the answer
    never sets the client's local kill switch. *)
Theorem fallback_never_kills_a_client
  (fuel : nat) (c : float) (z : bool) (t : float)
  (self : Sdk.AiyodhaClient) (w : World (gmap string text)) :
  Sdk.local_kill_switch (fst (report false fuel c z t self w))
  = Sdk.local_kill_switch self.
Proof.
  unfold report.
  pose proof (fallback_outcome false quiet fuel (mkRequest (Sdk.agent_id self) c z) w
                eq_refl) as H.
  destruct (heartbeat _ _ _) as [r w']. cbn [fst] in *.
  destruct (http_status r) as [code|]; [|done]. cbn.
  rewrite bool_decide_eq_false_2; [done|]. congruence.
Qed.

(** X22: the fallback counts nothing.  Through any series of requests to an
    engine that runs on [MockRedis], [get_resilience_stats] keeps giving
    the reply it gave before; on a store without the two counters that
    reply is all zeros, however many heartbeats were rejected. *)
Theorem fallback_statistics_never_move
  (fuel : nat) (requests : list api) (w : World (gmap string text)) :
  let w' := handle_all (RC := backend false) (EL := quiet) fuel requests w in
  fst (get_resilience_stats (RC := backend false) w')
  = fst (get_resilience_stats (RC := backend false) w)
  /\ (redis w !! "stats:breaches" = None -> redis w !! "stats:zombies" = None ->
      fst (get_resilience_stats (RC := backend false) w')
      = Ret {| zombie_agents := 0; total_breaches := 0; circuit_breaker_trips := 0 |}).
Proof.
  cbv zeta.
  assert (G : redis (handle_all (RC := backend false) (EL := quiet) fuel requests w)
                !! "stats:breaches" = redis w !! "stats:breaches"
              /\ redis (handle_all (RC := backend false) (EL := quiet) fuel requests w)
                   !! "stats:zombies" = redis w !! "stats:zombies").
  { induction requests as [|a requests IH] using rev_ind; [done|].
    rewrite (handle_all_snoc false).
    destruct (handle_fallback_counters false fuel a
                (handle_all (RC := backend false) (EL := quiet) fuel requests w) eq_refl)
      as [-> ->].
    exact IH. }
  destruct G as [G1 G2].
  destruct (resilience_reads false
              (handle_all (RC := backend false) (EL := quiet) fuel requests w)) as [-> _].
  destruct (resilience_reads false w) as [-> _].
  rewrite G1, G2. split; [done|]. by intros -> ->.
Qed.

(** X23: a lock left behind stays.  [MockRedis.expire] does nothing, and no
    request deletes a lock it did not take: a lock key that is in the
    fallback store (left by a holder that never released it) is still there
    after any series of requests. *)
Theorem stale_lock_is_never_cleared
  (fuel : nat) (requests : list api) (w : World (gmap string text)) (id : string) :
  is_Some (redis w !! ("lock:" +:+ id)) ->
  is_Some (redis (handle_all (RC := backend false) (EL := quiet) fuel requests w)
             !! ("lock:" +:+ id)).
Proof.
  intros H. induction requests as [|a requests IH] using rev_ind; [done|].
  rewrite (handle_all_snoc false). by rewrite (handle_keeps_locks false).
Qed.

Lemma stale_lock_is_never_cleared_witness :
  is_Some (redis (handle_all (RC := backend false) (EL := quiet) 600
                    [Heartbeat (mkRequest "Agent_007" 0.05%float false);
                     KillSwitch "Agent_007"; Status "Agent_007"] contended)
             !! "lock:Agent_007").
Proof.
  apply (stale_lock_is_never_cleared 600
           [Heartbeat (mkRequest "Agent_007" 0.05%float false);
            KillSwitch "Agent_007"; Status "Agent_007"] contended "Agent_007").
  vm_compute. by eexists.
Defined.

(** X24: keys of the fallback store.  On [MockRedis] a key goes only by
    [delete]: after any series of commands with no [delete] of the key -
    [expire] among them, with any time to live - a key that was there is
    still there. *)
Theorem mock_keys_go_only_by_delete
  (cs : list command) (d : gmap string text) (key : string) :
  is_Some (d !! key) ->
  forallb (spares key) cs = true ->
  is_Some (run_commands cs d !! key).
Proof.
  revert d. induction cs as [|c cs IH]; intros d Hd Hcs; [done|].
  cbn [forallb] in Hcs. apply andb_prop in Hcs as [Hc Hcs].
  unfold run_commands in *. cbn [fold_left]. apply IH; [|done].
  destruct c as [k|k v|k v|k|k a|k a|k t|k]; cbn [MockRedis.getattr snd]; try done.
  - unfold MockRedis.set. cbn [snd].
    destruct (decide (k = key)) as [->|Hne];
      [by rewrite lookup_insert_eq|by rewrite lookup_insert_ne].
  - unfold MockRedis.setnx. destruct (d !! k); cbn [snd]; [done|].
    destruct (decide (k = key)) as [->|Hne];
      [by rewrite lookup_insert_eq|by rewrite lookup_insert_ne].
  - unfold MockRedis.delete. cbn [spares] in Hc.
    destruct (String.eqb_spec k key) as [->|Hne]; [done|].
    destruct (d !! k); cbn [snd]; [by rewrite lookup_delete_ne|done].
  - unfold MockRedis.decrby. destruct (MockRedis.current k d); cbn [snd]; try done.
    destruct (decide (k = key)) as [->|Hne];
      [by rewrite lookup_insert_eq|by rewrite lookup_insert_ne].
  - unfold MockRedis.incrbyfloat. destruct (MockRedis.current k d); cbn [snd]; try done.
    destruct (decide (k = key)) as [->|Hne];
      [by rewrite lookup_insert_eq|by rewrite lookup_insert_ne].
Qed.

Lemma mock_keys_go_only_by_delete_witness :
  is_Some (run_commands
             [EXPIRE "lock:Agent_007" 5; EXPIRE "lock:Agent_007" 0;
              SETNX "lock:Agent_007" (PyStr (Lit "locked")); DELETE "lock:Agent_008";
              INCR "lock:Agent_007"]
             (redis contended) !! "lock:Agent_007").
Proof.
  apply (mock_keys_go_only_by_delete
           [EXPIRE "lock:Agent_007" 5; EXPIRE "lock:Agent_007" 0;
            SETNX "lock:Agent_007" (PyStr (Lit "locked")); DELETE "lock:Agent_008";
            INCR "lock:Agent_007"]
           (redis contended) "lock:Agent_007").
  - vm_compute. by eexists.
  - reflexivity.
Defined.

(** ** The statistics endpoints *)

Module Stats.
Import Latency.
Local Open Scope list_scope.

(** Of two floats that are not NaN, one is at most the other. *)
Lemma compare_total x y :
  PrimFloat.leb x x = true -> PrimFloat.leb y y = true ->
  PrimFloat.ltb x y = false -> PrimFloat.leb y x = true.
Proof.
  rewrite !FloatOrder.leb_Le. intros Hx Hy Hlt.
  assert (Hc : exists c, SFcompare (Prim2SF x) (Prim2SF y) = Some c).
  { destruct (Prim2SF x) as [sx|sx| |sx mx ex], (Prim2SF y) as [sy|sy| |sy my ey];
      cbn in *; try (by eexists); destruct Hx, Hy; discriminate. }
  destruct Hc as [c Hc]. pose proof (FloatOrder.SFcompare_antisym _ _ _ Hc) as Ha.
  destruct c; cbn in Ha; [by right| |by left].
  apply FloatOrder.ltb_Lt in Hc. congruence.
Qed.

Lemma ltb_leb x y : PrimFloat.ltb x y = true -> PrimFloat.leb x y = true.
Proof. rewrite FloatOrder.ltb_Lt, FloatOrder.leb_Le. by left. Qed.

Lemma py_max_bounds rest : forall first,
  Forall (fun x => PrimFloat.leb x x = true) (first :: rest) ->
  In (py_max first rest) (first :: rest)
  /\ Forall (fun x => PrimFloat.leb x (py_max first rest) = true) (first :: rest).
Proof.
  induction rest as [|x rest IH]; intros first Hall.
  - inversion Hall; subst. cbn. split; [by left|]. by repeat constructor.
  - inversion Hall as [|? ? Hf Hrest]; subst. inversion Hrest as [|? ? Hx Hrest']; subst.
    unfold py_max in *. cbn [fold_left].
    set (kept := if PrimFloat.ltb first x then x else first).
    assert (Hk : PrimFloat.leb kept kept = true) by (unfold kept; by destruct (PrimFloat.ltb _ _)).
    assert (Hall' : Forall (fun x => PrimFloat.leb x x = true) (kept :: rest))
      by (by constructor).
    destruct (IH kept Hall') as [Hin Hle].
    inversion Hle as [|? ? Hkm Hrm]; subst.
    assert (Hfk : PrimFloat.leb first kept = true /\ PrimFloat.leb x kept = true).
    { unfold kept. destruct (PrimFloat.ltb first x) eqn:E.
      - split; [by apply ltb_leb|done].
      - split; [done|by apply compare_total]. }
    destruct Hfk as [Hfk Hxk]. split.
    + destruct Hin as [Hin|Hin]; [|right; by right].
      rewrite <- Hin. unfold kept. destruct (PrimFloat.ltb first x);
        [right; by left|by left].
    + constructor; [by eapply FloatOrder.leb_trans|].
      constructor; [by eapply FloatOrder.leb_trans|done].
Qed.

Lemma py_min_bounds rest : forall first,
  Forall (fun x => PrimFloat.leb x x = true) (first :: rest) ->
  In (py_min first rest) (first :: rest)
  /\ Forall (fun x => PrimFloat.leb (py_min first rest) x = true) (first :: rest).
Proof.
  induction rest as [|x rest IH]; intros first Hall.
  - inversion Hall; subst. cbn. split; [by left|]. by repeat constructor.
  - inversion Hall as [|? ? Hf Hrest]; subst. inversion Hrest as [|? ? Hx Hrest']; subst.
    unfold py_min in *. cbn [fold_left].
    set (kept := if PrimFloat.ltb x first then x else first).
    assert (Hk : PrimFloat.leb kept kept = true) by (unfold kept; by destruct (PrimFloat.ltb _ _)).
    assert (Hall' : Forall (fun x => PrimFloat.leb x x = true) (kept :: rest))
      by (by constructor).
    destruct (IH kept Hall') as [Hin Hle].
    inversion Hle as [|? ? Hkm Hrm]; subst.
    assert (Hfk : PrimFloat.leb kept first = true /\ PrimFloat.leb kept x = true).
    { unfold kept. destruct (PrimFloat.ltb x first) eqn:E.
      - split; [by apply ltb_leb|done].
      - split; [done|by apply compare_total]. }
    destruct Hfk as [Hfk Hxk]. split.
    + destruct Hin as [Hin|Hin]; [|right; by right].
      rewrite <- Hin. unfold kept. destruct (PrimFloat.ltb x first);
        [right; by left|by left].
    + constructor; [by eapply FloatOrder.leb_trans|].
      constructor; [by eapply FloatOrder.leb_trans|done].
Qed.

Lemma parse_malformed lines : In Malformed lines -> parse lines = None.
Proof.
  induction lines as [|l lines IH]; [done|]. intros [->|Hin]; [done|].
  cbn. destruct l; [by apply IH|by rewrite IH|done].
Qed.

(** The numbers of a log without a malformed line: its numerals, in order. *)
Lemma parse_numerals lines :
  ~ In Malformed lines ->
  parse lines
  = Some (omap (fun l => match l with Numeral x => Some x | _ => None end) lines).
Proof.
  induction lines as [|l lines IH]; [done|]. intros Hno. cbn [parse omap].
  destruct l; cbn.
  - apply IH. intros H. apply Hno. by right.
  - rewrite IH; [done|]. intros H. apply Hno. by right.
  - destruct Hno. by left.
Qed.
End Stats.

(** X25: one bad line empties the latency statistics.  The whole log is
    parsed before its last 50 entries are taken: a single line that is no
    number, anywhere in the file, makes [get_latency_stats] answer as if
    there were no data. *)
Theorem one_bad_line_empties_the_latency_stats (lines : list Latency.line) :
  In Latency.Malformed lines ->
  Latency.get_latency_stats (Some lines) = Latency.no_data.
Proof.
  intros H. unfold Latency.get_latency_stats. by rewrite Stats.parse_malformed.
Qed.

Lemma one_bad_line_empties_the_latency_stats_witness :
  Latency.get_latency_stats
    (Some (Latency.Malformed :: repeat (Latency.Numeral 0.5%float) 60))
  = Latency.no_data.
Proof.
  apply (one_bad_line_empties_the_latency_stats
           (Latency.Malformed :: repeat (Latency.Numeral 0.5%float) 60)).
  by left.
Defined.

(** X26: the latency window.  On a log with no malformed line and at least
    one number, [get_latency_stats] reports the last 50 numbers of the file
    in file order (blank lines skipped) and their count; and when none of
    them is a NaN, the reported min and max are entries of that history
    which bound every entry. *)
Theorem latency_stats_cover_the_last_fifty (lines : list Latency.line) :
  ~ In Latency.Malformed lines ->
  let numbers :=
    omap (fun l => match l with Latency.Numeral x => Some x | _ => None end) lines in
  numbers <> [] ->
  let reply := Latency.get_latency_stats (Some lines) in
  Latency.history reply = last_n 50 numbers
  /\ Latency.count reply = Z.of_nat (Nat.min 50 (length numbers))
  /\ (Forall (fun x => PrimFloat.leb x x = true) (Latency.history reply) ->
      exists lo hi,
        Latency.min reply = PyFloat lo /\ Latency.max reply = PyFloat hi
        /\ In lo (Latency.history reply) /\ In hi (Latency.history reply)
        /\ Forall (fun x => PrimFloat.leb lo x = true /\ PrimFloat.leb x hi = true)
             (Latency.history reply)).
Proof.
  intros Hno numbers Hne reply. unfold reply, Latency.get_latency_stats.
  rewrite (Stats.parse_numerals lines Hno). fold numbers. cbv zeta.
  assert (Hlen : length (last_n 50 numbers) = Nat.min 50 (length numbers)).
  { unfold last_n. rewrite length_skipn. lia. }
  destruct (last_n 50 numbers) as [|first rest] eqn:E.
  { destruct numbers; [done|]. cbn [length] in Hlen. lia. }
  cbn [Latency.history Latency.count Latency.min Latency.max].
  split; [done|]. split; [by rewrite Hlen|]. intros Hnan.
  destruct (Stats.py_max_bounds rest first Hnan) as [Hin Hmax].
  destruct (Stats.py_min_bounds rest first Hnan) as [Hin' Hmin].
  exists (Latency.py_min first rest), (Latency.py_max first rest).
  split; [done|]. split; [done|]. split; [done|]. split; [done|].
  rewrite List.Forall_forall in *. intros x Hx. split; [by apply Hmin|by apply Hmax].
Qed.

Lemma latency_stats_cover_the_last_fifty_witness :
  let lines := [Latency.Numeral 0.25%float; Latency.Blank; Latency.Numeral 0.125%float;
                Latency.Numeral 0.5%float] in
  let reply := Latency.get_latency_stats (Some lines) in
  Latency.history reply = last_n 50 [0.25; 0.125; 0.5]%float
  /\ Latency.count reply = Z.of_nat (Nat.min 50 3)
  /\ (Forall (fun x => PrimFloat.leb x x = true) (Latency.history reply) ->
      exists lo hi,
        Latency.min reply = PyFloat lo /\ Latency.max reply = PyFloat hi
        /\ In lo (Latency.history reply) /\ In hi (Latency.history reply)
        /\ Forall (fun x => PrimFloat.leb lo x = true /\ PrimFloat.leb x hi = true)
             (Latency.history reply)).
Proof.
  apply (latency_stats_cover_the_last_fifty
           [Latency.Numeral 0.25%float; Latency.Blank; Latency.Numeral 0.125%float;
            Latency.Numeral 0.5%float]).
  - cbn. intros [H|[H|[H|[H|[]]]]]; discriminate.
  - discriminate.
Defined.

(** X27: the resilience statistics swallow their errors.  On every store
    [get_resilience_stats] answers and leaves the store as it was; a counter
    that is absent reads as 0; and when either counter holds the text of a
    float, which [int] refuses, both are reported as 0. *)
Theorem resilience_stats_swallow_errors
  (reachable : bool) (w : World (gmap string text)) :
  let rw := get_resilience_stats (RC := backend reachable) w in
  (exists reply, fst rw = Ret reply /\ circuit_breaker_trips reply = 0)
  /\ redis (snd rw) = redis w
  /\ (forall zombies breaches,
        redis w !! "stats:zombies" = Some (Dec zombies) ->
        redis w !! "stats:breaches" = Some (Dec breaches) ->
        fst rw = Ret {| zombie_agents := zombies; total_breaches := breaches;
                        circuit_breaker_trips := 0 |})
  /\ (redis w !! "stats:zombies" = None -> forall breaches,
        redis w !! "stats:breaches" = Some (Dec breaches) ->
        fst rw = Ret {| zombie_agents := 0; total_breaches := breaches;
                        circuit_breaker_trips := 0 |})
  /\ (forall f,
        redis w !! "stats:zombies" = Some (Repr f)
        \/ redis w !! "stats:breaches" = Some (Repr f) ->
        fst rw = Ret {| zombie_agents := 0; total_breaches := 0;
                        circuit_breaker_trips := 0 |}).
Proof.
  cbv zeta. destruct (resilience_reads reachable w) as [-> ->].
  split; [|split; [done|split; [|split]]].
  - destruct (py_int (or_zero (from_option PyStr PyNone (redis w !! "stats:zombies"))));
      destruct (py_int (or_zero (from_option PyStr PyNone (redis w !! "stats:breaches"))));
      by eexists.
  - by intros zombies breaches -> ->.
  - by intros -> breaches ->.
  - intros f [-> | ->]; cbn [from_option or_zero truthy py_int]; [done|].
    by destruct (py_int (or_zero (from_option PyStr PyNone (redis w !! "stats:zombies")))).
Qed.
